(** * Synthetic hospital data generator: model and verification

    Shallow embedding of [scripts/01_generate_data.py] and [config.py].

    The generator is written against two process-wide pseudo-random
    sources: Python's [random] module and NumPy's global [np.random]
    (used by [DataFrame.sample]).  Both are modelled as a tape of raw
    draws with a cursor; every sampling call reads the next raw draw of
    its own source and advances that cursor.  Calls that raise in Python
    ([ValueError] when sampling from an empty frame, [IndexError] on an
    empty [random.choice]) are modelled with an error result.

    Timestamps have minute resolution in the generator (they are built
    from whole days, hours and minutes only), so a timestamp is the
    number of minutes since 1970-01-01T00:00 and a date is a day number.

    Columns filled by the Faker library (names, addresses, phone numbers,
    dates of birth, hire dates) are drawn from Faker's own generator and
    are read by no fact generator; they are left out of the dimension
    records.  Amounts produced by [round(random.uniform(a, b), d)] are
    held as integers counting units of [10^-d]. *)

From Stdlib Require Import ZArith NArith List String Ascii Bool Lia.
From Stdlib Require Import DecimalString.
Import ListNotations.
Open Scope Z_scope.

(* ------------------------------------------------------------------ *)
(** ** Seeded random sources and the effect monad *)

Record Rng := { tape : N -> N; cursor : N }.

Definition next (g : Rng) : N * Rng :=
  (tape g (cursor g), {| tape := tape g; cursor := N.succ (cursor g) |}).

Record World := { py_random : Rng; np_random : Rng }.

Inductive exn := ValueError | IndexError.

Inductive Res (A : Type) :=
| Ok (a : A) (w : World)
| Raise (e : exn).
Arguments Ok {A} a w.
Arguments Raise {A} e.

Definition M (A : Type) := World -> Res A.

Definition ret {A} (a : A) : M A := fun w => Ok a w.

Definition bind {A B} (m : M A) (k : A -> M B) : M B :=
  fun w => match m w with
           | Ok a w1 => k a w1
           | Raise e => Raise e
           end.

Definition raise {A} (e : exn) : M A := fun _ => Raise e.

Notation "x <- m ;; k" := (bind m (fun x => k))
  (at level 61, m at next level, right associativity).
Notation "' pat <- m ;; k" := (bind m (fun x => match x with pat => k end))
  (at level 61, pat pattern, m at next level, right associativity).

Definition is_ok {A} (r : Res A) : bool :=
  match r with Ok _ _ => true | Raise _ => false end.

(** One raw draw from Python's [random] module. *)
Definition py_draw : M N := fun w =>
  let (r, g) := next (py_random w) in
  Ok r {| py_random := g; np_random := np_random w |}.

(** One raw draw from NumPy's global generator. *)
Definition np_draw : M N := fun w =>
  let (r, g) := next (np_random w) in
  Ok r {| py_random := py_random w; np_random := g |}.

(** [random.randint(a, b)]: an integer of the closed range; an empty
    range raises [ValueError]. *)
Definition randint (a b : Z) : M Z :=
  if b <? a then raise ValueError
  else r <- py_draw ;; ret (a + Z.of_N r mod (b - a + 1)).

(** [random.choice(seq)]: [IndexError] on an empty sequence. *)
Definition choice {A} (l : list A) : M A :=
  match l with
  | [] => raise IndexError
  | _ :: _ =>
      r <- py_draw ;;
      match nth_error l (N.to_nat (r mod N.of_nat (List.length l))) with
      | Some x => ret x
      | None => raise IndexError
      end
  end.

(** [random.random()] returns [k / 2^53] for an integer [0 <= k < 2^53];
    the model returns the numerator [k]. *)
Definition two53 : Z := 9007199254740992.

Definition random : M Z :=
  r <- py_draw ;; ret (Z.of_N r mod two53).

(** [random.random() > 0.3]: the double nearest to 0.3 is
    [5404319552844595 / 2^54], so [k / 2^53 > 0.3] iff
    [2 * k > 5404319552844595]. *)
Definition gt_0_3 (k : Z) : bool := 5404319552844595 <? 2 * k.

(** [random.random() > 0.9]: the double nearest to 0.9 is
    [8106479329266893 / 2^53]. *)
Definition gt_0_9 (k : Z) : bool := 8106479329266893 <? k.

(** [round(random.uniform(a, b), d)] in units of [10^-d]: [lo] and [hi]
    are [a] and [b] in those units, and the result lies between them. *)
Definition uniform_round (lo hi : Z) : M Z :=
  r <- py_draw ;; ret (lo + Z.of_N r mod (hi - lo + 1)).

(** Removes the element at position [i]. *)
Fixpoint remove_nth {A} (i : nat) (l : list A) : list A :=
  match l, i with
  | [], _ => []
  | _ :: t, O => t
  | x :: t, S j => x :: remove_nth j t
  end.

(** [df.sample(1).iloc[0]]: one row; sampling from an empty frame raises
    [ValueError]. *)
Definition sample1 {A} (l : list A) : M A :=
  match l with
  | [] => raise ValueError
  | _ :: _ =>
      r <- np_draw ;;
      match nth_error l (N.to_nat (r mod N.of_nat (List.length l))) with
      | Some x => ret x
      | None => raise ValueError
      end
  end.

(** [df.sample(n)]: [n] rows without replacement; asking for more rows
    than the frame holds raises [ValueError]. *)
Fixpoint sample_rows {A} (n : nat) (l : list A) : M (list A) :=
  match n with
  | O => ret []
  | S m =>
      match l with
      | [] => raise ValueError
      | _ :: _ =>
          r <- np_draw ;;
          let i := N.to_nat (r mod N.of_nat (List.length l)) in
          match nth_error l i with
          | Some x => rest <- sample_rows m (remove_nth i l) ;; ret (x :: rest)
          | None => raise ValueError
          end
      end
  end.

Definition sample {A} (n : Z) (l : list A) : M (list A) :=
  if n <? 0 then raise ValueError else sample_rows (Z.to_nat n) l.

(** Python's [round] of the quotient [num * len / den]: to the nearest
    integer, a tie going to the even one. *)
Definition round_half_even (num den : Z) : Z :=
  let q := num / den in
  let r := num mod den in
  if 2 * r <? den then q
  else if den <? 2 * r then q + 1
  else if Z.even q then q else q + 1.

(** [df.sample(frac=num/10)]: [round(frac * len(df))] rows without
    replacement. *)
Definition sample_frac {A} (tenths : Z) (l : list A) : M (list A) :=
  sample (round_half_even (tenths * Z.of_nat (List.length l)) 10) l.

(** [for x in xs: body], threading the loop-carried variables [s]. *)
Fixpoint for_each {X S} (xs : list X) (body : S -> X -> M S) (s : S) : M S :=
  match xs with
  | [] => ret s
  | x :: rest => s1 <- body s x ;; for_each rest body s1
  end.

(** [rows.append(row)] *)
Definition append {A} (rows : list A) (row : A) : list A := rows ++ [row].

(** [range(n)] *)
Definition range (n : Z) : list Z :=
  map Z.of_nat (seq 0 (Z.to_nat n)).

(** [range(1, n + 1)] *)
Definition range1 (n : Z) : list Z :=
  map Z.of_nat (seq 1 (Z.to_nat n)).

(** Python list indexing [l[i]]: a negative index counts from the end,
    an index out of range raises [IndexError]. *)
Definition py_index {A} (l : list A) (i : Z) : M A :=
  let j := if i <? 0 then i + Z.of_nat (List.length l) else i in
  if j <? 0 then raise IndexError
  else match nth_error l (Z.to_nat j) with
       | Some x => ret x
       | None => raise IndexError
       end.

(* ------------------------------------------------------------------ *)
(** ** Dates and timestamps *)

Definition datetime := Z.   (* minutes since 1970-01-01T00:00 *)
Definition date := Z.       (* days since 1970-01-01 *)

Definition minutes_per_day : Z := 1440.

(** [timedelta(days=d, hours=h, minutes=m)] *)
Definition timedelta (d h m : Z) : Z := d * minutes_per_day + h * 60 + m.

(** [delta.days]: whole days, rounded towards minus infinity. *)
Definition td_days (delta : Z) : Z := delta / minutes_per_day.

(** [dt.date()] *)
Definition date_of (dt : datetime) : date := dt / minutes_per_day.

Definition is_leap (y : Z) : bool :=
  ((y mod 4 =? 0) && negb (y mod 100 =? 0)) || (y mod 400 =? 0).

Definition days_in_month (y m : Z) : Z :=
  if m =? 2 then (if is_leap y then 29 else 28)
  else if (m =? 4) || (m =? 6) || (m =? 9) || (m =? 11) then 30
  else 31.

(** Day number of a calendar date of the proleptic Gregorian calendar. *)
Definition days_from_civil (y m d : Z) : Z :=
  let y1 := if m <=? 2 then y - 1 else y in
  let era := y1 / 400 in
  let yoe := y1 - era * 400 in
  let mp := if 2 <? m then m - 3 else m + 9 in
  let doy := (153 * mp + 2) / 5 + d - 1 in
  let doe := yoe * 365 + yoe / 4 - yoe / 100 + doy in
  era * 146097 + doe - 719468.

Definition ymd := (Z * Z * Z)%type.

(** [pd.to_datetime("YYYY-MM-DD")] *)
Definition to_datetime (s : ymd) : datetime :=
  let '(y, m, d) := s in days_from_civil y m d * minutes_per_day.

(** [ts + pd.DateOffset(years=n)]: same month and day [n] years later,
    the day clipped to the length of the month. *)
Definition add_years (s : ymd) (n : Z) : ymd :=
  let '(y, m, d) := s in
  (y + n, m, Z.min d (days_in_month (y + n) m)).

(* ------------------------------------------------------------------ *)
(** ** Strings *)

Open Scope string_scope.

(** [str(n)] for an integer. *)
Definition str (n : Z) : string := NilZero.string_of_int (Z.to_int n).

(** [s.zfill(width)] for a string without sign. *)
Definition zfill (width : nat) (s : string) : string :=
  let fix zeros (k : nat) : string :=
    match k with O => "" | S j => String "0" (zeros j) end in
  zeros (width - String.length s)%nat ++ s.

(** [sub in s] *)
Fixpoint contains (sub s : string) : bool :=
  String.prefix sub s ||
  match s with
  | EmptyString => false
  | String _ rest => contains sub rest
  end.

Definition upper_char (c : ascii) : ascii :=
  let n := nat_of_ascii c in
  if (97 <=? n)%nat && (n <=? 122)%nat then ascii_of_nat (n - 32) else c.

(** [s.upper()] on ASCII text. *)
Fixpoint upper (s : string) : string :=
  match s with
  | EmptyString => EmptyString
  | String c rest => String (upper_char c) (upper rest)
  end.

(** [s[:n]] *)
Fixpoint take_prefix (n : nat) (s : string) : string :=
  match n, s with
  | S k, String c rest => String c (take_prefix k rest)
  | _, _ => EmptyString
  end.

(** [sep.join(parts)] *)
Fixpoint join (sep : string) (parts : list string) : string :=
  match parts with
  | [] => ""
  | [p] => p
  | p :: rest => p ++ sep ++ join sep rest
  end.

(** [str(x)] for a float [x = tenths / 10] holding one decimal place. *)
Definition str_tenths (tenths : Z) : string :=
  str (tenths / 10) ++ "." ++ str (tenths mod 10).

(** Membership in a list of strings ([Series.isin]). *)
Definition isin (s : string) (l : list string) : bool :=
  existsb (String.eqb s) l.

(* ------------------------------------------------------------------ *)
(** ** Reference catalog ([config.py]) *)

Definition NUM_PATIENTS : Z := 500.
Definition NUM_STAFF : Z := 150.
Definition NUM_WARDS : Z := 12.
Definition NUM_YEARS : Z := 5.
Definition START_DATE : ymd := (2020, 1, 1)%Z.

Module Ward.
Record t := mk {
  ward_id : Z;
  ward_name : string;
  department : string;
  bed_capacity : Z;
  ward_type : string;
  floor_number : Z
}.
End Ward.

Definition WARDS : list Ward.t := [
  Ward.mk 1 "ICU" "Critical Care" 20 "Intensive Care" 3;
  Ward.mk 2 "ICU-2" "Critical Care" 20 "Intensive Care" 3;
  Ward.mk 3 "Emergency" "Emergency Medicine" 30 "Emergency" 1;
  Ward.mk 4 "Cardiology" "Cardiac Care" 25 "Specialty" 4;
  Ward.mk 5 "Maternity" "Obstetrics" 20 "Specialty" 2;
  Ward.mk 6 "Pediatrics" "Pediatrics" 30 "Specialty" 2;
  Ward.mk 7 "Surgery" "Surgical Services" 25 "Surgical" 5;
  Ward.mk 8 "Orthopedics" "Orthopedics" 20 "Specialty" 5;
  Ward.mk 9 "Oncology" "Cancer Care" 15 "Specialty" 6;
  Ward.mk 10 "General Medicine A" "Internal Medicine" 40 "General" 4;
  Ward.mk 11 "General Medicine B" "Internal Medicine" 40 "General" 4;
  Ward.mk 12 "Neurology" "Neurosciences" 20 "Specialty" 6
].

Definition STAFF_ROLES : list string := [
  "Attending Physician"; "Resident"; "Nurse Practitioner";
  "Registered Nurse"; "Licensed Practical Nurse"; "Nursing Assistant";
  "Physical Therapist"; "Occupational Therapist";
  "Respiratory Therapist"; "Pharmacist"
].

Definition MEDICATION_CLASSES : list string := [
  "Antibiotic"; "Analgesic"; "Anticoagulant"; "Antihypertensive";
  "Diuretic"; "Antidiabetic"; "Anticonvulsant"; "Bronchodilator";
  "Sedative"; "Antidepressant"
].

(** An entry of [COMMON_DIAGNOSES]; [generate_diagnoses] adds the id. *)
Module DiagnosisEntry.
Record t := mk {
  icd10_code : string;
  diagnosis_name : string;
  category : string;
  severity_level : string
}.
End DiagnosisEntry.

Definition COMMON_DIAGNOSES : list DiagnosisEntry.t := [
  DiagnosisEntry.mk "I21.9" "Acute Myocardial Infarction" "Cardiovascular" "Critical";
  DiagnosisEntry.mk "J18.9" "Pneumonia" "Respiratory" "Moderate";
  DiagnosisEntry.mk "I50.9" "Heart Failure" "Cardiovascular" "Serious";
  DiagnosisEntry.mk "N39.0" "Urinary Tract Infection" "Genitourinary" "Mild";
  DiagnosisEntry.mk "E11.9" "Type 2 Diabetes Mellitus" "Endocrine" "Moderate";
  DiagnosisEntry.mk "I63.9" "Cerebral Infarction (Stroke)" "Neurological" "Critical";
  DiagnosisEntry.mk "J44.1" "COPD with Exacerbation" "Respiratory" "Moderate";
  DiagnosisEntry.mk "K80.2" "Cholecystitis" "Digestive" "Moderate";
  DiagnosisEntry.mk "S72.0" "Hip Fracture" "Injury" "Serious";
  DiagnosisEntry.mk "C50.9" "Breast Cancer" "Neoplasm" "Serious";
  DiagnosisEntry.mk "I10" "Essential Hypertension" "Cardiovascular" "Mild";
  DiagnosisEntry.mk "K21.9" "GERD" "Digestive" "Mild"
].

(** [VITAL_SIGNS_RANGES]; the temperature bounds are in tenths of a
    degree Celsius. *)
Definition VITAL_SIGNS_RANGES : list (string * (Z * Z)) := [
  ("blood_pressure_systolic", (90, 180)%Z);
  ("blood_pressure_diastolic", (60, 120)%Z);
  ("heart_rate", (50, 120)%Z);
  ("temperature", (360, 390)%Z);
  ("respiratory_rate", (12, 25)%Z);
  ("oxygen_saturation", (85, 100)%Z);
  ("pain_level", (0, 10)%Z)
].

(** Dictionary lookup [d[key]] on an association list. *)
Fixpoint lookup {V} (key : string) (d : list (string * V)) : option V :=
  match d with
  | [] => None
  | (k, v) :: rest => if String.eqb k key then Some v else lookup key rest
  end.

(* ------------------------------------------------------------------ *)
(** ** Dimension tables *)

Module Patient.
Record t := mk {
  patient_id : Z;
  mrn : string;
  gender : string;
  blood_type : string;
  insurance_provider : string;
  effective_date : ymd;
  is_current : bool
}.
End Patient.

Module Staff.
Record t := mk {
  staff_id : Z;
  role : string;
  department : string;
  shift_pattern : string;
  qualifications : string;
  is_active : bool
}.
End Staff.

Module Medication.
Record t := mk {
  medication_id : Z;
  drug_class : string;
  dosage_form : string;
  manufacturer : string;
  cost_per_unit : Z;          (* cents *)
  contraindications : string
}.
End Medication.

Module Procedure.
Record t := mk {
  procedure_id : Z;
  procedure_type : string;
  department : string;
  avg_duration_minutes : Z;
  base_cost : Z;              (* cents *)
  requires_anesthesia : bool
}.
End Procedure.

Module Diagnosis.
Record t := mk {
  icd10_code : string;
  diagnosis_name : string;
  category : string;
  severity_level : string;
  diagnosis_id : Z
}.
End Diagnosis.

Module Bed.
Record t := mk {
  bed_id : Z;
  ward_id : Z;
  bed_number : string;
  bed_type : string;
  has_ventilator : bool;
  has_monitor : bool;
  is_available : bool
}.
End Bed.

(** The loops of the dimension generators append one row per index. *)
Definition generate_patients (n : Z) : M (list Patient.t) :=
  let genders := ["Male"; "Female"; "Other"] in
  let blood_types := ["A+"; "A-"; "B+"; "B-"; "AB+"; "AB-"; "O+"; "O-"] in
  let insurance_providers :=
    ["Blue Cross"; "Aetna"; "UnitedHealthcare"; "Cigna"; "Medicare"; "Medicaid"] in
  for_each (range1 n) (fun patients i =>
    gender <- choice genders ;;
    blood <- choice blood_types ;;
    insurance <- choice insurance_providers ;;
    ret (append patients (Patient.mk i ("MRN" ++ zfill 8 (str i)) gender blood
                                 insurance START_DATE true))) [].

Definition generate_staff (n : Z) : M (list Staff.t) :=
  let shift_patterns := ["Day"; "Night"; "Rotating"; "On-Call"] in
  for_each (range1 n) (fun staff i =>
    role <- choice STAFF_ROLES ;;
    department <- choice (map Ward.department WARDS) ;;
    shift <- choice shift_patterns ;;
    ret (append staff (Staff.mk i role department shift ("Licensed " ++ role) true))) [].

Definition generate_wards : list Ward.t := WARDS.

Definition generate_medications (n : Z) : M (list Medication.t) :=
  let dosage_forms :=
    ["Tablet"; "Capsule"; "Injection"; "IV Solution"; "Topical Cream"; "Inhaler"] in
  let manufacturers :=
    ["Pfizer"; "Novartis"; "Roche"; "Merck"; "GSK"; "AstraZeneca"] in
  for_each (range1 n) (fun medications i =>
    drug_class <- choice MEDICATION_CLASSES ;;
    form <- choice dosage_forms ;;
    manufacturer <- choice manufacturers ;;
    cost <- uniform_round 50 50000 ;;
    ret (append medications (Medication.mk i drug_class form manufacturer cost
                                       ("Allergy to " ++ drug_class)))) [].

Definition generate_procedures (n : Z) : M (list Procedure.t) :=
  let procedure_types := ["Diagnostic"; "Therapeutic"; "Surgical"; "Rehabilitative"] in
  for_each (range1 n) (fun procedures i =>
    procedure_type <- choice procedure_types ;;
    department <- choice (map Ward.department WARDS) ;;
    duration <- randint 15 480 ;;
    cost <- uniform_round 10000 5000000 ;;
    ret (append procedures (Procedure.mk i procedure_type department duration cost
                                     (String.eqb procedure_type "Surgical")))) [].

(** [df['diagnosis_id'] = range(1, len(df) + 1)] *)
Fixpoint number_diagnoses (entries : list DiagnosisEntry.t) (i : Z)
  : list Diagnosis.t :=
  match entries with
  | [] => []
  | e :: rest =>
      Diagnosis.mk (DiagnosisEntry.icd10_code e) (DiagnosisEntry.diagnosis_name e)
                   (DiagnosisEntry.category e) (DiagnosisEntry.severity_level e) i
      :: number_diagnoses rest (i + 1)
  end.

Definition generate_diagnoses : list Diagnosis.t :=
  number_diagnoses COMMON_DIAGNOSES 1.

(** The loop-carried variables of [generate_beds] are the list of beds
    and the next [bed_id]. *)
Definition generate_beds : M (list Bed.t) :=
  '(beds, _) <-
    for_each WARDS (fun st ward =>
      for_each (range1 (Ward.bed_capacity ward)) (fun '(beds, bed_id) bed_num =>
        let bed_type :=
          if contains "ICU" (Ward.ward_name ward) then "ICU" else "Standard" in
        available <- choice [true; false] ;;
        ret (append beds (Bed.mk bed_id (Ward.ward_id ward)
                        (upper (take_prefix 3 (Ward.ward_name ward)) ++ "-" ++
                         zfill 3 (str bed_num))
                        bed_type (String.eqb bed_type "ICU") true available),
             (bed_id + 1)%Z)) st) ([], 1%Z) ;;
  ret beds.

(* ------------------------------------------------------------------ *)
(** ** Admissions *)

Module Admission.
Record t := mk {
  admission_id : Z;
  patient_id : Z;
  ward_id : Z;
  bed_id : Z;
  admission_date : date;
  admission_datetime : datetime;
  discharge_date : date;
  discharge_datetime : datetime;
  admission_type : string;
  chief_complaint : string;
  primary_diagnosis_id : Z;
  secondary_diagnosis_ids : string;
  attending_doctor_id : Z;
  length_of_stay : Z;
  is_readmission : bool;
  readmission_days_since_discharge : option Z;
  discharge_disposition : string;
  total_charges : Z           (* cents *)
}.
End Admission.

Definition is_doctor (s : Staff.t) : bool :=
  isin (Staff.role s) ["Attending Physician"; "Resident"].

Definition is_nurse (s : Staff.t) : bool :=
  String.eqb (Staff.role s) "Registered Nurse".

(** Length of stay by the severity of the sampled diagnosis. *)
Definition sample_los (diagnosis : Diagnosis.t) : M Z :=
  if String.eqb (Diagnosis.severity_level diagnosis) "Critical" then randint 5 21
  else if String.eqb (Diagnosis.severity_level diagnosis) "Serious" then randint 3 14
  else randint 1 7.

(** The readmission check made for the admission numbered [adm_num] of
    a patient, when [admissions] rows were appended so far and the next
    id is [admission_id]. *)
Definition check_readmission (admissions : list Admission.t) (admission_id : Z)
    (adm_num : Z) (admission_datetime : datetime) : M bool :=
  if (0 <? adm_num)%Z then
    prev <- py_index admissions (admission_id - 2) ;;
    let prev_discharge := Admission.discharge_datetime prev in
    let days_since := td_days (admission_datetime - prev_discharge) in
    if (days_since <=? 30)%Z then ret true else ret false
  else ret false.

(** Body of the inner loop of [generate_admissions]: one admission of
    [patient]. *)
Definition generate_admission (patient : Patient.t)
    (wards_df : list Ward.t) (diagnoses_df : list Diagnosis.t)
    (staff_df : list Staff.t) (beds_df : list Bed.t)
    (start end_ : datetime)
    (st : list Admission.t * Z) (adm_num : Z) : M (list Admission.t * Z) :=
  let '(admissions, admission_id) := st in
  let admission_types := ["Emergency"; "Scheduled"; "Transfer"] in
  let dispositions :=
    ["Home"; "Rehab Facility"; "Nursing Home"; "Expired"; "Transfer"; "Left AMA"] in
  days_offset <- randint 0 (td_days (end_ - start)) ;;
  hours <- randint 0 23 ;;
  minutes <- randint 0 59 ;;
  let admission_datetime := start + timedelta days_offset hours minutes in
  diagnosis <- sample1 diagnoses_df ;;
  los <- sample_los diagnosis ;;
  let discharge_datetime := admission_datetime + timedelta los 0 0 in
  is_readmission <-
    check_readmission admissions admission_id adm_num admission_datetime ;;
  ward <- sample1 wards_df ;;
  bed <- sample1 (filter (fun b => (Bed.ward_id b =? Ward.ward_id ward)%Z) beds_df) ;;
  doctor <- sample1 (filter is_doctor staff_df) ;;
  admission_type <- choice admission_types ;;
  num_secondary <- randint 0 2 ;;
  secondary <- sample num_secondary diagnoses_df ;;
  disposition <- choice dispositions ;;
  charges <- uniform_round 500000 15000000 ;;
  let admission := {|
    Admission.admission_id := admission_id;
    Admission.patient_id := Patient.patient_id patient;
    Admission.ward_id := Ward.ward_id ward;
    Admission.bed_id := Bed.bed_id bed;
    Admission.admission_date := date_of admission_datetime;
    Admission.admission_datetime := admission_datetime;
    Admission.discharge_date := date_of discharge_datetime;
    Admission.discharge_datetime := discharge_datetime;
    Admission.admission_type := admission_type;
    Admission.chief_complaint := Diagnosis.diagnosis_name diagnosis;
    Admission.primary_diagnosis_id := Diagnosis.diagnosis_id diagnosis;
    Admission.secondary_diagnosis_ids :=
      join "," (map str (map Diagnosis.diagnosis_id secondary));
    Admission.attending_doctor_id := Staff.staff_id doctor;
    Admission.length_of_stay := los;
    Admission.is_readmission := is_readmission;
    Admission.readmission_days_since_discharge := None;
    Admission.discharge_disposition := disposition;
    Admission.total_charges := charges
  |} in
  ret (append admissions admission, admission_id + 1).

(** All admissions of one patient: 2 to 5 of them. *)
Definition generate_patient_admissions
    (wards_df : list Ward.t) (diagnoses_df : list Diagnosis.t)
    (staff_df : list Staff.t) (beds_df : list Bed.t)
    (start end_ : datetime)
    (st : list Admission.t * Z) (patient : Patient.t) : M (list Admission.t * Z) :=
  num_admissions <- randint 2 5 ;;
  for_each (range num_admissions)
    (generate_admission patient wards_df diagnoses_df staff_df beds_df start end_)
    st.

Definition generate_admissions (patients_df : list Patient.t)
    (wards_df : list Ward.t) (diagnoses_df : list Diagnosis.t)
    (staff_df : list Staff.t) (beds_df : list Bed.t)
    (start_date : ymd) (num_years : Z) : M (list Admission.t) :=
  let start := to_datetime start_date in
  let end_ := to_datetime (add_years start_date num_years) in
  '(admissions, _) <-
    for_each patients_df
      (generate_patient_admissions wards_df diagnoses_df staff_df beds_df start end_)
      ([], 1) ;;
  ret admissions.

(* ------------------------------------------------------------------ *)
(** ** Medication administration records *)

Module Mar.
Record t := mk {
  mar_id : Z;
  patient_id : Z;
  admission_id : Z;
  medication_id : Z;
  prescribed_by_staff_id : Z;
  administered_by_staff_id : option Z;
  scheduled_datetime : datetime;
  administered_datetime : option datetime;
  dosage : string;
  route : string;
  status : string;
  reason_if_not_given : option string;
  vital_signs_before : option string;
  vital_signs_after : option string
}.
End Mar.

(** One dose: body of the innermost loop. *)
Definition generate_dose (staff_df : list Staff.t) (admission : Admission.t)
    (med : Medication.t) (day : Z)
    (st : list Mar.t * Z) (dose : Z) : M (list Mar.t * Z) :=
  let '(mar_records, mar_id) := st in
  let routes := ["PO"; "IV"; "IM"; "SC"; "Topical"; "Inhaled"] in
  let statuses :=
    ["Given"; "Given"; "Given"; "Given"; "Given"; "Missed"; "Refused"; "Held"] in
  let scheduled_dt :=
    Admission.admission_datetime admission + timedelta day (8 * dose) 0 in
  status <- choice statuses ;;
  administered_dt <-
    (if String.eqb status "Given"
     then delay <- randint (-30) 60 ;; ret (Some (scheduled_dt + timedelta 0 0 delay))
     else ret None) ;;
  prescriber <- sample1 (filter is_doctor staff_df) ;;
  nurse <- sample1 (filter is_nurse staff_df) ;;
  amount <- choice [10; 25; 50; 100; 250; 500]%Z ;;
  unit_ <- choice ["mg"; "mcg"; "units"] ;;
  route <- choice routes ;;
  let row := {|
    Mar.mar_id := mar_id;
    Mar.patient_id := Admission.patient_id admission;
    Mar.admission_id := Admission.admission_id admission;
    Mar.medication_id := Medication.medication_id med;
    Mar.prescribed_by_staff_id := Staff.staff_id prescriber;
    Mar.administered_by_staff_id :=
      if String.eqb status "Given" then Some (Staff.staff_id nurse) else None;
    Mar.scheduled_datetime := scheduled_dt;
    Mar.administered_datetime := administered_dt;
    Mar.dosage := str amount ++ " " ++ unit_;
    Mar.route := route;
    Mar.status := status;
    Mar.reason_if_not_given :=
      if String.eqb status "Missed" then Some "Patient asleep"
      else if String.eqb status "Refused" then Some "Patient refused"
      else if String.eqb status "Held" then Some "Low BP"
      else None;
    Mar.vital_signs_before := None;
    Mar.vital_signs_after := None
  |} in
  ret (append mar_records row, mar_id + 1).

Definition generate_medication_day (staff_df : list Staff.t)
    (admission : Admission.t) (med : Medication.t)
    (st : list Mar.t * Z) (day : Z) : M (list Mar.t * Z) :=
  doses_per_day <- randint 1 4 ;;
  for_each (range doses_per_day) (generate_dose staff_df admission med day) st.

Definition generate_medication_course (staff_df : list Staff.t)
    (admission : Admission.t)
    (st : list Mar.t * Z) (med : Medication.t) : M (list Mar.t * Z) :=
  for_each (range (Admission.length_of_stay admission))
    (generate_medication_day staff_df admission med) st.

Definition generate_admission_medications (medications_df : list Medication.t)
    (staff_df : list Staff.t)
    (st : list Mar.t * Z) (admission : Admission.t) : M (list Mar.t * Z) :=
  num_meds <- randint 3 8 ;;
  meds <- sample num_meds medications_df ;;
  for_each meds (generate_medication_course staff_df admission) st.

Definition generate_medication_administration (admissions_df : list Admission.t)
    (medications_df : list Medication.t) (staff_df : list Staff.t)
  : M (list Mar.t) :=
  sampled_admissions <- sample_frac 3 admissions_df ;;
  '(mar_records, _) <-
    for_each sampled_admissions
      (generate_admission_medications medications_df staff_df) ([], 1) ;;
  ret mar_records.

(* ------------------------------------------------------------------ *)
(** ** Vital signs *)

Module Vital.
Record t := mk {
  vital_id : Z;
  patient_id : Z;
  admission_id : Z;
  recorded_datetime : datetime;
  recorded_by_staff_id : Z;
  blood_pressure_systolic : Z;
  blood_pressure_diastolic : Z;
  heart_rate : Z;
  temperature : Z;            (* tenths of a degree Celsius *)
  respiratory_rate : Z;
  oxygen_saturation : Z;
  pain_level : Z;
  consciousness_level : string
}.
End Vital.

Definition generate_vital_check (staff_df : list Staff.t)
    (admission : Admission.t) (day : Z)
    (st : list Vital.t * Z) (check : Z) : M (list Vital.t * Z) :=
  let '(vitals, vital_id) := st in
  let recorded_dt :=
    Admission.admission_datetime admission + timedelta day (6 * check) 0 in
  nurse <- sample1 (filter is_nurse staff_df) ;;
  systolic <- randint 90 180 ;;
  diastolic <- randint 60 120 ;;
  heart_rate <- randint 55 120 ;;
  temperature <- uniform_round 360 390 ;;
  respiratory_rate <- randint 12 24 ;;
  oxygen_saturation <- randint 88 100 ;;
  pain_level <- randint 0 8 ;;
  consciousness <- choice ["Alert"; "Alert"; "Alert"; "Confused"; "Lethargic"] ;;
  let row := {|
    Vital.vital_id := vital_id;
    Vital.patient_id := Admission.patient_id admission;
    Vital.admission_id := Admission.admission_id admission;
    Vital.recorded_datetime := recorded_dt;
    Vital.recorded_by_staff_id := Staff.staff_id nurse;
    Vital.blood_pressure_systolic := systolic;
    Vital.blood_pressure_diastolic := diastolic;
    Vital.heart_rate := heart_rate;
    Vital.temperature := temperature;
    Vital.respiratory_rate := respiratory_rate;
    Vital.oxygen_saturation := oxygen_saturation;
    Vital.pain_level := pain_level;
    Vital.consciousness_level := consciousness
  |} in
  ret (append vitals row, vital_id + 1).

Definition generate_vital_day (staff_df : list Staff.t)
    (admission : Admission.t) (checks_per_day : Z)
    (st : list Vital.t * Z) (day : Z) : M (list Vital.t * Z) :=
  for_each (range checks_per_day) (generate_vital_check staff_df admission day) st.

Definition generate_admission_vitals (staff_df : list Staff.t)
    (st : list Vital.t * Z) (admission : Admission.t) : M (list Vital.t * Z) :=
  checks_per_day <- randint 2 4 ;;
  for_each (range (Admission.length_of_stay admission))
    (generate_vital_day staff_df admission checks_per_day) st.

Definition generate_vital_signs (admissions_df : list Admission.t)
    (staff_df : list Staff.t) : M (list Vital.t) :=
  sampled_admissions <- sample_frac 3 admissions_df ;;
  '(vitals, _) <-
    for_each sampled_admissions (generate_admission_vitals staff_df) ([], 1) ;;
  ret vitals.

(* ------------------------------------------------------------------ *)
(** ** Daily activity logs *)

Module Activity.
Record t := mk {
  activity_id : Z;
  patient_id : Z;
  admission_id : Z;
  activity_date : date;
  recorded_by_staff_id : Z;
  recorded_datetime : datetime;
  mobility_score : Z;
  mobility_notes : string;
  self_care_score : Z;
  breakfast_percent_consumed : Z;
  lunch_percent_consumed : Z;
  dinner_percent_consumed : Z;
  feeding_assistance_needed : bool;
  bathroom_independence : bool;
  continent_bladder : bool;
  continent_bowel : bool;
  output_notes : string;
  mental_status : string;
  mood : string;
  pain_level : Z;
  pain_location : string;
  pain_management_effectiveness : Z;
  sleep_quality : Z;
  sleep_hours : Z;            (* tenths of an hour *)
  comments : option string
}.
End Activity.

Definition possible_comments : list string := [
  "Patient ambulated to hallway with walker, good progress today.";
  "Patient complained of pain in right hip during PT session.";
  "Family visited today, patient mood improved significantly.";
  "Patient required extensive assistance with morning hygiene.";
  "Good appetite today, finished most meals independently.";
  "Patient expressed desire to go home, education provided.";
  "Wound dressing changed, healing well per nursing assessment.";
  "Patient participated in physical therapy exercises reluctantly.";
  "Overnight sleep interrupted 3x for medications/vitals.";
  "Patient displayed confusion this morning, resolved by afternoon.";
  "No bowel movement for 2 days, physician notified.";
  "Patient tolerated ambulation better today vs yesterday."
].

Definition generate_activity_day (staff_df : list Staff.t)
    (admission : Admission.t)
    (st : list Activity.t * Z) (day : Z) : M (list Activity.t * Z) :=
  let '(activities, activity_id) := st in
  let mental_statuses := ["Alert"; "Alert"; "Confused"; "Lethargic"; "Agitated"] in
  let moods := ["Cooperative"; "Cooperative"; "Anxious"; "Depressed"; "Irritable"] in
  let activity_date :=
    date_of (Admission.admission_datetime admission + timedelta day 0 0) in
  nurse <- sample1 (filter is_nurse staff_df) ;;
  mobility_score <- randint 1 5 ;;
  mobility_notes <- choice ["Walked to chair (assisted)"; "Bedbound";
                            "Walked hallway with walker"; "Independent ambulation"] ;;
  self_care_score <- randint 1 5 ;;
  breakfast <- randint 25 100 ;;
  lunch <- randint 25 100 ;;
  dinner <- randint 25 100 ;;
  feeding <- choice [true; false] ;;
  bathroom <- choice [true; true; false] ;;
  bladder <- choice [true; true; true; false] ;;
  bowel <- choice [true; true; true; false] ;;
  output_notes <- choice ["Urination normal"; "No BM today";
                          "Catheter in place"; "Normal output"] ;;
  mental_status <- choice mental_statuses ;;
  mood <- choice moods ;;
  pain_level <- randint 0 7 ;;
  pain_location <- choice ["None"; "Abdomen"; "Hip"; "Chest"; "Back"; "Head"] ;;
  pain_management <- randint 1 5 ;;
  sleep_quality <- randint 2 5 ;;
  sleep_hours <- uniform_round 40 90 ;;
  k <- random ;;
  comments <-
    (if gt_0_3 k then c <- choice possible_comments ;; ret (Some c) else ret None) ;;
  let row := {|
    Activity.activity_id := activity_id;
    Activity.patient_id := Admission.patient_id admission;
    Activity.admission_id := Admission.admission_id admission;
    Activity.activity_date := activity_date;
    Activity.recorded_by_staff_id := Staff.staff_id nurse;
    Activity.recorded_datetime :=
      Admission.admission_datetime admission + timedelta day 20 0;
    Activity.mobility_score := mobility_score;
    Activity.mobility_notes := mobility_notes;
    Activity.self_care_score := self_care_score;
    Activity.breakfast_percent_consumed := breakfast;
    Activity.lunch_percent_consumed := lunch;
    Activity.dinner_percent_consumed := dinner;
    Activity.feeding_assistance_needed := feeding;
    Activity.bathroom_independence := bathroom;
    Activity.continent_bladder := bladder;
    Activity.continent_bowel := bowel;
    Activity.output_notes := output_notes;
    Activity.mental_status := mental_status;
    Activity.mood := mood;
    Activity.pain_level := pain_level;
    Activity.pain_location := pain_location;
    Activity.pain_management_effectiveness := pain_management;
    Activity.sleep_quality := sleep_quality;
    Activity.sleep_hours := sleep_hours;
    Activity.comments := comments
  |} in
  ret (append activities row, activity_id + 1).

Definition generate_admission_activities (staff_df : list Staff.t)
    (st : list Activity.t * Z) (admission : Admission.t)
  : M (list Activity.t * Z) :=
  for_each (range (Admission.length_of_stay admission))
    (generate_activity_day staff_df admission) st.

Definition generate_daily_activities (admissions_df : list Admission.t)
    (staff_df : list Staff.t) : M (list Activity.t) :=
  sampled_admissions <- sample_frac 4 admissions_df ;;
  '(activities, _) <-
    for_each sampled_admissions (generate_admission_activities staff_df) ([], 1) ;;
  ret activities.

(* ------------------------------------------------------------------ *)
(** ** Procedure events *)

Module ProcedureEvent.
Record t := mk {
  procedure_event_id : Z;
  patient_id : Z;
  admission_id : Z;
  procedure_id : Z;
  performed_by_staff_id : Z;
  scheduled_datetime : datetime;
  actual_datetime : datetime;
  duration_minutes : Z;
  outcome : string;
  complications : option string;
  notes : string;
  procedure_charges : Z
}.
End ProcedureEvent.

Definition generate_procedure_event (procedures_df : list Procedure.t)
    (staff_df : list Staff.t) (admission : Admission.t)
    (st : list ProcedureEvent.t * Z) (proc_num : Z)
  : M (list ProcedureEvent.t * Z) :=
  let '(procedure_events, event_id) := st in
  let outcomes :=
    ["Successful"; "Successful"; "Successful"; "Complicated"; "Aborted"] in
  procedure <- sample1 procedures_df ;;
  doctor <- sample1 (filter is_doctor staff_df) ;;
  day <- randint 0 (Admission.length_of_stay admission - 1) ;;
  hour <- randint 8 17 ;;
  let scheduled_dt := Admission.admission_datetime admission + timedelta day hour 0 in
  shift <- randint (-30) 120 ;;
  let actual_dt := scheduled_dt + timedelta 0 0 shift in
  extra <- randint (-30) 60 ;;
  outcome <- choice outcomes ;;
  k <- random ;;
  let row := {|
    ProcedureEvent.procedure_event_id := event_id;
    ProcedureEvent.patient_id := Admission.patient_id admission;
    ProcedureEvent.admission_id := Admission.admission_id admission;
    ProcedureEvent.procedure_id := Procedure.procedure_id procedure;
    ProcedureEvent.performed_by_staff_id := Staff.staff_id doctor;
    ProcedureEvent.scheduled_datetime := scheduled_dt;
    ProcedureEvent.actual_datetime := actual_dt;
    ProcedureEvent.duration_minutes :=
      Procedure.avg_duration_minutes procedure + extra;
    ProcedureEvent.outcome := outcome;
    ProcedureEvent.complications :=
      if gt_0_9 k then Some "Minor bleeding" else None;
    ProcedureEvent.notes := "Procedure completed as planned";
    ProcedureEvent.procedure_charges := Procedure.base_cost procedure
  |} in
  ret (append procedure_events row, event_id + 1).

Definition generate_admission_procedures (procedures_df : list Procedure.t)
    (staff_df : list Staff.t)
    (st : list ProcedureEvent.t * Z) (admission : Admission.t)
  : M (list ProcedureEvent.t * Z) :=
  num_procedures <- randint 1 3 ;;
  for_each (range num_procedures)
    (generate_procedure_event procedures_df staff_df admission) st.

Definition generate_procedure_events (admissions_df : list Admission.t)
    (procedures_df : list Procedure.t) (staff_df : list Staff.t)
  : M (list ProcedureEvent.t) :=
  admissions_with_procedures <- sample_frac 4 admissions_df ;;
  '(procedure_events, _) <-
    for_each admissions_with_procedures
      (generate_admission_procedures procedures_df staff_df) ([], 1) ;;
  ret procedure_events.

(* ------------------------------------------------------------------ *)
(** ** Lab results *)

Module Lab.
Record t := mk {
  lab_id : Z;
  patient_id : Z;
  admission_id : Z;
  test_type : string;
  test_name : string;
  ordered_by_staff_id : Z;
  collected_datetime : datetime;
  resulted_datetime : datetime;
  test_value : string;
  unit_of_measure : string;
  reference_range : string;
  abnormal_flag : string;
  lab_department : string
}.
End Lab.

Definition test_types : list (string * string * string * string) := [
  ("CBC", "Hemoglobin", "12-16 g/dL", "g/dL");
  ("CBC", "WBC Count", "4-11 K/uL", "K/uL");
  ("BMP", "Sodium", "135-145 mEq/L", "mEq/L");
  ("BMP", "Potassium", "3.5-5.0 mEq/L", "mEq/L");
  ("BMP", "Glucose", "70-100 mg/dL", "mg/dL");
  ("Lipid Panel", "Total Cholesterol", "<200 mg/dL", "mg/dL");
  ("Lipid Panel", "HDL", ">40 mg/dL", "mg/dL");
  ("Liver Function", "ALT", "7-56 U/L", "U/L")
].

Definition generate_lab_panel (staff_df : list Staff.t) (admission : Admission.t)
    (st : list Lab.t * Z) (panel : Z) : M (list Lab.t * Z) :=
  let '(labs, lab_id) := st in
  let abnormal_flags := ["Normal"; "Normal"; "Normal"; "High"; "Low"; "Critical"] in
  test <- choice test_types ;;
  let '(test0, test1, test2, test3) := test in
  doctor <- sample1 (filter is_doctor staff_df) ;;
  day <- randint 0 (Admission.length_of_stay admission - 1) ;;
  hour <- randint 6 10 ;;
  let collected_dt := Admission.admission_datetime admission + timedelta day hour 0 in
  turnaround <- randint 2 24 ;;
  let resulted_dt := collected_dt + timedelta 0 turnaround 0 in
  value <- uniform_round 500 2000 ;;
  flag <- choice abnormal_flags ;;
  let row := {|
    Lab.lab_id := lab_id;
    Lab.patient_id := Admission.patient_id admission;
    Lab.admission_id := Admission.admission_id admission;
    Lab.test_type := test0;
    Lab.test_name := test1;
    Lab.ordered_by_staff_id := Staff.staff_id doctor;
    Lab.collected_datetime := collected_dt;
    Lab.resulted_datetime := resulted_dt;
    Lab.test_value := str_tenths value;
    Lab.unit_of_measure := test3;
    Lab.reference_range := test2;
    Lab.abnormal_flag := flag;
    Lab.lab_department := "Clinical Lab"
  |} in
  ret (append labs row, lab_id + 1).

Definition generate_admission_labs (staff_df : list Staff.t)
    (st : list Lab.t * Z) (admission : Admission.t) : M (list Lab.t * Z) :=
  num_lab_panels <- randint 1 4 ;;
  for_each (range num_lab_panels) (generate_lab_panel staff_df admission) st.

Definition generate_lab_results (admissions_df : list Admission.t)
    (staff_df : list Staff.t) : M (list Lab.t) :=
  admissions_with_labs <- sample_frac 5 admissions_df ;;
  '(labs, _) <-
    for_each admissions_with_labs (generate_admission_labs staff_df) ([], 1) ;;
  ret labs.

(* ------------------------------------------------------------------ *)
(** ** Care plan goals *)

Module Goal.
Record t := mk {
  goal_id : Z;
  patient_id : Z;
  admission_id : Z;
  goal_type : string;
  goal_description : string;
  target_date : date;
  status : string;
  progress_pct : Z;
  created_by_staff_id : Z;
  created_datetime : datetime;
  last_updated_datetime : datetime
}.
End Goal.

Definition goal_templates : list (string * string) := [
  ("Mobility", "Walk 50 feet independently by discharge");
  ("Mobility", "Transfer from bed to chair with minimal assistance");
  ("Pain Management", "Maintain pain level below 4/10");
  ("Wound Healing", "Wound fully healed within 2 weeks");
  ("Self-Care", "Complete morning hygiene independently");
  ("Nutrition", "Consume 75% of meals without assistance");
  ("Education", "Patient verbalizes understanding of discharge medications")
].

Definition goal_statuses : list string :=
  ["Not Started"; "In Progress"; "In Progress"; "In Progress"; "Achieved";
   "Discontinued"].

(** Progress of a goal from its status. *)
Definition goal_progress (status : string) : M Z :=
  if String.eqb status "Achieved" then ret 100
  else if String.eqb status "In Progress" then randint 30 90
  else ret 0.

Definition generate_goal (staff_df : list Staff.t) (admission : Admission.t)
    (st : list Goal.t * Z) (goal_num : Z) : M (list Goal.t * Z) :=
  let '(goals, goal_id) := st in
  goal_template <- choice goal_templates ;;
  nurse <- sample1 (filter is_nurse staff_df) ;;
  status <- choice goal_statuses ;;
  progress <- goal_progress status ;;
  created_after <- randint 2 24 ;;
  updated_after <- randint 1 (Admission.length_of_stay admission) ;;
  let row := {|
    Goal.goal_id := goal_id;
    Goal.patient_id := Admission.patient_id admission;
    Goal.admission_id := Admission.admission_id admission;
    Goal.goal_type := fst goal_template;
    Goal.goal_description := snd goal_template;
    Goal.target_date := Admission.discharge_date admission;
    Goal.status := status;
    Goal.progress_pct := progress;
    Goal.created_by_staff_id := Staff.staff_id nurse;
    Goal.created_datetime :=
      Admission.admission_datetime admission + timedelta 0 created_after 0;
    Goal.last_updated_datetime :=
      Admission.admission_datetime admission + timedelta updated_after 0 0
  |} in
  ret (append goals row, goal_id + 1).

Definition generate_admission_goals (staff_df : list Staff.t)
    (st : list Goal.t * Z) (admission : Admission.t) : M (list Goal.t * Z) :=
  num_goals <- randint 2 4 ;;
  for_each (range num_goals) (generate_goal staff_df admission) st.

Definition generate_care_plan_goals (admissions_df : list Admission.t)
    (staff_df : list Staff.t) : M (list Goal.t) :=
  admissions_with_goals <- sample_frac 6 admissions_df ;;
  '(goals, _) <-
    for_each admissions_with_goals (generate_admission_goals staff_df) ([], 1) ;;
  ret goals.

(* ------------------------------------------------------------------ *)
(** ** The generation run ([main], up to the writing of the files) *)

Record Dimensions := {
  dim_patients : list Patient.t;
  dim_staff : list Staff.t;
  dim_wards : list Ward.t;
  dim_medications : list Medication.t;
  dim_procedures : list Procedure.t;
  dim_diagnoses : list Diagnosis.t;
  dim_beds : list Bed.t
}.

Record Facts := {
  fact_admissions : list Admission.t;
  fact_medication_administration : list Mar.t;
  fact_vital_signs : list Vital.t;
  fact_daily_activities : list Activity.t;
  fact_procedures : list ProcedureEvent.t;
  fact_lab_results : list Lab.t;
  fact_care_plan_goals : list Goal.t
}.

(** The seven dimension generators of [main], in its order, with the
    default sizes of the source; the date dimension draws nothing and
    is referenced by no fact table. *)
Definition generate_dimensions : M Dimensions :=
  patients_df <- generate_patients NUM_PATIENTS ;;
  staff_df <- generate_staff NUM_STAFF ;;
  let wards_df := generate_wards in
  medications_df <- generate_medications 200 ;;
  procedures_df <- generate_procedures 100 ;;
  let diagnoses_df := generate_diagnoses in
  beds_df <- generate_beds ;;
  ret {| dim_patients := patients_df; dim_staff := staff_df;
         dim_wards := wards_df; dim_medications := medications_df;
         dim_procedures := procedures_df; dim_diagnoses := diagnoses_df;
         dim_beds := beds_df |}.

(** The seven fact generators of [main], in its order. *)
Definition generate_facts (d : Dimensions) (start_date : ymd) (num_years : Z)
  : M Facts :=
  admissions_df <-
    generate_admissions (dim_patients d) (dim_wards d) (dim_diagnoses d)
                        (dim_staff d) (dim_beds d) start_date num_years ;;
  mar_df <- generate_medication_administration admissions_df
              (dim_medications d) (dim_staff d) ;;
  vitals_df <- generate_vital_signs admissions_df (dim_staff d) ;;
  activities_df <- generate_daily_activities admissions_df (dim_staff d) ;;
  procedures_events_df <-
    generate_procedure_events admissions_df (dim_procedures d) (dim_staff d) ;;
  labs_df <- generate_lab_results admissions_df (dim_staff d) ;;
  goals_df <- generate_care_plan_goals admissions_df (dim_staff d) ;;
  ret {| fact_admissions := admissions_df;
         fact_medication_administration := mar_df;
         fact_vital_signs := vitals_df;
         fact_daily_activities := activities_df;
         fact_procedures := procedures_events_df;
         fact_lab_results := labs_df;
         fact_care_plan_goals := goals_df |}.

Definition main : M (Dimensions * Facts) :=
  d <- generate_dimensions ;;
  f <- generate_facts d START_DATE NUM_YEARS ;;
  ret (d, f).

(* ------------------------------------------------------------------ *)
(** ** Properties of rows *)

(** What a computation returns whenever it returns. *)
Definition returns {A} (m : M A) (P : A -> Prop) : Prop :=
  forall w a w', m w = Ok a w' -> P a.

(** Stay-length range of a severity level. *)
Definition los_range (severity : string) : Z * Z :=
  if String.eqb severity "Critical" then (5, 21)
  else if String.eqb severity "Serious" then (3, 14)
  else (1, 7).

(** Within the admissions of one patient, in generation order: the first
    is not a readmission, and each later one is a readmission exactly
    when it starts at most 30 days after the discharge of the one
    generated just before it. *)
Definition readmission_chain (blk : list Admission.t) : Prop :=
  (forall a, nth_error blk 0 = Some a -> Admission.is_readmission a = false) /\
  (forall k prev cur,
      nth_error blk k = Some prev -> nth_error blk (S k) = Some cur ->
      (Admission.is_readmission cur = true <->
       td_days (Admission.admission_datetime cur -
                Admission.discharge_datetime prev) <= 30)).

Definition has_ward (wards_df : list Ward.t) (id : Z) : Prop :=
  exists w, In w wards_df /\ Ward.ward_id w = id.

Definition has_bed_in_ward (beds_df : list Bed.t) (id ward : Z) : Prop :=
  exists b, In b beds_df /\ Bed.bed_id b = id /\ Bed.ward_id b = ward.

Definition has_patient (patients_df : list Patient.t) (id : Z) : Prop :=
  exists p, In p patients_df /\ Patient.patient_id p = id.

Definition has_medication (medications_df : list Medication.t) (id : Z) : Prop :=
  exists m, In m medications_df /\ Medication.medication_id m = id.

Definition has_procedure (procedures_df : list Procedure.t) (id : Z) : Prop :=
  exists p, In p procedures_df /\ Procedure.procedure_id p = id.

(** [id] is the id of a staff row with one of the [roles]. *)
Definition staff_with_role (staff_df : list Staff.t) (roles : list string)
    (id : Z) : Prop :=
  exists s, In s staff_df /\ Staff.staff_id s = id /\ In (Staff.role s) roles.

Definition doctor_roles : list string := ["Attending Physician"; "Resident"].
Definition nurse_roles : list string := ["Registered Nurse"].

(** The rows of [diagnoses_df] behind a comma-separated id list. *)
Definition lists_diagnoses (diagnoses_df : list Diagnosis.t) (ids : string) : Prop :=
  exists ds, incl ds diagnoses_df /\
             ids = join "," (map str (map Diagnosis.diagnosis_id ds)).

(** What [generate_admission] establishes for the row it appends. *)
Record admission_ok (wards_df : list Ward.t) (diagnoses_df : list Diagnosis.t)
    (staff_df : list Staff.t) (beds_df : list Bed.t) (a : Admission.t) : Prop := {
  adm_ward : has_ward wards_df (Admission.ward_id a);
  adm_bed : has_bed_in_ward beds_df (Admission.bed_id a) (Admission.ward_id a);
  adm_doctor : staff_with_role staff_df doctor_roles (Admission.attending_doctor_id a);
  adm_primary :
    exists d, In d diagnoses_df /\
      Diagnosis.diagnosis_id d = Admission.primary_diagnosis_id a /\
      fst (los_range (Diagnosis.severity_level d)) <= Admission.length_of_stay a
        <= snd (los_range (Diagnosis.severity_level d));
  adm_secondary : lists_diagnoses diagnoses_df (Admission.secondary_diagnosis_ids a);
  adm_discharge :
    Admission.discharge_datetime a =
    Admission.admission_datetime a + Admission.length_of_stay a * minutes_per_day;
  adm_no_gap : Admission.readmission_days_since_discharge a = None
}.

(** The admissions generated for one patient. *)
Definition patient_block (wards_df : list Ward.t) (diagnoses_df : list Diagnosis.t)
    (staff_df : list Staff.t) (beds_df : list Bed.t)
    (p : Patient.t) (blk : list Admission.t) : Prop :=
  (2 <= List.length blk <= 5)%nat /\
  Forall (fun a => Admission.patient_id a = Patient.patient_id p /\
                   admission_ok wards_df diagnoses_df staff_df beds_df a) blk /\
  readmission_chain blk.

(** Rows carry the ids 1, 2, ... in the order of the list. *)
Definition in_generation_order (admissions : list Admission.t) : Prop :=
  forall i a, nth_error admissions i = Some a ->
              Admission.admission_id a = Z.of_nat i + 1.

(** Invariant of the loop over the admissions of [p], after [k] rounds
    started with the rows [before]: the loop-carried list is [before]
    followed by the [k] rows of [p], the counter is the next id. *)
Definition patient_loop_inv (wards_df : list Ward.t) (diagnoses_df : list Diagnosis.t)
    (staff_df : list Staff.t) (beds_df : list Bed.t) (p : Patient.t)
    (before : list Admission.t) (k : nat) (st : list Admission.t * Z) : Prop :=
  exists blk,
    fst st = (before ++ blk)%list /\
    snd st = Z.of_nat (List.length (fst st)) + 1 /\
    List.length blk = k /\
    in_generation_order (fst st) /\
    Forall (fun a => Admission.patient_id a = Patient.patient_id p /\
                     admission_ok wards_df diagnoses_df staff_df beds_df a) blk /\
    readmission_chain blk.

(** Invariant of the loop over the patients, after the patients [done]. *)
Definition admissions_loop_inv (wards_df : list Ward.t)
    (diagnoses_df : list Diagnosis.t) (staff_df : list Staff.t)
    (beds_df : list Bed.t) (done : list Patient.t)
    (st : list Admission.t * Z) : Prop :=
  snd st = Z.of_nat (List.length (fst st)) + 1 /\
  in_generation_order (fst st) /\
  exists blocks,
    fst st = List.concat blocks /\
    Forall2 (patient_block wards_df diagnoses_df staff_df beds_df) done blocks.

(** The parent admission of a child row. *)
Definition child_of (admissions_df : list Admission.t) (patient admission : Z)
    (a : Admission.t) : Prop :=
  In a admissions_df /\ Admission.patient_id a = patient /\
  Admission.admission_id a = admission.

(** End of the stay of [a], as a timestamp. *)
Definition stay_end (a : Admission.t) : datetime :=
  Admission.admission_datetime a + Admission.length_of_stay a * minutes_per_day.

Definition mar_ok (admissions_df : list Admission.t)
    (medications_df : list Medication.t) (staff_df : list Staff.t)
    (r : Mar.t) : Prop :=
  exists a, child_of admissions_df (Mar.patient_id r) (Mar.admission_id r) a /\
    has_medication medications_df (Mar.medication_id r) /\
    staff_with_role staff_df doctor_roles (Mar.prescribed_by_staff_id r) /\
    (forall id, Mar.administered_by_staff_id r = Some id ->
                staff_with_role staff_df nurse_roles id) /\
    Admission.admission_datetime a <= Mar.scheduled_datetime r <= stay_end a /\
    (forall t, Mar.administered_datetime r = Some t ->
               Mar.scheduled_datetime r - 30 <= t <= Mar.scheduled_datetime r + 60).

Definition vital_ok (admissions_df : list Admission.t) (staff_df : list Staff.t)
    (r : Vital.t) : Prop :=
  exists a, child_of admissions_df (Vital.patient_id r) (Vital.admission_id r) a /\
    staff_with_role staff_df nurse_roles (Vital.recorded_by_staff_id r) /\
    Admission.admission_datetime a <= Vital.recorded_datetime r < stay_end a /\
    90 <= Vital.blood_pressure_systolic r <= 180 /\
    60 <= Vital.blood_pressure_diastolic r <= 120 /\
    55 <= Vital.heart_rate r <= 120 /\
    360 <= Vital.temperature r <= 390 /\
    12 <= Vital.respiratory_rate r <= 24 /\
    88 <= Vital.oxygen_saturation r <= 100 /\
    0 <= Vital.pain_level r <= 8.

Definition activity_ok (admissions_df : list Admission.t) (staff_df : list Staff.t)
    (r : Activity.t) : Prop :=
  exists a, child_of admissions_df (Activity.patient_id r) (Activity.admission_id r) a /\
    staff_with_role staff_df nurse_roles (Activity.recorded_by_staff_id r) /\
    Admission.admission_datetime a <= Activity.recorded_datetime r < stay_end a.

Definition procedure_event_ok (admissions_df : list Admission.t)
    (procedures_df : list Procedure.t) (staff_df : list Staff.t)
    (r : ProcedureEvent.t) : Prop :=
  exists a, child_of admissions_df (ProcedureEvent.patient_id r)
                     (ProcedureEvent.admission_id r) a /\
    has_procedure procedures_df (ProcedureEvent.procedure_id r) /\
    staff_with_role staff_df doctor_roles (ProcedureEvent.performed_by_staff_id r) /\
    Admission.admission_datetime a <= ProcedureEvent.scheduled_datetime r < stay_end a /\
    Admission.admission_datetime a <= ProcedureEvent.actual_datetime r < stay_end a.

Definition lab_ok (admissions_df : list Admission.t) (staff_df : list Staff.t)
    (r : Lab.t) : Prop :=
  exists a, child_of admissions_df (Lab.patient_id r) (Lab.admission_id r) a /\
    staff_with_role staff_df doctor_roles (Lab.ordered_by_staff_id r) /\
    Admission.admission_datetime a <= Lab.collected_datetime r < stay_end a /\
    Lab.collected_datetime r + 2 * 60 <= Lab.resulted_datetime r
      <= Lab.collected_datetime r + 24 * 60.

Definition goal_ok (admissions_df : list Admission.t) (staff_df : list Staff.t)
    (r : Goal.t) : Prop :=
  exists a, child_of admissions_df (Goal.patient_id r) (Goal.admission_id r) a /\
    staff_with_role staff_df nurse_roles (Goal.created_by_staff_id r) /\
    Admission.admission_datetime a + 2 * 60 <= Goal.created_datetime r
      <= Admission.admission_datetime a + 24 * 60 /\
    Admission.admission_datetime a + minutes_per_day <= Goal.last_updated_datetime r
      <= stay_end a /\
    (Goal.status r = "Achieved" -> Goal.progress_pct r = 100) /\
    (Goal.status r = "Not Started" \/ Goal.status r = "Discontinued" ->
     Goal.progress_pct r = 0) /\
    (Goal.status r = "In Progress" -> 30 <= Goal.progress_pct r <= 90).

(** [t] falls in the stay of [a], the end excluded. *)
Definition in_stay (a : Admission.t) (t : datetime) : Prop :=
  Admission.admission_datetime a <= t < stay_end a.

(** What a run of the fact generators establishes for its tables. *)
Record facts_ok (d : Dimensions) (f : Facts) : Prop := {
  ok_order : in_generation_order (fact_admissions f);
  ok_blocks :
    exists blocks,
      fact_admissions f = List.concat blocks /\
      Forall2 (patient_block (dim_wards d) (dim_diagnoses d) (dim_staff d)
                             (dim_beds d))
              (dim_patients d) blocks;
  ok_mar : Forall (mar_ok (fact_admissions f) (dim_medications d) (dim_staff d))
                  (fact_medication_administration f);
  ok_vitals : Forall (vital_ok (fact_admissions f) (dim_staff d))
                     (fact_vital_signs f);
  ok_activities : Forall (activity_ok (fact_admissions f) (dim_staff d))
                         (fact_daily_activities f);
  ok_procedures :
    Forall (procedure_event_ok (fact_admissions f) (dim_procedures d) (dim_staff d))
           (fact_procedures f);
  ok_labs : Forall (lab_ok (fact_admissions f) (dim_staff d)) (fact_lab_results f);
  ok_goals : Forall (goal_ok (fact_admissions f) (dim_staff d))
                    (fact_care_plan_goals f)
}.

Definition has_staff (staff_df : list Staff.t) (id : Z) : Prop :=
  exists s, In s staff_df /\ Staff.staff_id s = id.

Definition has_diagnosis (diagnoses_df : list Diagnosis.t) (id : Z) : Prop :=
  exists x, In x diagnoses_df /\ Diagnosis.diagnosis_id x = id.

(** The pair of keys of a child row is the pair of keys of an admission
    row, whose patient is in the patient table. *)
Definition refers_to_admission (d : Dimensions) (f : Facts)
    (patient admission : Z) : Prop :=
  (exists a, child_of (fact_admissions f) patient admission a) /\
  has_patient (dim_patients d) patient.

(* ------------------------------------------------------------------ *)
(** ** Concrete runs *)

(** A small hospital: the configured wards with one bed each, the
    configured diagnoses, four staff members and a short formulary. *)
Definition small_staff : list Staff.t := [
  Staff.mk 1 "Attending Physician" "Critical Care" "Day" "Licensed Attending Physician" true;
  Staff.mk 2 "Registered Nurse" "Critical Care" "Night" "Licensed Registered Nurse" true;
  Staff.mk 3 "Resident" "Pediatrics" "Rotating" "Licensed Resident" true;
  Staff.mk 4 "Pharmacist" "Cancer Care" "Day" "Licensed Pharmacist" true
].

Definition small_beds : list Bed.t :=
  map (fun w => Bed.mk (100 + Ward.ward_id w) (Ward.ward_id w) "B-001" "Standard"
                       false true true) WARDS.

Definition small_medications : list Medication.t :=
  map (fun i => Medication.mk i "Analgesic" "Tablet" "Roche" 125 "Allergy to Analgesic")
      (range1 8).

Definition small_procedures : list Procedure.t := [
  Procedure.mk 1 "Diagnostic" "Pediatrics" 45 250000 false;
  Procedure.mk 2 "Surgical" "Surgical Services" 120 1800000 true
].

Definition small_patients : list Patient.t := [
  Patient.mk 1 "MRN00000001" "Female" "O+" "Aetna" START_DATE true;
  Patient.mk 2 "MRN00000002" "Male" "A-" "Cigna" START_DATE true;
  Patient.mk 3 "MRN00000003" "Other" "B+" "Medicare" START_DATE true
].

Definition small_hospital : Dimensions := {|
  dim_patients := small_patients;
  dim_staff := small_staff;
  dim_wards := generate_wards;
  dim_medications := small_medications;
  dim_procedures := small_procedures;
  dim_diagnoses := generate_diagnoses;
  dim_beds := small_beds
|}.

(** A tape of well-spread raw draws (multiplicative hashing of the
    position). *)
Definition spread (salt n : N) : N :=
  (((n + salt) * 2654435761) mod 4294967296 / 65536)%N.

Definition spread_world : World := {|
  py_random := {| tape := spread 1; cursor := 0 |};
  np_random := {| tape := spread 7; cursor := 0 |}
|}.

(** Draws of Python's generator that are all zero, except the draw of
    the number of doses of the first medication day (position 18, four
    doses) and the draw of the turnaround of the first lab panel
    (position 98, 24 hours); every draw of NumPy's generator is 3. *)
Definition late_draws (n : N) : N :=
  if (n =? 18)%N then 3%N else if (n =? 98)%N then 22%N else 0%N.

Definition late_world : World := {|
  py_random := {| tape := late_draws; cursor := 0 |};
  np_random := {| tape := fun _ => 3%N; cursor := 0 |}
|}.

Definition single_patient : Dimensions := {|
  dim_patients := [Patient.mk 1 "MRN00000001" "Female" "O+" "Aetna" START_DATE true];
  dim_staff := small_staff;
  dim_wards := generate_wards;
  dim_medications := small_medications;
  dim_procedures := small_procedures;
  dim_diagnoses := generate_diagnoses;
  dim_beds := small_beds
|}.

(** The admissions of the small hospital under the draws of
    [spread_world]. *)
Definition small_admissions : list Admission.t :=
  match generate_admissions small_patients generate_wards generate_diagnoses
                            small_staff small_beds START_DATE NUM_YEARS
                            spread_world with
  | Ok admissions _ => admissions
  | Raise _ => []
  end.

(* ------------------------------------------------------------------ *)
(** ** Outcomes of a computation *)

From Stdlib Require Permutation.

(** [triple T m Q E]: started in a world whose Python tape satisfies
    [T], the computation [m] either returns a value satisfying [Q], the
    tape being the same one (only its cursor moves), or raises an
    exception satisfying [E]. *)
Definition triple {A} (T : (N -> N) -> Prop) (m : M A)
    (Q : A -> Prop) (E : exn -> Prop) : Prop :=
  forall w, T (tape (py_random w)) ->
    match m w with
    | Ok a w' => Q a /\ tape (py_random w') = tape (py_random w)
    | Raise e => E e
    end.

Definition any_tape (t : N -> N) : Prop := True.


(** [r] is a draw of some tape satisfying [T]. *)
Definition drawn (T : (N -> N) -> Prop) (r : N) : Prop :=
  exists t n, T t /\ r = t n.

Definition no_exn (e : exn) : Prop := False.

Definition value_error (e : exn) : Prop := e = ValueError.

(* ------------------------------------------------------------------ *)
(** ** Rows of the dimension tables *)

Definition patient_row (p : Patient.t) : Prop :=
  Patient.mrn p = "MRN" ++ zfill 8 (str (Patient.patient_id p)) /\
  In (Patient.gender p) ["Male"; "Female"; "Other"] /\
  In (Patient.blood_type p) ["A+"; "A-"; "B+"; "B-"; "AB+"; "AB-"; "O+"; "O-"] /\
  In (Patient.insurance_provider p)
     ["Blue Cross"; "Aetna"; "UnitedHealthcare"; "Cigna"; "Medicare"; "Medicaid"] /\
  Patient.effective_date p = START_DATE /\
  Patient.is_current p = true.

Definition staff_row (s : Staff.t) : Prop :=
  In (Staff.role s) STAFF_ROLES /\
  In (Staff.department s) (map Ward.department WARDS) /\
  In (Staff.shift_pattern s) ["Day"; "Night"; "Rotating"; "On-Call"] /\
  Staff.qualifications s = "Licensed " ++ Staff.role s /\
  Staff.is_active s = true.

Definition medication_row (m : Medication.t) : Prop :=
  In (Medication.drug_class m) MEDICATION_CLASSES /\
  In (Medication.dosage_form m)
     ["Tablet"; "Capsule"; "Injection"; "IV Solution"; "Topical Cream"; "Inhaler"] /\
  In (Medication.manufacturer m)
     ["Pfizer"; "Novartis"; "Roche"; "Merck"; "GSK"; "AstraZeneca"] /\
  (50 <= Medication.cost_per_unit m <= 50000)%Z /\
  Medication.contraindications m = "Allergy to " ++ Medication.drug_class m.

Definition procedure_row (p : Procedure.t) : Prop :=
  In (Procedure.procedure_type p)
     ["Diagnostic"; "Therapeutic"; "Surgical"; "Rehabilitative"] /\
  In (Procedure.department p) (map Ward.department WARDS) /\
  (15 <= Procedure.avg_duration_minutes p <= 480)%Z /\
  (10000 <= Procedure.base_cost p <= 5000000)%Z /\
  (Procedure.requires_anesthesia p = true <-> Procedure.procedure_type p = "Surgical").

(** A bed generated for [ward]. *)
Definition bed_of_ward (ward : Ward.t) (b : Bed.t) : Prop :=
  Bed.ward_id b = Ward.ward_id ward /\
  Bed.bed_type b = (if contains "ICU" (Ward.ward_name ward) then "ICU" else "Standard") /\
  Bed.has_ventilator b = contains "ICU" (Ward.ward_name ward) /\
  Bed.has_monitor b = true.

(** Ward ids of the beds: each ward as many times as it has beds. *)
Definition bed_wards (wards : list Ward.t) : list Z :=
  flat_map (fun ward => repeat (Ward.ward_id ward) (Z.to_nat (Ward.bed_capacity ward)))
           wards.

(** Invariant of the loops of [generate_beds] after the wards [done]
    and [k] beds of the current ward, whose id is [current]. *)
Definition beds_loop_inv (done : list Ward.t) (current : list Z)
    (st : list Bed.t * Z) : Prop :=
  snd st = (Z.of_nat (List.length (fst st)) + 1)%Z /\
  map Bed.bed_id (fst st) = range1 (Z.of_nat (List.length (fst st))) /\
  map Bed.ward_id (fst st) = (bed_wards done ++ current)%list /\
  Forall (fun b => exists ward, In ward WARDS /\ bed_of_ward ward b) (fst st).

(* ------------------------------------------------------------------ *)
(** ** Growth of a table under construction *)

(** The loop-carried pair [s'] is [s] with the rows [extra] appended:
    the counter advanced by their number, the key of each new row being
    the value of the counter when it was appended, and [B] holding of
    the new rows. *)
Definition grows_by {R} (key : R -> Z) (B : list R -> Prop)
    (s s' : list R * Z) : Prop :=
  exists extra,
    fst s' = (fst s ++ extra)%list /\
    snd s' = (snd s + Z.of_nat (List.length extra))%Z /\
    (forall i r, nth_error extra i = Some r -> key r = (snd s + Z.of_nat i)%Z) /\
    B extra.

(** Between [lo] and [hi] rows, all satisfying [P]. *)
Definition block_of {R} (P : R -> Prop) (lo hi : nat) (blk : list R) : Prop :=
  (lo <= List.length blk <= hi)%nat /\ Forall P blk.

(** One block of rows per element of [xs], in the order of [xs]. *)
Definition blocks_of {X R} (B : X -> list R -> Prop) (xs : list X)
    (rows : list R) : Prop :=
  exists blocks, rows = List.concat blocks /\ Forall2 B xs blocks.

(** The rows of a table are keyed 1, 2, ... in order. *)
Definition keyed_in_order {R} (key : R -> Z) (rows : list R) : Prop :=
  forall i r, nth_error rows i = Some r -> key r = (Z.of_nat i + 1)%Z.

(** A sample of the rows of [l] for the fraction [tenths / 10]: rows of
    [l], as many as the rounded fraction of its length, with distinct
    keys when the keys of [l] are distinct. *)
Definition sample_of {X} (tenths : Z) (l sampled : list X) : Prop :=
  incl sampled l /\
  Z.of_nat (List.length sampled)
  = round_half_even (tenths * Z.of_nat (List.length l)) 10 /\
  forall key : X -> Z, NoDup (map key l) -> NoDup (map key sampled).

(* ------------------------------------------------------------------ *)
(** ** Rows of the child tables *)

(** Length of stay as a number of loop rounds ([range] is empty for a
    non-positive length). *)
Definition stay_days (a : Admission.t) : nat := Z.to_nat (Admission.length_of_stay a).

(** A dose of the medication course of admission [a]. *)
Record mar_fields (medications_df : list Medication.t) (a : Admission.t)
    (r : Mar.t) : Prop := {
  mar_keys : Mar.patient_id r = Admission.patient_id a /\
             Mar.admission_id r = Admission.admission_id a;
  mar_medication : has_medication medications_df (Mar.medication_id r);
  mar_schedule :
    exists day dose,
      (0 <= day < Admission.length_of_stay a)%Z /\ (0 <= dose <= 3)%Z /\
      Mar.scheduled_datetime r
      = (Admission.admission_datetime a + timedelta day (8 * dose) 0)%Z;
  mar_status : In (Mar.status r) ["Given"; "Missed"; "Refused"; "Held"];
  mar_given :
    Mar.status r = "Given" ->
    (exists delay, (-30 <= delay <= 60)%Z /\
       Mar.administered_datetime r = Some (Mar.scheduled_datetime r + delay)%Z) /\
    (exists nurse, Mar.administered_by_staff_id r = Some nurse) /\
    Mar.reason_if_not_given r = None;
  mar_not_given :
    Mar.status r <> "Given" ->
    Mar.administered_datetime r = None /\
    Mar.administered_by_staff_id r = None /\
    Mar.reason_if_not_given r
    = Some (if String.eqb (Mar.status r) "Missed" then "Patient asleep"
            else if String.eqb (Mar.status r) "Refused" then "Patient refused"
            else "Low BP");
  mar_dosage :
    exists amount unit_,
      In amount [10; 25; 50; 100; 250; 500]%Z /\ In unit_ ["mg"; "mcg"; "units"] /\
      Mar.dosage r = str amount ++ " " ++ unit_;
  mar_route : In (Mar.route r) ["PO"; "IV"; "IM"; "SC"; "Topical"; "Inhaled"];
  mar_vitals_unset : Mar.vital_signs_before r = None /\ Mar.vital_signs_after r = None
}.

(** A vital-sign check of admission [a]. *)
Record vital_fields (a : Admission.t) (r : Vital.t) : Prop := {
  vital_keys : Vital.patient_id r = Admission.patient_id a /\
               Vital.admission_id r = Admission.admission_id a;
  vital_schedule :
    exists day check,
      (0 <= day < Admission.length_of_stay a)%Z /\ (0 <= check <= 3)%Z /\
      Vital.recorded_datetime r
      = (Admission.admission_datetime a + timedelta day (6 * check) 0)%Z;
  vital_consciousness :
    In (Vital.consciousness_level r) ["Alert"; "Confused"; "Lethargic"]
}.

(** The vital-sign rows of admission [a]: the same number of checks, 2
    to 4, on every day of the stay. *)
Definition vital_block (a : Admission.t) (blk : list Vital.t) : Prop :=
  exists checks, (2 <= checks <= 4)%nat /\
    block_of (vital_fields a) (checks * stay_days a) (checks * stay_days a) blk.

(** The daily activity row of day [day] of admission [a]. *)
Record activity_fields (a : Admission.t) (day : Z) (r : Activity.t) : Prop := {
  activity_keys : Activity.patient_id r = Admission.patient_id a /\
                  Activity.admission_id r = Admission.admission_id a;
  activity_day :
    Activity.activity_date r
    = date_of (Admission.admission_datetime a + timedelta day 0 0)%Z /\
    Activity.recorded_datetime r
    = (Admission.admission_datetime a + timedelta day 20 0)%Z;
  activity_scores :
    (1 <= Activity.mobility_score r <= 5)%Z /\
    (1 <= Activity.self_care_score r <= 5)%Z /\
    (1 <= Activity.pain_management_effectiveness r <= 5)%Z /\
    (2 <= Activity.sleep_quality r <= 5)%Z /\
    (0 <= Activity.pain_level r <= 7)%Z /\
    (40 <= Activity.sleep_hours r <= 90)%Z;
  activity_meals :
    (25 <= Activity.breakfast_percent_consumed r <= 100)%Z /\
    (25 <= Activity.lunch_percent_consumed r <= 100)%Z /\
    (25 <= Activity.dinner_percent_consumed r <= 100)%Z;
  activity_comment :
    forall c, Activity.comments r = Some c -> In c possible_comments
}.


(** A lab result of admission [a]. *)
Record lab_fields (a : Admission.t) (r : Lab.t) : Prop := {
  lab_keys : Lab.patient_id r = Admission.patient_id a /\
             Lab.admission_id r = Admission.admission_id a;
  lab_test :
    In (Lab.test_type r, Lab.test_name r, Lab.reference_range r,
        Lab.unit_of_measure r) test_types;
  lab_collected :
    exists day hour,
      (0 <= day < Admission.length_of_stay a)%Z /\ (6 <= hour <= 10)%Z /\
      Lab.collected_datetime r
      = (Admission.admission_datetime a + timedelta day hour 0)%Z;
  lab_resulted :
    exists hours, (2 <= hours <= 24)%Z /\
      Lab.resulted_datetime r = (Lab.collected_datetime r + timedelta 0 hours 0)%Z;
  lab_value :
    exists tenths, (500 <= tenths <= 2000)%Z /\ Lab.test_value r = str_tenths tenths;
  lab_flag : In (Lab.abnormal_flag r) ["Normal"; "High"; "Low"; "Critical"];
  lab_dept : Lab.lab_department r = "Clinical Lab"
}.

(** A care-plan goal of admission [a]. *)
Record goal_fields (a : Admission.t) (r : Goal.t) : Prop := {
  goal_keys : Goal.patient_id r = Admission.patient_id a /\
              Goal.admission_id r = Admission.admission_id a;
  goal_template : In (Goal.goal_type r, Goal.goal_description r) goal_templates;
  goal_status :
    In (Goal.status r) ["Not Started"; "In Progress"; "Achieved"; "Discontinued"];
  goal_target : Goal.target_date r = Admission.discharge_date a;
  goal_created :
    exists hours, (2 <= hours <= 24)%Z /\
      Goal.created_datetime r
      = (Admission.admission_datetime a + timedelta 0 hours 0)%Z;
  goal_updated :
    exists days, (1 <= days <= Admission.length_of_stay a)%Z /\
      Goal.last_updated_datetime r
      = (Admission.admission_datetime a + timedelta days 0 0)%Z
}.

(** An admission of patient [p] generated for the window from [start]
    to [end_]. *)
Record admission_fields (start end_ : datetime) (diagnoses_df : list Diagnosis.t)
    (p : Patient.t) (a : Admission.t) : Prop := {
  af_patient : Admission.patient_id a = Patient.patient_id p;
  af_timestamp :
    exists days hours minutes,
      (0 <= days <= td_days (end_ - start))%Z /\ (0 <= hours <= 23)%Z /\
      (0 <= minutes <= 59)%Z /\
      Admission.admission_datetime a = (start + timedelta days hours minutes)%Z;
  af_dates :
    Admission.admission_date a = date_of (Admission.admission_datetime a) /\
    Admission.discharge_date a = date_of (Admission.discharge_datetime a) /\
    Admission.discharge_date a
    = (Admission.admission_date a + Admission.length_of_stay a)%Z;
  af_primary :
    exists x, In x diagnoses_df /\
      Admission.primary_diagnosis_id a = Diagnosis.diagnosis_id x /\
      Admission.chief_complaint a = Diagnosis.diagnosis_name x;
  af_secondary :
    exists secondary,
      incl secondary diagnoses_df /\ (List.length secondary <= 2)%nat /\
      (NoDup (map Diagnosis.diagnosis_id diagnoses_df) ->
       NoDup (map Diagnosis.diagnosis_id secondary)) /\
      Admission.secondary_diagnosis_ids a
      = join "," (map str (map Diagnosis.diagnosis_id secondary));
  af_type : In (Admission.admission_type a) ["Emergency"; "Scheduled"; "Transfer"];
  af_disposition :
    In (Admission.discharge_disposition a)
       ["Home"; "Rehab Facility"; "Nursing Home"; "Expired"; "Transfer"; "Left AMA"];
  af_charges : (500000 <= Admission.total_charges a <= 15000000)%Z
}.

(** Number of admissions flagged as readmissions. *)
Definition readmission_count (admissions : list Admission.t) : nat :=
  List.length (filter Admission.is_readmission admissions).

(* ================================================================== *)
(** * The embedding on concrete values *)

Example start_date_day_number : days_from_civil 2020 1 1 = 18262%Z.
Proof. reflexivity. Qed.

(** [(end - start).days] for the configured start date and horizon:
    five years of which two are leap years. *)
Example configured_horizon_days :
  td_days (to_datetime (add_years START_DATE NUM_YEARS) - to_datetime START_DATE)
  = 1827%Z.
Proof. reflexivity. Qed.

Example leap_day_clipped : add_years (2020, 2, 29)%Z 1 = (2021, 2, 28)%Z.
Proof. reflexivity. Qed.

(** A timedelta of minus one hour has [days == -1]. *)
Example negative_delta_days : td_days (timedelta 0 (-1) 0) = (-1)%Z.
Proof. reflexivity. Qed.

(** [round(0.3 * 5) == 2], [round(0.5 * 5) == 2], [round(0.5 * 7) == 4]. *)
Example round_ties :
  (round_half_even (3 * 5) 10, round_half_even (5 * 5) 10, round_half_even (5 * 7) 10)
  = (2, 2, 4)%Z.
Proof. reflexivity. Qed.

Example join_ids : join "," (map str [3; 11]%Z) = "3,11".
Proof. reflexivity. Qed.

Example mrn_format : "MRN" ++ zfill 8 (str 42) = "MRN00000042".
Proof. reflexivity. Qed.

Example bed_number_format :
  upper (take_prefix 3 "Emergency") ++ "-" ++ zfill 3 (str 7) = "EME-007".
Proof. reflexivity. Qed.

Example diagnoses_numbered :
  map Diagnosis.diagnosis_id generate_diagnoses = range1 12.
Proof. reflexivity. Qed.

(* ================================================================== *)
(** * Reasoning about computations *)

Open Scope Z_scope.

#[local] Arguments Z.mul : simpl never.
#[local] Arguments Z.add : simpl never.
#[local] Arguments Z.sub : simpl never.
#[local] Arguments Z.of_nat : simpl never.

Section Returns.
Context {A B : Type}.

Lemma returns_ret (a : A) (P : A -> Prop) : P a -> returns (ret a) P.
Proof. intros H w a' w' E. inversion E; subst; exact H. Qed.

Lemma returns_raise (e : exn) (P : A -> Prop) : returns (raise e) P.
Proof. intros w a w' E. discriminate E. Qed.

Lemma returns_bind (m : M A) (k : A -> M B) (P : A -> Prop) (Q : B -> Prop) :
  returns m P -> (forall a, P a -> returns (k a) Q) -> returns (bind m k) Q.
Proof.
  intros Hm Hk w b w' E. unfold bind in E.
  destruct (m w) as [a w1|e] eqn:Em; [|discriminate E].
  exact (Hk a (Hm _ _ _ Em) _ _ _ E).
Qed.

Lemma returns_weaken (m : M A) (P Q : A -> Prop) :
  returns m P -> (forall a, P a -> Q a) -> returns m Q.
Proof. intros Hm HPQ w a w' E. exact (HPQ _ (Hm _ _ _ E)). Qed.

Lemma returns_conj (m : M A) (P Q : A -> Prop) :
  returns m P -> returns m Q -> returns m (fun a => P a /\ Q a).
Proof. intros HP HQ w a w' E. split; [exact (HP _ _ _ E)|exact (HQ _ _ _ E)]. Qed.
End Returns.

Lemma returns_any {A} (m : M A) : returns m (fun _ => True).
Proof. intros w a w' _. exact I. Qed.

Lemma returns_py_draw : returns py_draw (fun _ => True).
Proof. apply returns_any. Qed.

Lemma returns_randint (a b : Z) : returns (randint a b) (fun x => a <= x <= b).
Proof.
  unfold randint. destruct (Z.ltb_spec b a) as [Hlt|Hle].
  - apply returns_raise.
  - eapply returns_bind; [apply returns_py_draw|].
    intros r _. apply returns_ret.
    pose proof (Z.mod_pos_bound (Z.of_N r) (b - a + 1)). lia.
Qed.

Lemma returns_uniform_round (lo hi : Z) :
  lo <= hi -> returns (uniform_round lo hi) (fun x => lo <= x <= hi).
Proof.
  intros Hle. unfold uniform_round.
  eapply returns_bind; [apply returns_py_draw|].
  intros r _. apply returns_ret.
  pose proof (Z.mod_pos_bound (Z.of_N r) (hi - lo + 1)). lia.
Qed.

Lemma returns_random : returns random (fun k => 0 <= k < two53).
Proof.
  unfold random. eapply returns_bind; [apply returns_py_draw|].
  intros r _. apply returns_ret. apply Z.mod_pos_bound. reflexivity.
Qed.

Lemma returns_choice {A} (l : list A) : returns (choice l) (fun x => In x l).
Proof.
  unfold choice. destruct l as [|h t]; [apply returns_raise|].
  eapply returns_bind; [apply returns_py_draw|].
  intros r _.
  destruct (nth_error (h :: t) _) as [x|] eqn:E; [|apply returns_raise].
  apply returns_ret. eapply nth_error_In; exact E.
Qed.

Lemma returns_sample1 {A} (l : list A) : returns (sample1 l) (fun x => In x l).
Proof.
  unfold sample1. destruct l as [|h t]; [apply returns_raise|].
  eapply returns_bind; [apply returns_any|].
  intros r _.
  destruct (nth_error (h :: t) _) as [x|] eqn:E; [|apply returns_raise].
  apply returns_ret. eapply nth_error_In; exact E.
Qed.

Lemma remove_nth_incl {A} (i : nat) (l : list A) : incl (remove_nth i l) l.
Proof.
  revert i. induction l as [|x t IH]; intros i; simpl.
  - destruct i; apply incl_refl.
  - destruct i as [|j].
    + apply incl_tl, incl_refl.
    + intros y [Hy|Hy]; [left; exact Hy|right; exact (IH j y Hy)].
Qed.

Lemma returns_sample_rows {A} (n : nat) (l : list A) :
  returns (sample_rows n l) (fun rows => incl rows l).
Proof.
  revert l. induction n as [|m IH]; intros l; simpl.
  - apply returns_ret. intros x [].
  - destruct l as [|h t]; [apply returns_raise|].
    eapply returns_bind; [apply returns_any|].
    intros r _. cbv zeta.
    destruct (nth_error (h :: t) _) as [x|] eqn:E; [|apply returns_raise].
    eapply returns_bind; [apply IH|].
    intros rest Hrest. apply returns_ret.
    intros y [Hy|Hy].
    + subst y. eapply nth_error_In; exact E.
    + eapply remove_nth_incl. apply Hrest. exact Hy.
Qed.

Lemma returns_sample {A} (n : Z) (l : list A) :
  returns (sample n l) (fun rows => incl rows l).
Proof.
  unfold sample. destruct (n <? 0); [apply returns_raise|apply returns_sample_rows].
Qed.

Lemma returns_sample_frac {A} (tenths : Z) (l : list A) :
  returns (sample_frac tenths l) (fun rows => incl rows l).
Proof. apply returns_sample. Qed.

Lemma returns_py_index {A} (l : list A) (i : Z) :
  returns (py_index l i)
    (fun x => exists j, nth_error l j = Some x /\
                        Z.of_nat j = if i <? 0 then i + Z.of_nat (List.length l) else i).
Proof.
  unfold py_index.
  set (j := if i <? 0 then i + Z.of_nat (List.length l) else i).
  destruct (Z.ltb_spec j 0) as [Hneg|Hpos]; [apply returns_raise|].
  destruct (nth_error l (Z.to_nat j)) as [x|] eqn:E; [|apply returns_raise].
  apply returns_ret. exists (Z.to_nat j). split; [exact E|lia].
Qed.

(** Loop rule: an invariant of the loop-carried variables indexed by
    the elements already visited. *)
Lemma returns_for_each_prefix {X S} (body : S -> X -> M S)
    (I : list X -> S -> Prop) (xs : list X) (s0 : S) :
  I [] s0 ->
  (forall pre x post s, xs = (pre ++ x :: post)%list -> I pre s ->
                        returns (body s x) (I (pre ++ [x])%list)) ->
  returns (for_each xs body s0) (I xs).
Proof.
  intros H0 Hstep.
  assert (G : forall rest pre s, xs = (pre ++ rest)%list -> I pre s ->
                                 returns (for_each rest body s) (I xs)).
  { induction rest as [|x rest IH]; intros pre s Hxs Hs; simpl.
    - apply returns_ret. rewrite Hxs, app_nil_r. exact Hs.
    - eapply returns_bind; [exact (Hstep pre x rest s Hxs Hs)|].
      intros s1 Hs1. apply (IH (pre ++ [x])%list); [|exact Hs1].
      rewrite <- app_assoc. exact Hxs. }
  exact (G xs [] s0 eq_refl H0).
Qed.

(** Loop rule: an invariant that does not depend on the position. *)
Lemma returns_for_each {X S} (body : S -> X -> M S) (I : S -> Prop)
    (xs : list X) (s0 : S) :
  I s0 ->
  (forall x s, In x xs -> I s -> returns (body s x) I) ->
  returns (for_each xs body s0) I.
Proof.
  intros H0 Hstep.
  apply (returns_for_each_prefix body (fun _ => I)); [exact H0|].
  intros pre x post s Hxs Hs. apply Hstep; [|exact Hs].
  rewrite Hxs. apply in_or_app. right. left. reflexivity.
Qed.

Lemma in_range (n x : Z) : In x (range n) -> 0 <= x < n.
Proof.
  unfold range. rewrite in_map_iff. intros [k [Hk Hin]].
  apply in_seq in Hin. lia.
Qed.

(** The element of [range n] that follows a prefix is the length of
    that prefix. *)
Lemma range_split (n : Z) (pre post : list Z) (x : Z) :
  range n = (pre ++ x :: post)%list -> x = Z.of_nat (List.length pre).
Proof.
  unfold range. intros H.
  assert (Hn : nth_error (map Z.of_nat (seq 0 (Z.to_nat n))) (List.length pre) = Some x).
  { rewrite H, nth_error_app2, Nat.sub_diag by lia. reflexivity. }
  rewrite nth_error_map in Hn.
  destruct (nth_error (seq 0 (Z.to_nat n)) (List.length pre)) as [k|] eqn:E;
    [|discriminate Hn].
  simpl in Hn. inversion Hn; subst x.
  assert (Hlt : (List.length pre < List.length (seq 0 (Z.to_nat n)))%nat).
  { apply nth_error_Some. rewrite E. discriminate. }
  rewrite length_seq in Hlt.
  rewrite (nth_error_nth' _ 0%nat) in E by (rewrite length_seq; exact Hlt).
  rewrite seq_nth in E by exact Hlt. inversion E. reflexivity.
Qed.

Lemma range_length (n : Z) : List.length (range n) = Z.to_nat n.
Proof. unfold range. rewrite length_map, length_seq. reflexivity. Qed.

Ltac prim :=
  first [ apply returns_randint
        | apply returns_choice
        | apply returns_sample1
        | apply returns_sample
        | apply returns_sample_frac
        | apply returns_random
        | apply returns_py_index
        | apply returns_uniform_round; lia ].

(** One step through a [bind] whose first computation is a primitive. *)
Ltac step := eapply returns_bind; [prim|cbv beta; intros ? ?].

Lemma is_doctor_role (s : Staff.t) :
  is_doctor s = true -> In (Staff.role s) doctor_roles.
Proof.
  unfold is_doctor, isin. intros H. apply existsb_exists in H.
  destruct H as [r [Hin Heq]]. apply String.eqb_eq in Heq. rewrite Heq. exact Hin.
Qed.

Lemma is_nurse_role (s : Staff.t) :
  is_nurse s = true -> In (Staff.role s) nurse_roles.
Proof.
  unfold is_nurse. intros H. apply String.eqb_eq in H. rewrite H. left. reflexivity.
Qed.

Lemma sampled_doctor (staff_df : list Staff.t) (s : Staff.t) :
  In s (filter is_doctor staff_df) ->
  staff_with_role staff_df doctor_roles (Staff.staff_id s).
Proof.
  intros H. apply filter_In in H. destruct H as [Hin Hd].
  exists s. split; [exact Hin|]. split; [reflexivity|apply is_doctor_role; exact Hd].
Qed.

Lemma sampled_nurse (staff_df : list Staff.t) (s : Staff.t) :
  In s (filter is_nurse staff_df) ->
  staff_with_role staff_df nurse_roles (Staff.staff_id s).
Proof.
  intros H. apply filter_In in H. destruct H as [Hin Hn].
  exists s. split; [exact Hin|]. split; [reflexivity|apply is_nurse_role; exact Hn].
Qed.

(* ================================================================== *)
(** * Admissions *)

Lemma returns_sample_los (d : Diagnosis.t) :
  returns (sample_los d)
    (fun los => fst (los_range (Diagnosis.severity_level d)) <= los
                <= snd (los_range (Diagnosis.severity_level d))).
Proof.
  unfold sample_los, los_range.
  destruct (String.eqb (Diagnosis.severity_level d) "Critical").
  - apply returns_randint.
  - destruct (String.eqb (Diagnosis.severity_level d) "Serious");
      apply returns_randint.
Qed.

(** The check reads the row appended last, and only when the patient
    already has one. *)
Lemma returns_check_readmission (before blk : list Admission.t) (dt : datetime) :
  returns (check_readmission (before ++ blk)
             (Z.of_nat (List.length (before ++ blk)) + 1)
             (Z.of_nat (List.length blk)) dt)
    (fun flag =>
       (blk = [] -> flag = false) /\
       (forall prev, nth_error blk (List.length blk - 1) = Some prev ->
          (flag = true <->
           td_days (dt - Admission.discharge_datetime prev) <= 30))).
Proof.
  unfold check_readmission.
  destruct (Z.ltb_spec 0 (Z.of_nat (List.length blk))) as [Hpos|Hzero].
  - eapply returns_bind; [apply returns_py_index|].
    intros prev [j [Hj Hidx]]. cbv zeta.
    rewrite length_app in Hidx.
    destruct (Z.ltb_spec (Z.of_nat (List.length before + List.length blk) + 1 - 2) 0)
      as [Hneg|_]; [lia|].
    assert (Ej : j = (List.length before + (List.length blk - 1))%nat) by lia.
    subst j. rewrite nth_error_app2 in Hj by lia.
    replace (List.length before + (List.length blk - 1) - List.length before)%nat
      with (List.length blk - 1)%nat in Hj by lia.
    destruct (Z.leb_spec (td_days (dt - Admission.discharge_datetime prev)) 30)
      as [Hle|Hgt]; apply returns_ret; (split; [intros ->; simpl in Hpos; lia|]);
      intros prev' Hprev'; rewrite Hj in Hprev'; inversion Hprev'; subst prev'.
    + split; [intros _; exact Hle|reflexivity].
    + split; [discriminate|lia].
  - apply returns_ret. split; [reflexivity|].
    intros prev Hprev. destruct blk; [destruct (0 - 1)%nat; discriminate Hprev|].
    simpl in Hzero. lia.
Qed.

Lemma readmission_chain_nil : readmission_chain [].
Proof.
  split.
  - intros a Ha. discriminate Ha.
  - intros k prev cur Hprev. destruct k; discriminate Hprev.
Qed.

Lemma readmission_chain_snoc (blk : list Admission.t) (a : Admission.t) :
  readmission_chain blk ->
  (blk = [] -> Admission.is_readmission a = false) ->
  (forall prev, nth_error blk (List.length blk - 1) = Some prev ->
     (Admission.is_readmission a = true <->
      td_days (Admission.admission_datetime a -
               Admission.discharge_datetime prev) <= 30)) ->
  readmission_chain (blk ++ [a]).
Proof.
  intros [Hfirst Hnext] Hempty Hlast. split.
  - intros a0 H0. destruct blk as [|b rest].
    + simpl in H0. inversion H0; subst a0. apply Hempty. reflexivity.
    + apply Hfirst. simpl in *. exact H0.
  - intros k prev cur Hprev Hcur.
    destruct (Nat.lt_ge_cases (S k) (List.length blk)) as [Hin|Hout].
    + rewrite nth_error_app1 in Hprev by lia.
      rewrite nth_error_app1 in Hcur by lia.
      exact (Hnext k prev cur Hprev Hcur).
    + rewrite nth_error_app2 in Hcur by lia.
      destruct (S k - List.length blk)%nat as [|m] eqn:Ek.
      * simpl in Hcur. inversion Hcur; subst cur.
        rewrite nth_error_app1 in Hprev by lia.
        apply Hlast. replace (List.length blk - 1)%nat with k by lia. exact Hprev.
      * simpl in Hcur. destruct m; discriminate Hcur.
Qed.

Lemma in_generation_order_snoc (l : list Admission.t) (a : Admission.t) :
  in_generation_order l ->
  Admission.admission_id a = Z.of_nat (List.length l) + 1 ->
  in_generation_order (l ++ [a]).
Proof.
  intros Hl Ha i x Hx.
  destruct (Nat.lt_ge_cases i (List.length l)) as [Hin|Hout].
  - rewrite nth_error_app1 in Hx by exact Hin. exact (Hl i x Hx).
  - rewrite nth_error_app2 in Hx by exact Hout.
    destruct (i - List.length l)%nat as [|m] eqn:Ei.
    + simpl in Hx. inversion Hx; subst x. rewrite Ha. f_equal. lia.
    + simpl in Hx. destruct m; discriminate Hx.
Qed.

Section AdmissionLoops.
Variables (wards_df : list Ward.t) (diagnoses_df : list Diagnosis.t)
          (staff_df : list Staff.t) (beds_df : list Bed.t)
          (start end_ : datetime).

Let inner := patient_loop_inv wards_df diagnoses_df staff_df beds_df.
Let outer := admissions_loop_inv wards_df diagnoses_df staff_df beds_df.

(** One round of the inner loop appends one row of the patient. *)
Lemma generate_admission_step (p : Patient.t) (before : list Admission.t)
    (k : nat) (st : list Admission.t * Z) :
  inner p before k st ->
  returns (generate_admission p wards_df diagnoses_df staff_df beds_df
             start end_ st (Z.of_nat k))
          (inner p before (S k)).
Proof.
  destruct st as [admissions admission_id].
  intros [blk [Hadm [Hid [Hlen [Hord [Hrows Hchain]]]]]].
  simpl in Hadm, Hid, Hord. subst admissions admission_id k.
  unfold generate_admission. cbv zeta.
  do 3 step.
  step. rename a2 into diagnosis, H2 into Hdiag.
  eapply returns_bind; [apply returns_sample_los|]. intros los Hlos.
  eapply returns_bind; [apply returns_check_readmission|].
  intros flag [Hflag0 Hflag].
  step. rename a2 into ward, H2 into Hward.
  step. rename a2 into bed, H2 into Hbed.
  step. rename a2 into doctor, H2 into Hdoc.
  step. step. step. rename a4 into secondary, H4 into Hsec.
  step. step.
  apply returns_ret. unfold append.
  match goal with
  | |- context [(_ ++ [?row])%list] => exists (blk ++ [row])%list
  end.
  simpl.
  split; [symmetry; apply app_assoc|].
  split; [rewrite !length_app; simpl; lia|].
  split; [rewrite length_app; simpl; lia|].
  split; [apply in_generation_order_snoc; [exact Hord|reflexivity]|].
  split.
  - apply Forall_app. split; [exact Hrows|].
    constructor; [|constructor]. split; [reflexivity|].
    apply filter_In in Hbed. destruct Hbed as [Hbed Hbw].
    apply Z.eqb_eq in Hbw.
    constructor; simpl.
    + exists ward. split; [exact Hward|reflexivity].
    + exists bed. split; [exact Hbed|]. split; [reflexivity|exact Hbw].
    + apply sampled_doctor. exact Hdoc.
    + exists diagnosis. split; [exact Hdiag|]. split; [reflexivity|exact Hlos].
    + exists secondary. split; [exact Hsec|reflexivity].
    + unfold timedelta. lia.
    + reflexivity.
  - apply readmission_chain_snoc; simpl; assumption.
Qed.

(** The inner loop appends between 2 and 5 rows of the patient. *)
Lemma generate_patient_admissions_step (done : list Patient.t) (p : Patient.t)
    (st : list Admission.t * Z) :
  outer done st ->
  returns (generate_patient_admissions wards_df diagnoses_df staff_df beds_df
             start end_ st p)
          (outer (done ++ [p])).
Proof.
  intros [Hid [Hord [blocks [Hcat Hblocks]]]].
  unfold generate_patient_admissions.
  step. rename a into n, H into Hn.
  eapply returns_weaken.
  - apply (returns_for_each_prefix _
             (fun pre => inner p (fst st) (List.length pre))).
    + exists []. rewrite app_nil_r.
      split; [reflexivity|]. split; [exact Hid|]. split; [reflexivity|].
      split; [exact Hord|]. split; [constructor|apply readmission_chain_nil].
    + intros pre x post s Hsplit Hs.
      rewrite (range_split _ _ _ _ Hsplit).
      rewrite length_app, Nat.add_1_r.
      apply generate_admission_step. exact Hs.
  - intros st' [blk [Hadm [Hid' [Hlen [Hord' [Hrows Hchain]]]]]].
    rewrite range_length in Hlen.
    split; [exact Hid'|]. split; [exact Hord'|].
    exists (blocks ++ [blk])%list. split.
    + rewrite concat_app. simpl. rewrite app_nil_r, <- Hcat. exact Hadm.
    + apply Forall2_app; [exact Hblocks|].
      constructor; [|constructor].
      split; [lia|]. split; assumption.
Qed.
End AdmissionLoops.

(** The table of [generate_admissions] is one block of rows per patient,
    in the order of the patient table. *)
Lemma generate_admissions_blocks (patients_df : list Patient.t)
    (wards_df : list Ward.t) (diagnoses_df : list Diagnosis.t)
    (staff_df : list Staff.t) (beds_df : list Bed.t)
    (start_date : ymd) (num_years : Z) :
  returns (generate_admissions patients_df wards_df diagnoses_df staff_df beds_df
             start_date num_years)
    (fun admissions =>
       in_generation_order admissions /\
       exists blocks,
         admissions = List.concat blocks /\
         Forall2 (patient_block wards_df diagnoses_df staff_df beds_df)
                 patients_df blocks).
Proof.
  unfold generate_admissions. cbv zeta.
  eapply returns_bind.
  - apply (returns_for_each_prefix _
             (admissions_loop_inv wards_df diagnoses_df staff_df beds_df)).
    + split; [reflexivity|]. split.
      * intros i a Ha. destruct i; discriminate Ha.
      * exists []. split; [reflexivity|constructor].
    + intros pre p post s _ Hs.
      apply generate_patient_admissions_step. exact Hs.
  - intros [admissions next_id] [_ [Hord Hblocks]].
    apply returns_ret. split; assumption.
Qed.

(* ================================================================== *)
(** * Child fact tables

    Every generator threads the list of rows built so far through its
    nested loops; at each level the invariant is that all rows of the
    list satisfy the row property of the table. *)

Ltac loop := apply returns_for_each; [assumption|intros ? ? ? ?].

Lemma Forall_append {A} (P : A -> Prop) (rows : list A) (row : A) :
  Forall P rows -> P row -> Forall P (append rows row).
Proof.
  intros Hrows Hrow. unfold append. apply Forall_app.
  split; [exact Hrows|]. constructor; [exact Hrow|constructor].
Qed.

Section Medication.
Variables (admissions_df : list Admission.t)
          (medications_df : list Medication.t) (staff_df : list Staff.t).

Let rows_ok (st : list Mar.t * Z) : Prop :=
  Forall (mar_ok admissions_df medications_df staff_df) (fst st).

Lemma returns_administered (status : string) (scheduled_dt : datetime) :
  returns (if String.eqb status "Given"
           then delay <- randint (-30) 60 ;;
                ret (Some (scheduled_dt + timedelta 0 0 delay))
           else ret None)
    (fun o => forall t, o = Some t -> scheduled_dt - 30 <= t <= scheduled_dt + 60).
Proof.
  destruct (String.eqb status "Given").
  - step. apply returns_ret. intros t E. inversion E.
    unfold timedelta. lia.
  - apply returns_ret. intros t E. discriminate E.
Qed.

Lemma generate_dose_ok (a : Admission.t) (med : Medication.t) (day dose : Z)
    (st : list Mar.t * Z) :
  In a admissions_df -> In med medications_df ->
  0 <= day < Admission.length_of_stay a -> 0 <= dose <= 3 ->
  rows_ok st -> returns (generate_dose staff_df a med day st dose) rows_ok.
Proof.
  intros Ha Hmed Hday Hdose Hst. destruct st as [rows next_id].
  unfold generate_dose. cbv zeta.
  step. rename a0 into status.
  eapply returns_bind; [apply returns_administered|].
  intros administered Hadm.
  step. rename a0 into prescriber, H0 into Hpre.
  step. rename a0 into nurse, H0 into Hnurse.
  do 3 step.
  apply returns_ret. unfold rows_ok. simpl.
  apply Forall_append; [exact Hst|].
  exists a. simpl.
  split; [split; [exact Ha|split; reflexivity]|].
  split; [exists med; split; [exact Hmed|reflexivity]|].
  split; [apply sampled_doctor; exact Hpre|].
  split.
  { intros id E. destruct (String.eqb status "Given"); [|discriminate E].
    inversion E. apply sampled_nurse. exact Hnurse. }
  split; [|exact Hadm].
  unfold stay_end, timedelta, minutes_per_day. lia.
Qed.

Lemma generate_medication_day_ok (a : Admission.t) (med : Medication.t)
    (day : Z) (st : list Mar.t * Z) :
  In a admissions_df -> In med medications_df ->
  0 <= day < Admission.length_of_stay a ->
  rows_ok st -> returns (generate_medication_day staff_df a med st day) rows_ok.
Proof.
  intros Ha Hmed Hday Hst. unfold generate_medication_day.
  step. loop.
  match goal with H : In _ (range _) |- _ => apply in_range in H end.
  apply generate_dose_ok; try assumption. lia.
Qed.

Lemma generate_medication_course_ok (a : Admission.t) (med : Medication.t)
    (st : list Mar.t * Z) :
  In a admissions_df -> In med medications_df ->
  rows_ok st -> returns (generate_medication_course staff_df a st med) rows_ok.
Proof.
  intros Ha Hmed Hst. unfold generate_medication_course. loop.
  match goal with H : In _ (range _) |- _ => apply in_range in H end.
  apply generate_medication_day_ok; assumption.
Qed.

Lemma generate_admission_medications_ok (a : Admission.t) (st : list Mar.t * Z) :
  In a admissions_df ->
  rows_ok st ->
  returns (generate_admission_medications medications_df staff_df st a) rows_ok.
Proof.
  intros Ha Hst. unfold generate_admission_medications.
  step. step. loop.
  apply generate_medication_course_ok; auto.
Qed.

Lemma generate_medication_administration_ok :
  returns (generate_medication_administration admissions_df medications_df staff_df)
          (Forall (mar_ok admissions_df medications_df staff_df)).
Proof.
  unfold generate_medication_administration.
  step. rename a into sampled, H into Hsampled.
  eapply returns_bind.
  - apply (returns_for_each _ rows_ok); [constructor|].
    intros a st Ha Hst.
    apply generate_admission_medications_ok; [apply Hsampled; exact Ha|exact Hst].
  - intros [rows next_id] Hrows. apply returns_ret. exact Hrows.
Qed.
End Medication.

Section Vitals.
Variables (admissions_df : list Admission.t) (staff_df : list Staff.t).

Let rows_ok (st : list Vital.t * Z) : Prop :=
  Forall (vital_ok admissions_df staff_df) (fst st).

Lemma generate_vital_check_ok (a : Admission.t) (day check : Z)
    (st : list Vital.t * Z) :
  In a admissions_df ->
  0 <= day < Admission.length_of_stay a -> 0 <= check <= 3 ->
  rows_ok st -> returns (generate_vital_check staff_df a day st check) rows_ok.
Proof.
  intros Ha Hday Hcheck Hst. destruct st as [rows next_id].
  unfold generate_vital_check. cbv zeta.
  step. rename a0 into nurse, H into Hnurse.
  do 8 step.
  apply returns_ret. unfold rows_ok. simpl.
  apply Forall_append; [exact Hst|].
  exists a. simpl.
  split; [split; [exact Ha|split; reflexivity]|].
  split; [apply sampled_nurse; exact Hnurse|].
  split; [unfold stay_end, timedelta, minutes_per_day; lia|].
  repeat split; lia.
Qed.

Lemma generate_vital_day_ok (a : Admission.t) (checks_per_day day : Z)
    (st : list Vital.t * Z) :
  In a admissions_df -> checks_per_day <= 4 ->
  0 <= day < Admission.length_of_stay a ->
  rows_ok st ->
  returns (generate_vital_day staff_df a checks_per_day st day) rows_ok.
Proof.
  intros Ha Hchecks Hday Hst. unfold generate_vital_day. loop.
  match goal with H : In _ (range _) |- _ => apply in_range in H end.
  apply generate_vital_check_ok; try assumption. lia.
Qed.

Lemma generate_admission_vitals_ok (a : Admission.t) (st : list Vital.t * Z) :
  In a admissions_df ->
  rows_ok st -> returns (generate_admission_vitals staff_df st a) rows_ok.
Proof.
  intros Ha Hst. unfold generate_admission_vitals.
  step. loop.
  match goal with H : In _ (range _) |- _ => apply in_range in H end.
  apply generate_vital_day_ok; try assumption. lia.
Qed.

Lemma generate_vital_signs_ok :
  returns (generate_vital_signs admissions_df staff_df)
          (Forall (vital_ok admissions_df staff_df)).
Proof.
  unfold generate_vital_signs.
  step. rename a into sampled, H into Hsampled.
  eapply returns_bind.
  - apply (returns_for_each _ rows_ok); [constructor|].
    intros a st Ha Hst.
    apply generate_admission_vitals_ok; [apply Hsampled; exact Ha|exact Hst].
  - intros [rows next_id] Hrows. apply returns_ret. exact Hrows.
Qed.
End Vitals.

Section Activities.
Variables (admissions_df : list Admission.t) (staff_df : list Staff.t).

Let rows_ok (st : list Activity.t * Z) : Prop :=
  Forall (activity_ok admissions_df staff_df) (fst st).

Lemma generate_activity_day_ok (a : Admission.t) (day : Z)
    (st : list Activity.t * Z) :
  In a admissions_df ->
  0 <= day < Admission.length_of_stay a ->
  rows_ok st -> returns (generate_activity_day staff_df a st day) rows_ok.
Proof.
  intros Ha Hday Hst. destruct st as [rows next_id].
  unfold generate_activity_day. cbv zeta.
  step. rename a0 into nurse, H into Hnurse.
  do 19 step.
  eapply returns_bind; [apply returns_any|]. intros comments _.
  apply returns_ret. unfold rows_ok. simpl.
  apply Forall_append; [exact Hst|].
  exists a. simpl.
  split; [split; [exact Ha|split; reflexivity]|].
  split; [apply sampled_nurse; exact Hnurse|].
  unfold stay_end, timedelta, minutes_per_day. lia.
Qed.

Lemma generate_admission_activities_ok (a : Admission.t)
    (st : list Activity.t * Z) :
  In a admissions_df ->
  rows_ok st -> returns (generate_admission_activities staff_df st a) rows_ok.
Proof.
  intros Ha Hst. unfold generate_admission_activities. loop.
  match goal with H : In _ (range _) |- _ => apply in_range in H end.
  apply generate_activity_day_ok; assumption.
Qed.

Lemma generate_daily_activities_ok :
  returns (generate_daily_activities admissions_df staff_df)
          (Forall (activity_ok admissions_df staff_df)).
Proof.
  unfold generate_daily_activities.
  step. rename a into sampled, H into Hsampled.
  eapply returns_bind.
  - apply (returns_for_each _ rows_ok); [constructor|].
    intros a st Ha Hst.
    apply generate_admission_activities_ok; [apply Hsampled; exact Ha|exact Hst].
  - intros [rows next_id] Hrows. apply returns_ret. exact Hrows.
Qed.
End Activities.

Section Procedures.
Variables (admissions_df : list Admission.t)
          (procedures_df : list Procedure.t) (staff_df : list Staff.t).

Let rows_ok (st : list ProcedureEvent.t * Z) : Prop :=
  Forall (procedure_event_ok admissions_df procedures_df staff_df) (fst st).

Lemma generate_procedure_event_ok (a : Admission.t) (proc_num : Z)
    (st : list ProcedureEvent.t * Z) :
  In a admissions_df ->
  rows_ok st ->
  returns (generate_procedure_event procedures_df staff_df a st proc_num) rows_ok.
Proof.
  intros Ha Hst. destruct st as [rows next_id].
  unfold generate_procedure_event. cbv zeta.
  step. rename a0 into procedure, H into Hproc.
  step. rename a0 into doctor, H into Hdoc.
  do 6 step.
  apply returns_ret. unfold rows_ok. simpl.
  apply Forall_append; [exact Hst|].
  exists a. simpl.
  split; [split; [exact Ha|split; reflexivity]|].
  split; [exists procedure; split; [exact Hproc|reflexivity]|].
  split; [apply sampled_doctor; exact Hdoc|].
  unfold stay_end, timedelta, minutes_per_day. lia.
Qed.

Lemma generate_admission_procedures_ok (a : Admission.t)
    (st : list ProcedureEvent.t * Z) :
  In a admissions_df ->
  rows_ok st ->
  returns (generate_admission_procedures procedures_df staff_df st a) rows_ok.
Proof.
  intros Ha Hst. unfold generate_admission_procedures.
  step. loop. apply generate_procedure_event_ok; assumption.
Qed.

Lemma generate_procedure_events_ok :
  returns (generate_procedure_events admissions_df procedures_df staff_df)
          (Forall (procedure_event_ok admissions_df procedures_df staff_df)).
Proof.
  unfold generate_procedure_events.
  step. rename a into sampled, H into Hsampled.
  eapply returns_bind.
  - apply (returns_for_each _ rows_ok); [constructor|].
    intros a st Ha Hst.
    apply generate_admission_procedures_ok; [apply Hsampled; exact Ha|exact Hst].
  - intros [rows next_id] Hrows. apply returns_ret. exact Hrows.
Qed.
End Procedures.

Section Labs.
Variables (admissions_df : list Admission.t) (staff_df : list Staff.t).

Let rows_ok (st : list Lab.t * Z) : Prop :=
  Forall (lab_ok admissions_df staff_df) (fst st).

Lemma generate_lab_panel_ok (a : Admission.t) (panel : Z) (st : list Lab.t * Z) :
  In a admissions_df ->
  rows_ok st -> returns (generate_lab_panel staff_df a st panel) rows_ok.
Proof.
  intros Ha Hst. destruct st as [rows next_id].
  unfold generate_lab_panel. cbv zeta.
  step. destruct a0 as [[[test0 test1] test2] test3].
  step. rename a0 into doctor, H0 into Hdoc.
  do 5 step.
  apply returns_ret. unfold rows_ok. simpl.
  apply Forall_append; [exact Hst|].
  exists a. simpl.
  split; [split; [exact Ha|split; reflexivity]|].
  split; [apply sampled_doctor; exact Hdoc|].
  unfold stay_end, timedelta, minutes_per_day. lia.
Qed.

Lemma generate_admission_labs_ok (a : Admission.t) (st : list Lab.t * Z) :
  In a admissions_df ->
  rows_ok st -> returns (generate_admission_labs staff_df st a) rows_ok.
Proof.
  intros Ha Hst. unfold generate_admission_labs.
  step. loop. apply generate_lab_panel_ok; assumption.
Qed.

Lemma generate_lab_results_ok :
  returns (generate_lab_results admissions_df staff_df)
          (Forall (lab_ok admissions_df staff_df)).
Proof.
  unfold generate_lab_results.
  step. rename a into sampled, H into Hsampled.
  eapply returns_bind.
  - apply (returns_for_each _ rows_ok); [constructor|].
    intros a st Ha Hst.
    apply generate_admission_labs_ok; [apply Hsampled; exact Ha|exact Hst].
  - intros [rows next_id] Hrows. apply returns_ret. exact Hrows.
Qed.
End Labs.

Section Goals.
Variables (admissions_df : list Admission.t) (staff_df : list Staff.t).

Let rows_ok (st : list Goal.t * Z) : Prop :=
  Forall (goal_ok admissions_df staff_df) (fst st).

Lemma returns_goal_progress (status : string) :
  returns (goal_progress status)
    (fun progress =>
       (status = "Achieved" -> progress = 100) /\
       (status = "Not Started" \/ status = "Discontinued" -> progress = 0) /\
       (status = "In Progress" -> 30 <= progress <= 90)).
Proof.
  unfold goal_progress.
  destruct (String.eqb_spec status "Achieved") as [Ea|Na].
  - apply returns_ret. subst status.
    split; [reflexivity|]. split; [intros [E|E]; discriminate E|discriminate].
  - destruct (String.eqb_spec status "In Progress") as [Ep|Np].
    + eapply returns_weaken; [apply returns_randint|].
      intros progress Hprogress. subst status.
      split; [discriminate|]. split; [intros [E|E]; discriminate E|].
      intros _. exact Hprogress.
    + apply returns_ret.
      split; [intros E; contradiction|]. split; [reflexivity|].
      intros E; contradiction.
Qed.

Lemma generate_goal_ok (a : Admission.t) (goal_num : Z) (st : list Goal.t * Z) :
  In a admissions_df ->
  rows_ok st -> returns (generate_goal staff_df a st goal_num) rows_ok.
Proof.
  intros Ha Hst. destruct st as [rows next_id].
  unfold generate_goal. cbv zeta.
  step. step. rename a1 into nurse, H0 into Hnurse.
  step. rename a1 into status.
  eapply returns_bind; [apply returns_goal_progress|].
  intros progress [Hach [Hzero Hprog]].
  do 2 step.
  apply returns_ret. unfold rows_ok. simpl.
  apply Forall_append; [exact Hst|].
  exists a. simpl.
  split; [split; [exact Ha|split; reflexivity]|].
  split; [apply sampled_nurse; exact Hnurse|].
  split; [unfold timedelta, minutes_per_day; lia|].
  split; [unfold stay_end, timedelta, minutes_per_day; lia|].
  split; [exact Hach|]. split; [exact Hzero|exact Hprog].
Qed.

Lemma generate_admission_goals_ok (a : Admission.t) (st : list Goal.t * Z) :
  In a admissions_df ->
  rows_ok st -> returns (generate_admission_goals staff_df st a) rows_ok.
Proof.
  intros Ha Hst. unfold generate_admission_goals.
  step. loop. apply generate_goal_ok; assumption.
Qed.

Lemma generate_care_plan_goals_ok :
  returns (generate_care_plan_goals admissions_df staff_df)
          (Forall (goal_ok admissions_df staff_df)).
Proof.
  unfold generate_care_plan_goals.
  step. rename a into sampled, H into Hsampled.
  eapply returns_bind.
  - apply (returns_for_each _ rows_ok); [constructor|].
    intros a st Ha Hst.
    apply generate_admission_goals_ok; [apply Hsampled; exact Ha|exact Hst].
  - intros [rows next_id] Hrows. apply returns_ret. exact Hrows.
Qed.
End Goals.

(* ================================================================== *)
(** * The run of the fact generators *)

Lemma generate_facts_ok (d : Dimensions) (start_date : ymd) (num_years : Z) :
  returns (generate_facts d start_date num_years) (facts_ok d).
Proof.
  unfold generate_facts.
  eapply returns_bind; [apply generate_admissions_blocks|].
  intros admissions [Hord Hblocks].
  eapply returns_bind; [apply generate_medication_administration_ok|].
  intros mar Hmar.
  eapply returns_bind; [apply generate_vital_signs_ok|].
  intros vitals Hvitals.
  eapply returns_bind; [apply generate_daily_activities_ok|].
  intros activities Hactivities.
  eapply returns_bind; [apply generate_procedure_events_ok|].
  intros events Hevents.
  eapply returns_bind; [apply generate_lab_results_ok|].
  intros labs Hlabs.
  eapply returns_bind; [apply generate_care_plan_goals_ok|].
  intros goals Hgoals.
  apply returns_ret. constructor; assumption.
Qed.

(** Rows of the blocks are rows of the table, and conversely. *)
Lemma in_concat_blocks {P : Patient.t -> list Admission.t -> Prop}
    (patients_df : list Patient.t) (blocks : list (list Admission.t))
    (a : Admission.t) :
  Forall2 P patients_df blocks -> In a (List.concat blocks) ->
  exists p blk, In p patients_df /\ In a blk /\ P p blk.
Proof.
  induction 1 as [|p blk ps bs Hp _ IH]; simpl; intros Hin; [contradiction|].
  apply in_app_or in Hin. destruct Hin as [Hin|Hin].
  - exists p, blk. split; [left; reflexivity|]. split; assumption.
  - destruct (IH Hin) as [p' [blk' [Hp' H']]].
    exists p', blk'. split; [right; exact Hp'|exact H'].
Qed.

(** Every admission row of the table satisfies the row property and
    belongs to a patient of the patient table. *)
Lemma admission_rows_ok (patients_df : list Patient.t)
    (wards_df : list Ward.t) (diagnoses_df : list Diagnosis.t)
    (staff_df : list Staff.t) (beds_df : list Bed.t)
    (blocks : list (list Admission.t)) (a : Admission.t) :
  Forall2 (patient_block wards_df diagnoses_df staff_df beds_df) patients_df blocks ->
  In a (List.concat blocks) ->
  has_patient patients_df (Admission.patient_id a) /\
  admission_ok wards_df diagnoses_df staff_df beds_df a.
Proof.
  intros Hblocks Hin.
  destruct (in_concat_blocks _ _ _ Hblocks Hin) as [p [blk [Hp [Ha [_ [Hrows _]]]]]].
  rewrite Forall_forall in Hrows. destruct (Hrows a Ha) as [Hid Hok].
  split; [|exact Hok]. exists p. split; [exact Hp|symmetry; exact Hid].
Qed.

Lemma concat_length_bounds {P : Patient.t -> list Admission.t -> Prop}
    (patients_df : list Patient.t) (blocks : list (list Admission.t)) :
  Forall2 (fun p blk => (2 <= List.length blk <= 5)%nat /\ P p blk)
          patients_df blocks ->
  (2 * List.length patients_df <= List.length (List.concat blocks)
   <= 5 * List.length patients_df)%nat.
Proof.
  induction 1 as [|p blk ps bs [Hlen _] _ IH]; simpl; [lia|].
  rewrite length_app. lia.
Qed.

Lemma generate_patients_length (n : Z) :
  returns (generate_patients n) (fun patients => List.length patients = Z.to_nat n).
Proof.
  unfold generate_patients. cbv zeta.
  eapply returns_weaken.
  - apply (returns_for_each_prefix _
             (fun pre (patients : list Patient.t) =>
                List.length patients = List.length pre)); [reflexivity|].
    intros pre i post patients _ Hlen. do 3 step.
    apply returns_ret. unfold append. rewrite !length_app, Hlen. reflexivity.
  - intros patients Hlen. rewrite Hlen. unfold range1.
    rewrite length_map, length_seq. reflexivity.
Qed.

(* ================================================================== *)
(** * Properties of the generated tables *)

(** C1.  Admissions are emitted in generation order, one block of rows
    per patient.  Within the block of a patient the first admission is
    never flagged as a readmission, and the k-th one (k > 1) is flagged
    exactly when the whole days between its admission timestamp and the
    discharge timestamp of the admission generated just before it for
    that patient are at most 30. *)
Theorem readmission_flag_follows_previous_discharge
    (patients_df : list Patient.t) (wards_df : list Ward.t)
    (diagnoses_df : list Diagnosis.t) (staff_df : list Staff.t)
    (beds_df : list Bed.t) (start_date : ymd) (num_years : Z)
    (w w' : World) (admissions : list Admission.t) :
  generate_admissions patients_df wards_df diagnoses_df staff_df beds_df
                      start_date num_years w = Ok admissions w' ->
  in_generation_order admissions /\
  exists blocks,
    admissions = List.concat blocks /\
    Forall2 (fun p blk =>
               Forall (fun a => Admission.patient_id a = Patient.patient_id p) blk /\
               readmission_chain blk)
            patients_df blocks.
Proof.
  intros Hrun.
  destruct (generate_admissions_blocks _ _ _ _ _ _ _ _ _ _ Hrun)
    as [Hord [blocks [Hcat Hblocks]]].
  split; [exact Hord|]. exists blocks. split; [exact Hcat|].
  eapply Forall2_impl; [|exact Hblocks].
  intros p blk [_ [Hrows Hchain]]. split; [|exact Hchain].
  eapply Forall_impl; [|exact Hrows]. intros a [Hid _]. exact Hid.
Qed.

Lemma readmission_flag_follows_previous_discharge_witness :
  match generate_admissions small_patients generate_wards generate_diagnoses
                            small_staff small_beds START_DATE NUM_YEARS
                            spread_world with
  | Ok admissions _ =>
      in_generation_order admissions /\
      exists blocks,
        admissions = List.concat blocks /\
        Forall2 (fun p blk =>
                   Forall (fun a => Admission.patient_id a = Patient.patient_id p) blk /\
                   readmission_chain blk)
                small_patients blocks
  | Raise _ => False
  end.
Proof.
  assert (Hok : is_ok (generate_admissions small_patients generate_wards generate_diagnoses
            small_staff small_beds START_DATE NUM_YEARS
            spread_world) = true) by (vm_compute; reflexivity).
  destruct (generate_admissions small_patients generate_wards generate_diagnoses
              small_staff small_beds START_DATE NUM_YEARS
              spread_world)
    as [admissions w'|e] eqn:E.
  - exact (readmission_flag_follows_previous_discharge _ _ _ _ _ _ _ _ _ _ E).
  - discriminate Hok.
Defined.

(** C2.  Every generated admission is discharged exactly
    [length_of_stay] days after its admission timestamp, and its length
    of stay lies in the range of the severity of its primary diagnosis:
    5 to 21 days when Critical, 3 to 14 when Serious, 1 to 7 otherwise;
    so the stay is positive and the discharge is not before the
    admission. *)
Theorem stay_length_matches_severity
    (patients_df : list Patient.t) (wards_df : list Ward.t)
    (diagnoses_df : list Diagnosis.t) (staff_df : list Staff.t)
    (beds_df : list Bed.t) (start_date : ymd) (num_years : Z)
    (w w' : World) (admissions : list Admission.t) :
  generate_admissions patients_df wards_df diagnoses_df staff_df beds_df
                      start_date num_years w = Ok admissions w' ->
  forall a, In a admissions ->
    Admission.discharge_datetime a =
      Admission.admission_datetime a + timedelta (Admission.length_of_stay a) 0 0 /\
    (exists x, In x diagnoses_df /\
       Diagnosis.diagnosis_id x = Admission.primary_diagnosis_id a /\
       (Diagnosis.severity_level x = "Critical" ->
        5 <= Admission.length_of_stay a <= 21) /\
       (Diagnosis.severity_level x = "Serious" ->
        3 <= Admission.length_of_stay a <= 14) /\
       (Diagnosis.severity_level x <> "Critical" ->
        Diagnosis.severity_level x <> "Serious" ->
        1 <= Admission.length_of_stay a <= 7)) /\
    0 < Admission.length_of_stay a /\
    Admission.admission_datetime a <= Admission.discharge_datetime a.
Proof.
  intros Hrun a Ha.
  destruct (generate_admissions_blocks _ _ _ _ _ _ _ _ _ _ Hrun)
    as [_ [blocks [Hcat Hblocks]]].
  subst admissions.
  destruct (admission_rows_ok _ _ _ _ _ _ _ Hblocks Ha) as [_ Hok].
  destruct Hok as [_ _ _ [x [Hx [Hxid Hlos]]] _ Hdis _].
  assert (Hpos : 0 < Admission.length_of_stay a).
  { revert Hlos. unfold los_range.
    destruct (String.eqb _ "Critical"); [simpl; lia|].
    destruct (String.eqb _ "Serious"); simpl; lia. }
  split; [rewrite Hdis; unfold timedelta; lia|].
  split.
  - exists x. split; [exact Hx|]. split; [exact Hxid|].
    revert Hlos. unfold los_range.
    destruct (String.eqb_spec (Diagnosis.severity_level x) "Critical") as [Ec|Nc].
    + simpl. intros Hlos. rewrite Ec.
      split; [intros _; exact Hlos|]. split; [discriminate|].
      intros Hn. contradiction Hn. reflexivity.
    + destruct (String.eqb_spec (Diagnosis.severity_level x) "Serious") as [Es|Ns].
      * simpl. intros Hlos. rewrite Es.
        split; [discriminate|]. split; [intros _; exact Hlos|].
        intros _ Hn. contradiction Hn. reflexivity.
      * simpl. intros Hlos.
        split; [intros E; contradiction|]. split; [intros E; contradiction|].
        intros _ _. exact Hlos.
  - split; [exact Hpos|]. rewrite Hdis. unfold minutes_per_day. lia.
Qed.

Lemma stay_length_matches_severity_witness :
  match generate_admissions small_patients generate_wards generate_diagnoses
                            small_staff small_beds START_DATE NUM_YEARS
                            spread_world with
  | Ok admissions _ =>
      forall a, In a admissions ->
        Admission.discharge_datetime a =
          Admission.admission_datetime a + timedelta (Admission.length_of_stay a) 0 0 /\
        (exists x, In x generate_diagnoses /\
           Diagnosis.diagnosis_id x = Admission.primary_diagnosis_id a /\
           (Diagnosis.severity_level x = "Critical" ->
            5 <= Admission.length_of_stay a <= 21) /\
           (Diagnosis.severity_level x = "Serious" ->
            3 <= Admission.length_of_stay a <= 14) /\
           (Diagnosis.severity_level x <> "Critical" ->
            Diagnosis.severity_level x <> "Serious" ->
            1 <= Admission.length_of_stay a <= 7)) /\
        0 < Admission.length_of_stay a /\
        Admission.admission_datetime a <= Admission.discharge_datetime a
  | Raise _ => False
  end.
Proof.
  assert (Hok : is_ok (generate_admissions small_patients generate_wards generate_diagnoses
            small_staff small_beds START_DATE NUM_YEARS
            spread_world) = true) by (vm_compute; reflexivity).
  destruct (generate_admissions small_patients generate_wards generate_diagnoses
              small_staff small_beds START_DATE NUM_YEARS
              spread_world)
    as [admissions w'|e] eqn:E.
  - exact (stay_length_matches_severity _ _ _ _ _ _ _ _ _ _ E).
  - discriminate Hok.
Defined.

(** C3, as amended.  For every child row emitted for a selected
    admission: the vital-sign and daily-activity recorded timestamps,
    the procedure scheduled and actual timestamps and the lab collected
    timestamp fall in the stay, from the admission timestamp to
    [length_of_stay] days later, the end excluded; a medication
    scheduled timestamp falls in the stay with the end included, and an
    administered timestamp, when set, is at most 30 minutes before and
    60 minutes after the scheduled one; a lab resulted timestamp is 2 to
    24 hours after the collected one; a care-goal created timestamp is
    2 to 24 hours after the admission timestamp and its last update is
    one day after it at the earliest and the end of the stay at the
    latest. *)
Theorem child_timestamps_relative_to_stay
    (d : Dimensions) (start_date : ymd) (num_years : Z)
    (w w' : World) (f : Facts) :
  generate_facts d start_date num_years w = Ok f w' ->
  Forall (fun r => exists a,
            child_of (fact_admissions f) (Vital.patient_id r) (Vital.admission_id r) a /\
            in_stay a (Vital.recorded_datetime r))
         (fact_vital_signs f) /\
  Forall (fun r => exists a,
            child_of (fact_admissions f) (Activity.patient_id r)
                     (Activity.admission_id r) a /\
            in_stay a (Activity.recorded_datetime r))
         (fact_daily_activities f) /\
  Forall (fun r => exists a,
            child_of (fact_admissions f) (ProcedureEvent.patient_id r)
                     (ProcedureEvent.admission_id r) a /\
            in_stay a (ProcedureEvent.scheduled_datetime r) /\
            in_stay a (ProcedureEvent.actual_datetime r))
         (fact_procedures f) /\
  Forall (fun r => exists a,
            child_of (fact_admissions f) (Lab.patient_id r) (Lab.admission_id r) a /\
            in_stay a (Lab.collected_datetime r) /\
            Lab.collected_datetime r + 2 * 60 <= Lab.resulted_datetime r
              <= Lab.collected_datetime r + 24 * 60)
         (fact_lab_results f) /\
  Forall (fun r => exists a,
            child_of (fact_admissions f) (Mar.patient_id r) (Mar.admission_id r) a /\
            Admission.admission_datetime a <= Mar.scheduled_datetime r <= stay_end a /\
            (forall t, Mar.administered_datetime r = Some t ->
                       Mar.scheduled_datetime r - 30 <= t
                         <= Mar.scheduled_datetime r + 60))
         (fact_medication_administration f) /\
  Forall (fun r => exists a,
            child_of (fact_admissions f) (Goal.patient_id r) (Goal.admission_id r) a /\
            Admission.admission_datetime a + 2 * 60 <= Goal.created_datetime r
              <= Admission.admission_datetime a + 24 * 60 /\
            Admission.admission_datetime a + minutes_per_day
              <= Goal.last_updated_datetime r <= stay_end a)
         (fact_care_plan_goals f).
Proof.
  intros Hrun. destruct (generate_facts_ok _ _ _ _ _ _ Hrun)
    as [_ _ Hmar Hvitals Hactivities Hevents Hlabs Hgoals].
  repeat split.
  - eapply Forall_impl; [|exact Hvitals].
    intros r [a [Hchild [_ [Ht _]]]]. exists a. split; assumption.
  - eapply Forall_impl; [|exact Hactivities].
    intros r [a [Hchild [_ Ht]]]. exists a. split; assumption.
  - eapply Forall_impl; [|exact Hevents].
    intros r [a [Hchild [_ [_ [Hs Ha]]]]]. exists a. split; [exact Hchild|]. split; assumption.
  - eapply Forall_impl; [|exact Hlabs].
    intros r [a [Hchild [_ [Hc Hr]]]]. exists a. split; [exact Hchild|]. split; assumption.
  - eapply Forall_impl; [|exact Hmar].
    intros r [a [Hchild [_ [_ [_ [Hs Ha]]]]]]. exists a. split; [exact Hchild|]. split; assumption.
  - eapply Forall_impl; [|exact Hgoals].
    intros r [a [Hchild [_ [Hc [Hu _]]]]]. exists a. split; [exact Hchild|]. split; assumption.
Qed.

Lemma child_timestamps_relative_to_stay_witness :
  match generate_facts small_hospital START_DATE NUM_YEARS spread_world with
  | Ok f _ =>
      Forall (fun r => exists a,
                child_of (fact_admissions f) (Vital.patient_id r)
                         (Vital.admission_id r) a /\
                in_stay a (Vital.recorded_datetime r))
             (fact_vital_signs f) /\
      Forall (fun r => exists a,
                child_of (fact_admissions f) (Mar.patient_id r)
                         (Mar.admission_id r) a /\
                Admission.admission_datetime a <= Mar.scheduled_datetime r
                  <= stay_end a)
             (fact_medication_administration f)
  | Raise _ => False
  end.
Proof.
  assert (Hok : is_ok (generate_facts small_hospital START_DATE NUM_YEARS spread_world) = true) by (vm_compute; reflexivity).
  destruct (generate_facts small_hospital START_DATE NUM_YEARS spread_world)
    as [f w'|e] eqn:E.
  - destruct (child_timestamps_relative_to_stay _ _ _ _ _ _ E)
      as [Hvitals [_ [_ [_ [Hmar _]]]]].
    split; [exact Hvitals|].
    eapply Forall_impl; [|exact Hmar].
    intros r [a [Hchild [Hs _]]]. exists a. split; assumption.
  - discriminate Hok.
Defined.

(** C3, as stated, fails.  In the run of the fact generators for a
    single patient under the draws of [late_world], the second admission
    stays one day.  Its first dose is administered 30 minutes before the
    admission timestamp; the fourth dose of that day is scheduled 24
    hours after the admission timestamp, which is the end of the stay;
    its lab panel is collected after 6 hours and resulted 24 hours
    later, after the end of the stay; its care goal is last updated one
    day after the admission timestamp, at the end of the stay. *)
Lemma child_timestamps_outside_stay :
  exists f w' a first_dose fourth_dose lab goal,
    generate_facts single_patient START_DATE NUM_YEARS late_world = Ok f w' /\
    In a (fact_admissions f) /\ Admission.length_of_stay a = 1 /\
    In first_dose (fact_medication_administration f) /\
    Mar.admission_id first_dose = Admission.admission_id a /\
    Mar.administered_datetime first_dose
      = Some (Admission.admission_datetime a - 30) /\
    In fourth_dose (fact_medication_administration f) /\
    Mar.admission_id fourth_dose = Admission.admission_id a /\
    Mar.scheduled_datetime fourth_dose = stay_end a /\
    ~ in_stay a (Mar.scheduled_datetime fourth_dose) /\
    In lab (fact_lab_results f) /\
    Lab.admission_id lab = Admission.admission_id a /\
    Lab.resulted_datetime lab = stay_end a + 6 * 60 /\
    ~ in_stay a (Lab.resulted_datetime lab) /\
    In goal (fact_care_plan_goals f) /\
    Goal.admission_id goal = Admission.admission_id a /\
    Goal.last_updated_datetime goal = stay_end a /\
    ~ in_stay a (Goal.last_updated_datetime goal).
Proof.
  do 7 eexists.
  split; [vm_compute; reflexivity|].
  split; [right; left; reflexivity|]. split; [reflexivity|].
  split; [left; reflexivity|]. split; [reflexivity|]. split; [reflexivity|].
  split; [do 3 right; left; reflexivity|]. split; [reflexivity|].
  split; [reflexivity|].
  split; [unfold in_stay, stay_end; vm_compute; intros [_ H]; discriminate H|].
  split; [left; reflexivity|]. split; [reflexivity|]. split; [reflexivity|].
  split; [unfold in_stay, stay_end; vm_compute; intros [_ H]; discriminate H|].
  split; [left; reflexivity|]. split; [reflexivity|]. split; [reflexivity|].
  unfold in_stay, stay_end. vm_compute. intros [_ H]. discriminate H.
Qed.

(** C4.  Referential integrity of the generated tables.  Every
    admission refers to a patient, a ward, a bed of that ward, a staff
    member and diagnoses (primary and secondary) of the dimension
    tables; every child row carries the patient and admission keys of a
    row of the admissions table, whose patient is in the patient table,
    and its medication, procedure and staff keys are keys of the
    dimension tables. *)
Theorem referential_integrity
    (d : Dimensions) (start_date : ymd) (num_years : Z)
    (w w' : World) (f : Facts) :
  generate_facts d start_date num_years w = Ok f w' ->
  Forall (fun a =>
            has_patient (dim_patients d) (Admission.patient_id a) /\
            has_ward (dim_wards d) (Admission.ward_id a) /\
            has_bed_in_ward (dim_beds d) (Admission.bed_id a) (Admission.ward_id a) /\
            has_staff (dim_staff d) (Admission.attending_doctor_id a) /\
            has_diagnosis (dim_diagnoses d) (Admission.primary_diagnosis_id a) /\
            lists_diagnoses (dim_diagnoses d) (Admission.secondary_diagnosis_ids a))
         (fact_admissions f) /\
  Forall (fun r =>
            refers_to_admission d f (Mar.patient_id r) (Mar.admission_id r) /\
            has_medication (dim_medications d) (Mar.medication_id r) /\
            has_staff (dim_staff d) (Mar.prescribed_by_staff_id r) /\
            (forall id, Mar.administered_by_staff_id r = Some id ->
                        has_staff (dim_staff d) id))
         (fact_medication_administration f) /\
  Forall (fun r =>
            refers_to_admission d f (Vital.patient_id r) (Vital.admission_id r) /\
            has_staff (dim_staff d) (Vital.recorded_by_staff_id r))
         (fact_vital_signs f) /\
  Forall (fun r =>
            refers_to_admission d f (Activity.patient_id r) (Activity.admission_id r) /\
            has_staff (dim_staff d) (Activity.recorded_by_staff_id r))
         (fact_daily_activities f) /\
  Forall (fun r =>
            refers_to_admission d f (ProcedureEvent.patient_id r)
                                (ProcedureEvent.admission_id r) /\
            has_procedure (dim_procedures d) (ProcedureEvent.procedure_id r) /\
            has_staff (dim_staff d) (ProcedureEvent.performed_by_staff_id r))
         (fact_procedures f) /\
  Forall (fun r =>
            refers_to_admission d f (Lab.patient_id r) (Lab.admission_id r) /\
            has_staff (dim_staff d) (Lab.ordered_by_staff_id r))
         (fact_lab_results f) /\
  Forall (fun r =>
            refers_to_admission d f (Goal.patient_id r) (Goal.admission_id r) /\
            has_staff (dim_staff d) (Goal.created_by_staff_id r))
         (fact_care_plan_goals f).
Proof.
  intros Hrun. destruct (generate_facts_ok _ _ _ _ _ _ Hrun)
    as [_ [blocks [Hcat Hblocks]] Hmar Hvitals Hactivities Hevents Hlabs Hgoals].
  assert (Hadm : forall a, In a (fact_admissions f) ->
            has_patient (dim_patients d) (Admission.patient_id a) /\
            admission_ok (dim_wards d) (dim_diagnoses d) (dim_staff d) (dim_beds d) a).
  { intros a Ha. rewrite Hcat in Ha. exact (admission_rows_ok _ _ _ _ _ _ _ Hblocks Ha). }
  assert (Hstaff : forall roles id,
            staff_with_role (dim_staff d) roles id -> has_staff (dim_staff d) id).
  { intros roles id [s [Hs [Hid _]]]. exists s. split; assumption. }
  assert (Hchild : forall patient admission a,
            child_of (fact_admissions f) patient admission a ->
            refers_to_admission d f patient admission).
  { intros patient admission a Hc. split; [exists a; exact Hc|].
    destruct Hc as [Ha [Hp _]]. rewrite <- Hp. apply Hadm. exact Ha. }
  split.
  { apply Forall_forall. intros a Ha. destruct (Hadm a Ha) as [Hp Hok].
    destruct Hok as [Hw Hb Hd [x [Hx [Hxid _]]] Hsec _ _].
    split; [exact Hp|]. split; [exact Hw|]. split; [exact Hb|].
    split; [exact (Hstaff _ _ Hd)|]. split; [|exact Hsec].
    exists x. split; assumption. }
  split.
  { eapply Forall_impl; [|exact Hmar].
    intros r [a [Hc [Hm [Hp [Hn _]]]]].
    split; [exact (Hchild _ _ _ Hc)|]. split; [exact Hm|].
    split; [exact (Hstaff _ _ Hp)|].
    intros id E. exact (Hstaff _ _ (Hn id E)). }
  split.
  { eapply Forall_impl; [|exact Hvitals].
    intros r [a [Hc [Hn _]]].
    split; [exact (Hchild _ _ _ Hc)|exact (Hstaff _ _ Hn)]. }
  split.
  { eapply Forall_impl; [|exact Hactivities].
    intros r [a [Hc [Hn _]]].
    split; [exact (Hchild _ _ _ Hc)|exact (Hstaff _ _ Hn)]. }
  split.
  { eapply Forall_impl; [|exact Hevents].
    intros r [a [Hc [Hp [Hdoc _]]]].
    split; [exact (Hchild _ _ _ Hc)|]. split; [exact Hp|exact (Hstaff _ _ Hdoc)]. }
  split.
  { eapply Forall_impl; [|exact Hlabs].
    intros r [a [Hc [Hdoc _]]].
    split; [exact (Hchild _ _ _ Hc)|exact (Hstaff _ _ Hdoc)]. }
  eapply Forall_impl; [|exact Hgoals].
  intros r [a [Hc [Hn _]]].
  split; [exact (Hchild _ _ _ Hc)|exact (Hstaff _ _ Hn)].
Qed.

Lemma referential_integrity_witness :
  match generate_facts small_hospital START_DATE NUM_YEARS spread_world with
  | Ok f _ =>
      Forall (fun a =>
                has_patient small_patients (Admission.patient_id a) /\
                has_ward generate_wards (Admission.ward_id a) /\
                has_bed_in_ward small_beds (Admission.bed_id a) (Admission.ward_id a))
             (fact_admissions f) /\
      Forall (fun r =>
                refers_to_admission small_hospital f (Lab.patient_id r)
                                    (Lab.admission_id r) /\
                has_staff small_staff (Lab.ordered_by_staff_id r))
             (fact_lab_results f)
  | Raise _ => False
  end.
Proof.
  assert (Hok : is_ok (generate_facts small_hospital START_DATE NUM_YEARS spread_world) = true) by (vm_compute; reflexivity).
  destruct (generate_facts small_hospital START_DATE NUM_YEARS spread_world)
    as [f w'|e] eqn:E.
  - destruct (referential_integrity _ _ _ _ _ _ E)
      as [Hadm [_ [_ [_ [_ [Hlabs _]]]]]].
    split; [|exact Hlabs].
    eapply Forall_impl; [|exact Hadm].
    intros a [Hp [Hw [Hb _]]]. split; [exact Hp|]. split; [exact Hw|exact Hb].
  - discriminate Hok.
Defined.

(** C5.  Staff attributions of the child tables are constrained by
    role: the recorder of a vital sign or a daily activity, the nurse
    who administered a dose (when set) and the creator of a care goal
    are staff rows with the role Registered Nurse; the prescriber of a
    dose, the performer of a procedure and the orderer of a lab test are
    staff rows with the role Attending Physician or Resident. *)
Theorem staff_attribution_constrained_by_role
    (d : Dimensions) (start_date : ymd) (num_years : Z)
    (w w' : World) (f : Facts) :
  generate_facts d start_date num_years w = Ok f w' ->
  Forall (fun r =>
            staff_with_role (dim_staff d) ["Registered Nurse"]
                            (Vital.recorded_by_staff_id r))
         (fact_vital_signs f) /\
  Forall (fun r =>
            (forall id, Mar.administered_by_staff_id r = Some id ->
               staff_with_role (dim_staff d) ["Registered Nurse"] id) /\
            staff_with_role (dim_staff d) ["Attending Physician"; "Resident"]
                            (Mar.prescribed_by_staff_id r))
         (fact_medication_administration f) /\
  Forall (fun r =>
            staff_with_role (dim_staff d) ["Attending Physician"; "Resident"]
                            (ProcedureEvent.performed_by_staff_id r))
         (fact_procedures f) /\
  Forall (fun r =>
            staff_with_role (dim_staff d) ["Attending Physician"; "Resident"]
                            (Lab.ordered_by_staff_id r))
         (fact_lab_results f) /\
  Forall (fun r =>
            staff_with_role (dim_staff d) ["Registered Nurse"]
                            (Activity.recorded_by_staff_id r))
         (fact_daily_activities f) /\
  Forall (fun r =>
            staff_with_role (dim_staff d) ["Registered Nurse"]
                            (Goal.created_by_staff_id r))
         (fact_care_plan_goals f).
Proof.
  intros Hrun. destruct (generate_facts_ok _ _ _ _ _ _ Hrun)
    as [_ _ Hmar Hvitals Hactivities Hevents Hlabs Hgoals].
  split; [eapply Forall_impl; [|exact Hvitals]; intros r [a [_ [Hn _]]]; exact Hn|].
  split.
  { eapply Forall_impl; [|exact Hmar].
    intros r [a [_ [_ [Hp [Hn _]]]]]. split; [exact Hn|exact Hp]. }
  split; [eapply Forall_impl; [|exact Hevents];
          intros r [a [_ [_ [Hdoc _]]]]; exact Hdoc|].
  split; [eapply Forall_impl; [|exact Hlabs]; intros r [a [_ [Hdoc _]]]; exact Hdoc|].
  split; [eapply Forall_impl; [|exact Hactivities];
          intros r [a [_ [Hn _]]]; exact Hn|].
  eapply Forall_impl; [|exact Hgoals]. intros r [a [_ [Hn _]]]. exact Hn.
Qed.

Lemma staff_attribution_constrained_by_role_witness :
  match generate_facts small_hospital START_DATE NUM_YEARS spread_world with
  | Ok f _ =>
      Forall (fun r =>
                staff_with_role small_staff ["Registered Nurse"]
                                (Vital.recorded_by_staff_id r))
             (fact_vital_signs f) /\
      Forall (fun r =>
                staff_with_role small_staff ["Attending Physician"; "Resident"]
                                (Lab.ordered_by_staff_id r))
             (fact_lab_results f)
  | Raise _ => False
  end.
Proof.
  assert (Hok : is_ok (generate_facts small_hospital START_DATE NUM_YEARS spread_world) = true) by (vm_compute; reflexivity).
  destruct (generate_facts small_hospital START_DATE NUM_YEARS spread_world)
    as [f w'|e] eqn:E.
  - destruct (staff_attribution_constrained_by_role _ _ _ _ _ _ E)
      as [Hvitals [_ [_ [Hlabs _]]]].
    split; [exact Hvitals|exact Hlabs].
  - discriminate Hok.
Defined.

(** C7.  The progress of every generated care-plan goal follows from
    its status: 100 when Achieved, 0 when Not Started or Discontinued,
    between 30 and 90 when In Progress. *)
Theorem goal_progress_follows_status
    (admissions_df : list Admission.t) (staff_df : list Staff.t)
    (w w' : World) (goals : list Goal.t) :
  generate_care_plan_goals admissions_df staff_df w = Ok goals w' ->
  forall g, In g goals ->
    (Goal.status g = "Achieved" -> Goal.progress_pct g = 100) /\
    (Goal.status g = "Not Started" \/ Goal.status g = "Discontinued" ->
     Goal.progress_pct g = 0) /\
    (Goal.status g = "In Progress" -> 30 <= Goal.progress_pct g <= 90).
Proof.
  intros Hrun g Hg.
  pose proof (generate_care_plan_goals_ok _ _ _ _ _ Hrun) as Hgoals.
  rewrite Forall_forall in Hgoals.
  destruct (Hgoals g Hg) as [a [_ [_ [_ [_ Hprogress]]]]]. exact Hprogress.
Qed.

Lemma goal_progress_follows_status_witness :
  match generate_care_plan_goals small_admissions small_staff spread_world with
  | Ok goals _ =>
      forall g, In g goals ->
        (Goal.status g = "Achieved" -> Goal.progress_pct g = 100) /\
        (Goal.status g = "Not Started" \/ Goal.status g = "Discontinued" ->
         Goal.progress_pct g = 0) /\
        (Goal.status g = "In Progress" -> 30 <= Goal.progress_pct g <= 90)
  | Raise _ => False
  end.
Proof.
  assert (Hok : is_ok (generate_care_plan_goals small_admissions small_staff spread_world) = true) by (vm_compute; reflexivity).
  destruct (generate_care_plan_goals small_admissions small_staff spread_world)
    as [goals w'|e] eqn:E.
  - exact (goal_progress_follows_status _ _ _ _ _ E).
  - discriminate Hok.
Defined.

Lemma configured_ward_ids (id : Z) :
  has_ward generate_wards id -> 1 <= id <= 12.
Proof.
  intros [x [Hx Hid]]. subst id. unfold generate_wards, WARDS in Hx.
  simpl in Hx.
  repeat (destruct Hx as [Hx|Hx]; [subst x; simpl; lia|]).
  contradiction.
Qed.

(** C8.  With the configured 500 patients, the 12 configured wards and
    the configured start date and 5-year horizon, each patient receives
    between 2 and 5 admissions, the admissions table has between 1000
    and 2500 rows, and the ward of every admission is one of the 12
    configured wards. *)
Theorem admission_counts_for_configured_run
    (patients_df : list Patient.t) (diagnoses_df : list Diagnosis.t)
    (staff_df : list Staff.t) (beds_df : list Bed.t)
    (w0 w1 w w' : World) (admissions : list Admission.t) :
  generate_patients NUM_PATIENTS w0 = Ok patients_df w1 ->
  generate_admissions patients_df generate_wards diagnoses_df staff_df beds_df
                      START_DATE NUM_YEARS w = Ok admissions w' ->
  List.length patients_df = 500%nat /\
  (exists blocks,
     admissions = List.concat blocks /\
     Forall2 (fun p blk =>
                (2 <= List.length blk <= 5)%nat /\
                Forall (fun a => Admission.patient_id a = Patient.patient_id p) blk)
             patients_df blocks) /\
  (1000 <= List.length admissions <= 2500)%nat /\
  Forall (fun a => In (Admission.ward_id a) (map Ward.ward_id WARDS) /\
                   1 <= Admission.ward_id a <= 12)
         admissions.
Proof.
  intros Hpatients Hrun.
  pose proof (generate_patients_length _ _ _ _ Hpatients) as Hlen.
  cbv beta in Hlen. change (Z.to_nat NUM_PATIENTS) with 500%nat in Hlen.
  destruct (generate_admissions_blocks _ _ _ _ _ _ _ _ _ _ Hrun)
    as [_ [blocks [Hcat Hblocks]]].
  split; [exact Hlen|]. split; [|split].
  - exists blocks. split; [exact Hcat|].
    eapply Forall2_impl; [|exact Hblocks].
    intros p blk [Hsize [Hrows _]]. split; [exact Hsize|].
    eapply Forall_impl; [|exact Hrows]. intros a [Hid _]. exact Hid.
  - pose proof (concat_length_bounds patients_df blocks Hblocks) as Hbounds.
    rewrite Hcat. lia.
  - apply Forall_forall. intros a Ha. rewrite Hcat in Ha.
    destruct (admission_rows_ok _ _ _ _ _ _ _ Hblocks Ha) as [_ [Hward _ _ _ _ _ _]].
    split; [|exact (configured_ward_ids _ Hward)].
    destruct Hward as [x [Hx Hid]]. rewrite <- Hid. apply in_map. exact Hx.
Qed.

Lemma admission_counts_for_configured_run_witness :
  match generate_patients NUM_PATIENTS spread_world with
  | Ok patients_df w1 =>
      match generate_admissions patients_df generate_wards generate_diagnoses
                                small_staff small_beds START_DATE NUM_YEARS w1 with
      | Ok admissions _ =>
          List.length patients_df = 500%nat /\
          (exists blocks,
             admissions = List.concat blocks /\
             Forall2 (fun p blk =>
                        (2 <= List.length blk <= 5)%nat /\
                        Forall (fun a => Admission.patient_id a = Patient.patient_id p)
                               blk)
                     patients_df blocks) /\
          (1000 <= List.length admissions <= 2500)%nat /\
          Forall (fun a => In (Admission.ward_id a) (map Ward.ward_id WARDS) /\
                           1 <= Admission.ward_id a <= 12)
                 admissions
      | Raise _ => False
      end
  | Raise _ => False
  end.
Proof.
  assert (Hok : match generate_patients NUM_PATIENTS spread_world with
                | Ok patients_df w1 =>
                    is_ok (generate_admissions patients_df generate_wards
                             generate_diagnoses small_staff small_beds
                             START_DATE NUM_YEARS w1)
                | Raise _ => false
                end = true) by (vm_compute; reflexivity).
  destruct (generate_patients NUM_PATIENTS spread_world)
    as [patients_df w1|e] eqn:E1; [|discriminate Hok].
  destruct (generate_admissions patients_df generate_wards generate_diagnoses
              small_staff small_beds START_DATE NUM_YEARS w1)
    as [admissions w2|e] eqn:E2; [|discriminate Hok].
  exact (admission_counts_for_configured_run _ _ _ _ _ _ _ _ _ E1 E2).
Defined.

(** C9.  The field [readmission_days_since_discharge] of every
    generated admission is empty, also when the admission is flagged as
    a readmission: the gap in days is computed for the flag only. *)
Theorem readmission_gap_never_recorded
    (patients_df : list Patient.t) (wards_df : list Ward.t)
    (diagnoses_df : list Diagnosis.t) (staff_df : list Staff.t)
    (beds_df : list Bed.t) (start_date : ymd) (num_years : Z)
    (w w' : World) (admissions : list Admission.t) :
  generate_admissions patients_df wards_df diagnoses_df staff_df beds_df
                      start_date num_years w = Ok admissions w' ->
  forall a, In a admissions ->
    Admission.readmission_days_since_discharge a = None.
Proof.
  intros Hrun a Ha.
  destruct (generate_admissions_blocks _ _ _ _ _ _ _ _ _ _ Hrun)
    as [_ [blocks [Hcat Hblocks]]].
  subst admissions.
  destruct (admission_rows_ok _ _ _ _ _ _ _ Hblocks Ha) as [_ Hok].
  exact (adm_no_gap _ _ _ _ _ Hok).
Qed.

Lemma readmission_gap_never_recorded_witness :
  match generate_admissions small_patients generate_wards generate_diagnoses
                            small_staff small_beds START_DATE NUM_YEARS
                            spread_world with
  | Ok admissions _ =>
      (exists a, In a admissions /\ Admission.is_readmission a = true) /\
      forall a, In a admissions ->
        Admission.readmission_days_since_discharge a = None
  | Raise _ => False
  end.
Proof.
  assert (Hok : is_ok (generate_admissions small_patients generate_wards generate_diagnoses
            small_staff small_beds START_DATE NUM_YEARS
            spread_world) = true) by (vm_compute; reflexivity).
  assert (Hflag : match generate_admissions small_patients generate_wards generate_diagnoses
                            small_staff small_beds START_DATE NUM_YEARS
                            spread_world with
                  | Ok admissions _ =>
                      existsb Admission.is_readmission admissions = true
                  | Raise _ => False
                  end) by (vm_compute; reflexivity).
  destruct (generate_admissions small_patients generate_wards generate_diagnoses
              small_staff small_beds START_DATE NUM_YEARS
              spread_world)
    as [admissions w'|e] eqn:E.
  - split.
    + apply existsb_exists in Hflag. exact Hflag.
    + exact (readmission_gap_never_recorded _ _ _ _ _ _ _ _ _ _ E).
  - discriminate Hok.
Defined.

(** C10.  The numeric fields of every generated vital-sign record lie
    in the ranges written in the generator: systolic pressure 90 to 180,
    diastolic pressure 60 to 120, heart rate 55 to 120, temperature 36.0
    to 39.0, respiratory rate 12 to 24, oxygen saturation 88 to 100,
    pain level 0 to 8.  The catalog [VITAL_SIGNS_RANGES] holds other
    bounds for the heart rate (50 to 120), the respiratory rate (12 to
    25), the oxygen saturation (85 to 100) and the pain level (0 to 10);
    the generator does not read it. *)
Theorem vital_signs_in_generator_ranges
    (admissions_df : list Admission.t) (staff_df : list Staff.t)
    (w w' : World) (vitals : list Vital.t) :
  generate_vital_signs admissions_df staff_df w = Ok vitals w' ->
  (forall v, In v vitals ->
     90 <= Vital.blood_pressure_systolic v <= 180 /\
     60 <= Vital.blood_pressure_diastolic v <= 120 /\
     55 <= Vital.heart_rate v <= 120 /\
     360 <= Vital.temperature v <= 390 /\
     12 <= Vital.respiratory_rate v <= 24 /\
     88 <= Vital.oxygen_saturation v <= 100 /\
     0 <= Vital.pain_level v <= 8) /\
  lookup "heart_rate" VITAL_SIGNS_RANGES = Some (50, 120) /\
  lookup "respiratory_rate" VITAL_SIGNS_RANGES = Some (12, 25) /\
  lookup "oxygen_saturation" VITAL_SIGNS_RANGES = Some (85, 100) /\
  lookup "pain_level" VITAL_SIGNS_RANGES = Some (0, 10).
Proof.
  intros Hrun. split; [|repeat split].
  intros v Hv.
  pose proof (generate_vital_signs_ok _ _ _ _ _ Hrun) as Hvitals.
  rewrite Forall_forall in Hvitals.
  destruct (Hvitals v Hv) as [a [_ [_ [_ Hranges]]]]. exact Hranges.
Qed.

Lemma vital_signs_in_generator_ranges_witness :
  match generate_vital_signs small_admissions small_staff spread_world with
  | Ok vitals _ =>
      forall v, In v vitals ->
        55 <= Vital.heart_rate v <= 120 /\
        12 <= Vital.respiratory_rate v <= 24 /\
        88 <= Vital.oxygen_saturation v <= 100 /\
        0 <= Vital.pain_level v <= 8
  | Raise _ => False
  end.
Proof.
  assert (Hok : is_ok (generate_vital_signs small_admissions small_staff spread_world) = true) by (vm_compute; reflexivity).
  destruct (generate_vital_signs small_admissions small_staff spread_world)
    as [vitals w'|e] eqn:E.
  - intros v Hv.
    destruct (vital_signs_in_generator_ranges _ _ _ _ _ E) as [Hranges _].
    destruct (Hranges v Hv) as [_ [_ [Hh [_ [Hr [Ho Hp]]]]]].
    repeat split; lia.
  - discriminate Hok.
Defined.

(* ================================================================== *)
(** * Tables with unique keys

    The dimension generators number their rows 1, 2, ...; when the keys
    of a table are distinct, the row behind a key is unique, so what
    holds for some row with that key holds for the row with that key. *)

Lemma unique_key {A} (key : A -> Z) (l : list A) (x y : A) :
  NoDup (map key l) -> In x l -> In y l -> key x = key y -> x = y.
Proof.
  induction l as [|h t IH]; simpl; intros Hnd Hx Hy Hk; [contradiction|].
  inversion Hnd as [|k ks Hnotin Hnd']; subst.
  destruct Hx as [Hx|Hx], Hy as [Hy|Hy]; subst.
  - reflexivity.
  - contradiction Hnotin. rewrite Hk. apply in_map. exact Hy.
  - contradiction Hnotin. rewrite <- Hk. apply in_map. exact Hx.
  - exact (IH Hnd' Hx Hy Hk).
Qed.

Lemma configured_diagnosis_ids_distinct :
  NoDup (map Diagnosis.diagnosis_id generate_diagnoses).
Proof.
  simpl. repeat (constructor; [simpl; intuition discriminate|]). constructor.
Qed.

(** With distinct diagnosis ids, the stay of an admission lies in the
    range of the severity of the diagnosis row its primary id resolves
    to. *)
Lemma stay_length_of_resolved_diagnosis
    (patients_df : list Patient.t) (wards_df : list Ward.t)
    (diagnoses_df : list Diagnosis.t) (staff_df : list Staff.t)
    (beds_df : list Bed.t) (start_date : ymd) (num_years : Z)
    (w w' : World) (admissions : list Admission.t) :
  NoDup (map Diagnosis.diagnosis_id diagnoses_df) ->
  generate_admissions patients_df wards_df diagnoses_df staff_df beds_df
                      start_date num_years w = Ok admissions w' ->
  forall a x, In a admissions -> In x diagnoses_df ->
    Diagnosis.diagnosis_id x = Admission.primary_diagnosis_id a ->
    fst (los_range (Diagnosis.severity_level x)) <= Admission.length_of_stay a
      <= snd (los_range (Diagnosis.severity_level x)).
Proof.
  intros Hnd Hrun a x Ha Hx Hid.
  destruct (generate_admissions_blocks _ _ _ _ _ _ _ _ _ _ Hrun)
    as [_ [blocks [Hcat Hblocks]]].
  subst admissions.
  destruct (admission_rows_ok _ _ _ _ _ _ _ Hblocks Ha) as [_ Hok].
  destruct (adm_primary _ _ _ _ _ Hok) as [y [Hy [Hyid Hlos]]].
  assert (E : x = y).
  { apply (unique_key Diagnosis.diagnosis_id diagnoses_df); try assumption.
    rewrite Hid, Hyid. reflexivity. }
  subst y. exact Hlos.
Qed.

(** With distinct staff ids, the staff row behind an attributed id has
    one of the permitted roles. *)
Lemma role_of_resolved_staff (staff_df : list Staff.t) (roles : list string)
    (id : Z) (s : Staff.t) :
  NoDup (map Staff.staff_id staff_df) ->
  staff_with_role staff_df roles id ->
  In s staff_df -> Staff.staff_id s = id -> In (Staff.role s) roles.
Proof.
  intros Hnd [s0 [Hs0 [Hid0 Hrole]]] Hs Hid.
  assert (E : s = s0).
  { apply (unique_key Staff.staff_id staff_df); try assumption.
    rewrite Hid, Hid0. reflexivity. }
  subst s0. exact Hrole.
Qed.

(* ================================================================== *)
(** * Outcomes: success, failure and the exceptions raised *)

Section Triples.
Context {A B : Type} (T : (N -> N) -> Prop) (E : exn -> Prop).

Lemma triple_ret (a : A) (Q : A -> Prop) : Q a -> triple T (ret a) Q E.
Proof. intros H w _. simpl. split; [exact H|reflexivity]. Qed.

Lemma triple_raise (e : exn) (Q : A -> Prop) : E e -> triple T (raise e) Q E.
Proof. intros H w _. exact H. Qed.

Lemma triple_bind (m : M A) (k : A -> M B) (P : A -> Prop) (Q : B -> Prop) :
  triple T m P E -> (forall a, P a -> triple T (k a) Q E) ->
  triple T (bind m k) Q E.
Proof.
  intros Hm Hk w Hw. unfold bind. specialize (Hm w Hw).
  destruct (m w) as [a w1|e]; [|exact Hm].
  destruct Hm as [Ha Ht]. rewrite <- Ht in Hw.
  specialize (Hk a Ha w1 Hw).
  destruct (k a w1) as [b w2|e]; [|exact Hk].
  destruct Hk as [Hb Ht2]. split; [exact Hb|]. rewrite Ht2. exact Ht.
Qed.

Lemma triple_weaken (m : M A) (P Q : A -> Prop) :
  triple T m P E -> (forall a, P a -> Q a) -> triple T m Q E.
Proof.
  intros Hm HPQ w Hw. specialize (Hm w Hw).
  destruct (m w) as [a w1|e]; [|exact Hm].
  destruct Hm as [Ha Ht]. split; [exact (HPQ a Ha)|exact Ht].
Qed.

(** What holds whenever the computation returns may be added to the
    postcondition. *)
Lemma triple_returns (m : M A) (P Q : A -> Prop) :
  triple T m P E -> returns m Q -> triple T m (fun a => P a /\ Q a) E.
Proof.
  intros Hm Hr w Hw. specialize (Hm w Hw).
  destruct (m w) as [a w1|e] eqn:Em; [|exact Hm].
  destruct Hm as [Ha Ht]. split; [|exact Ht].
  split; [exact Ha|exact (Hr _ _ _ Em)].
Qed.

(** A computation that cannot return makes the rest unreachable. *)
Lemma triple_bind_never (m : M A) (k : A -> M B) (Q : B -> Prop) :
  triple T m (fun _ => False) E -> triple T (bind m k) Q E.
Proof.
  intros Hm. apply (triple_bind m k (fun _ => False)); [exact Hm|].
  intros a [].
Qed.
End Triples.

Lemma triple_exn_weaken {A} (T : (N -> N) -> Prop) (E E' : exn -> Prop)
    (m : M A) (Q : A -> Prop) :
  triple T m Q E -> (forall e, E e -> E' e) -> triple T m Q E'.
Proof.
  intros Hm HE w Hw. specialize (Hm w Hw).
  destruct (m w) as [a w1|e]; [exact Hm|exact (HE e Hm)].
Qed.

(** A computation specified without exception returns in every world. *)
Lemma triple_total {A} (m : M A) (Q : A -> Prop) :
  triple any_tape m Q no_exn -> forall w, exists a w', m w = Ok a w' /\ Q a.
Proof.
  intros Hm w. specialize (Hm w I).
  destruct (m w) as [a w1|e]; [|contradiction].
  exists a, w1. split; [reflexivity|exact (proj1 Hm)].
Qed.

(** A computation specified without result raises in every world. *)
Lemma triple_never {A} (T : (N -> N) -> Prop) (E : exn -> Prop) (m : M A) :
  triple T m (fun _ => False) E ->
  forall w, T (tape (py_random w)) -> exists e, m w = Raise e /\ E e.
Proof.
  intros Hm w Hw. specialize (Hm w Hw).
  destruct (m w) as [a w1|e]; [destruct Hm as [[] _]|].
  exists e. split; [reflexivity|exact Hm].
Qed.

Section Primitives.
Context (T : (N -> N) -> Prop) (E : exn -> Prop).

Lemma triple_py_draw : triple T py_draw (drawn T) E.
Proof.
  intros w Hw. unfold py_draw, next. simpl. split; [|reflexivity].
  exists (tape (py_random w)), (cursor (py_random w)). split; [exact Hw|reflexivity].
Qed.

Lemma triple_np_draw : triple T np_draw (fun _ => True) E.
Proof. intros w Hw. unfold np_draw, next. simpl. split; [exact I|reflexivity]. Qed.

(** [randint] raises [ValueError] on an empty range and nothing else. *)
Lemma triple_randint (a b : Z) :
  (b < a -> E ValueError) ->
  triple T (randint a b)
    (fun x => a <= x <= b /\
              exists r, drawn T r /\ x = a + Z.of_N r mod (b - a + 1)) E.
Proof.
  intros Hempty. unfold randint. destruct (Z.ltb_spec b a) as [Hlt|Hle].
  - apply triple_raise. exact (Hempty Hlt).
  - eapply triple_bind; [apply triple_py_draw|].
    intros r Hr. apply triple_ret.
    pose proof (Z.mod_pos_bound (Z.of_N r) (b - a + 1)).
    split; [lia|]. exists r. split; [exact Hr|reflexivity].
Qed.

Lemma triple_uniform_round (lo hi : Z) :
  lo <= hi -> triple T (uniform_round lo hi) (fun x => lo <= x <= hi) E.
Proof.
  intros Hle. unfold uniform_round.
  eapply triple_bind; [apply triple_py_draw|].
  intros r _. apply triple_ret.
  pose proof (Z.mod_pos_bound (Z.of_N r) (hi - lo + 1)). lia.
Qed.

Lemma triple_random : triple T random (fun k => 0 <= k < two53) E.
Proof.
  unfold random. eapply triple_bind; [apply triple_py_draw|].
  intros r _. apply triple_ret. apply Z.mod_pos_bound. reflexivity.
Qed.

(** The position drawn in a non-empty list is a position of the list. *)
Lemma drawn_position {X} (l : list X) (r : N) :
  l <> [] -> exists x, nth_error l (N.to_nat (r mod N.of_nat (List.length l))) = Some x.
Proof.
  intros Hne.
  assert (Hlen : (0 < List.length l)%nat) by (destruct l; [contradiction|simpl; lia]).
  destruct (nth_error l (N.to_nat (r mod N.of_nat (List.length l)))) as [x|] eqn:E0.
  - exists x. reflexivity.
  - apply nth_error_None in E0.
    assert (r mod N.of_nat (List.length l) < N.of_nat (List.length l))%N
      by (apply N.mod_lt; lia).
    lia.
Qed.

(** [random.choice] raises [IndexError] on an empty list and nothing
    else. *)
Lemma triple_choice {X} (l : list X) :
  (l = [] -> E IndexError) -> triple T (choice l) (fun x => In x l) E.
Proof.
  intros Hempty. unfold choice. destruct l as [|h t].
  - apply triple_raise. apply Hempty. reflexivity.
  - eapply triple_bind; [apply triple_py_draw|].
    intros r _.
    destruct (drawn_position (h :: t) r) as [x Hx]; [discriminate|].
    rewrite Hx. apply triple_ret. eapply nth_error_In; exact Hx.
Qed.

(** Sampling one row raises [ValueError] on an empty frame and nothing
    else. *)
Lemma triple_sample1 {X} (l : list X) :
  (l = [] -> E ValueError) -> triple T (sample1 l) (fun x => In x l) E.
Proof.
  intros Hempty. unfold sample1. destruct l as [|h t].
  - apply triple_raise. apply Hempty. reflexivity.
  - eapply triple_bind; [apply triple_np_draw|].
    intros r _.
    destruct (drawn_position (h :: t) r) as [x Hx]; [discriminate|].
    rewrite Hx. apply triple_ret. eapply nth_error_In; exact Hx.
Qed.

Lemma remove_nth_length {X} (i : nat) (l : list X) :
  (i < List.length l)%nat -> List.length (remove_nth i l) = (List.length l - 1)%nat.
Proof.
  revert i. induction l as [|x t IH]; intros i Hi; [simpl in Hi; lia|].
  destruct i as [|j]; simpl in *; [lia|]. rewrite IH by lia. lia.
Qed.

(** Sampling [n] rows raises [ValueError] when the frame holds fewer
    rows and nothing else; the sample has [n] rows of the frame. *)
Lemma triple_sample_rows {X} (n : nat) (l : list X) :
  ((List.length l < n)%nat -> E ValueError) ->
  triple T (sample_rows n l)
    (fun rows => incl rows l /\ List.length rows = n /\ (n <= List.length l)%nat) E.
Proof.
  revert l. induction n as [|m IH]; intros l Hshort; simpl.
  - apply triple_ret. split; [intros x []|]. split; [reflexivity|lia].
  - destruct l as [|h t].
    + apply triple_raise. apply Hshort. simpl. lia.
    + eapply triple_bind; [apply triple_np_draw|].
      intros r _. cbv zeta.
      destruct (drawn_position (h :: t) r) as [x Hx]; [discriminate|].
      rewrite Hx.
      assert (Hi : (N.to_nat (r mod N.of_nat (List.length (h :: t)))
                    < List.length (h :: t))%nat).
      { apply nth_error_Some. rewrite Hx. discriminate. }
      eapply triple_bind.
      * apply IH. intros Hlt. apply Hshort.
        rewrite remove_nth_length in Hlt by exact Hi. simpl in *. lia.
      * intros rest [Hincl [Hlen Hle]]. apply triple_ret. split.
        -- intros y [Hy|Hy].
           ++ subst y. eapply nth_error_In; exact Hx.
           ++ eapply remove_nth_incl. apply Hincl. exact Hy.
        -- rewrite remove_nth_length in Hle by exact Hi.
           simpl in *. rewrite Hlen. split; [reflexivity|lia].
Qed.

Lemma triple_sample {X} (n : Z) (l : list X) :
  (n < 0 \/ Z.of_nat (List.length l) < n -> E ValueError) ->
  triple T (sample n l)
    (fun rows => incl rows l /\ Z.of_nat (List.length rows) = n /\
                 0 <= n <= Z.of_nat (List.length l)) E.
Proof.
  intros Hbad. unfold sample. destruct (Z.ltb_spec n 0) as [Hneg|Hpos].
  - apply triple_raise. apply Hbad. left. exact Hneg.
  - eapply triple_weaken.
    + apply triple_sample_rows. intros Hlt. apply Hbad. right. lia.
    + intros rows [Hincl [Hlen Hle]]. split; [exact Hincl|]. lia.
Qed.

(** Python indexing raises [IndexError] out of range and nothing else. *)
Lemma triple_py_index {X} (l : list X) (i : Z) :
  (i < - Z.of_nat (List.length l) \/ Z.of_nat (List.length l) <= i -> E IndexError) ->
  triple T (py_index l i) (fun x => In x l) E.
Proof.
  intros Hbad. unfold py_index.
  destruct (Z.ltb_spec i 0) as [Hneg|Hpos];
    match goal with |- context [?j <? 0] => destruct (Z.ltb_spec j 0) as [Hj|Hj] end;
    try (apply triple_raise; apply Hbad; lia).
  - destruct (nth_error l (Z.to_nat (i + Z.of_nat (List.length l)))) as [x|] eqn:E0.
    + apply triple_ret. eapply nth_error_In; exact E0.
    + apply nth_error_None in E0. lia.
  - destruct (nth_error l (Z.to_nat i)) as [x|] eqn:E0.
    + apply triple_ret. eapply nth_error_In; exact E0.
    + apply triple_raise. apply Hbad. apply nth_error_None in E0. lia.
Qed.

(** Loop rule with an invariant indexed by the elements visited. *)
Lemma triple_for_each_prefix {X S} (body : S -> X -> M S)
    (I : list X -> S -> Prop) (xs : list X) (s0 : S) :
  I [] s0 ->
  (forall pre x post s, xs = (pre ++ x :: post)%list -> I pre s ->
                        triple T (body s x) (I (pre ++ [x])%list) E) ->
  triple T (for_each xs body s0) (I xs) E.
Proof.
  intros H0 Hstep.
  assert (G : forall rest pre s, xs = (pre ++ rest)%list -> I pre s ->
                                 triple T (for_each rest body s) (I xs) E).
  { induction rest as [|x rest IH]; intros pre s Hxs Hs; simpl.
    - apply triple_ret. rewrite Hxs, app_nil_r. exact Hs.
    - eapply triple_bind; [exact (Hstep pre x rest s Hxs Hs)|].
      intros s1 Hs1. apply (IH (pre ++ [x])%list); [|exact Hs1].
      rewrite <- app_assoc. exact Hxs. }
  exact (G xs [] s0 eq_refl H0).
Qed.

Lemma triple_for_each {X S} (body : S -> X -> M S) (I : S -> Prop)
    (xs : list X) (s0 : S) :
  I s0 ->
  (forall x s, In x xs -> I s -> triple T (body s x) I E) ->
  triple T (for_each xs body s0) I E.
Proof.
  intros H0 Hstep.
  apply (triple_for_each_prefix body (fun _ => I)); [exact H0|].
  intros pre x post s Hxs Hs. apply Hstep; [|exact Hs].
  rewrite Hxs. apply in_or_app. right. left. reflexivity.
Qed.
End Primitives.

(* ================================================================== *)
(** * Dimension tables *)

Ltac side :=
  first [ assumption
        | let H := fresh in intros H; discriminate H
        | let H := fresh in intros H; exfalso; lia
        | intros; exact (eq_refl ValueError)
        | lia ].

(** One step through a [bind] of a primitive, with its side condition. *)
Ltac tstep :=
  eapply triple_bind;
  [ first [ apply triple_randint; side
          | apply triple_choice; side
          | apply triple_uniform_round; side
          | apply triple_random
          | apply triple_sample1; side ]
  | cbv beta; intros ? ? ].

Lemma range1_snoc (k : nat) :
  range1 (Z.of_nat (S k)) = (range1 (Z.of_nat k) ++ [Z.of_nat (S k)])%list.
Proof.
  unfold range1. rewrite !Nat2Z.id. rewrite seq_S, map_app. reflexivity.
Qed.

Lemma app_same_length {X} (a b c d : list X) :
  List.length a = List.length b -> (a ++ c = b ++ d)%list -> a = b /\ c = d.
Proof.
  revert b. induction a as [|x a IH]; intros [|y b] Hlen H; simpl in *;
    try discriminate Hlen.
  - split; [reflexivity|exact H].
  - inversion H; subst. destruct (IH b) as [Hab Hcd]; [lia|assumption|].
    subst. split; reflexivity.
Qed.

(** The element of [range1 n] that follows a prefix is the length of
    that prefix plus one. *)
Lemma range1_split (n : Z) (pre post : list Z) (x : Z) :
  range1 n = (pre ++ x :: post)%list ->
  x = Z.of_nat (S (List.length pre)) /\ pre = range1 (Z.of_nat (List.length pre)).
Proof.
  unfold range1. intros H.
  remember (Z.to_nat n) as m eqn:Em. clear Em n.
  rewrite Nat2Z.id.
  assert (Hlen : List.length (seq 1 m) = (List.length pre + S (List.length post))%nat).
  { rewrite <- (length_map Z.of_nat), H, length_app. reflexivity. }
  rewrite length_seq in Hlen.
  replace m with (List.length pre + S (List.length post))%nat in H by lia.
  rewrite seq_app, map_app in H. simpl in H.
  apply app_same_length in H; [|rewrite length_map, length_seq; reflexivity].
  destruct H as [Hpre Hx]. inversion Hx. split; [f_equal; lia|]. symmetry. exact Hpre.
Qed.

(** A loop over [range1 n] that appends one row keyed by the index
    builds a table keyed 1, ..., n. *)
Lemma numbered_table {R} (T : (N -> N) -> Prop) (E : exn -> Prop)
    (key : R -> Z) (P : R -> Prop) (body : list R -> Z -> M (list R)) (n : Z) :
  (forall rows i,
      triple T (body rows i)
             (fun rows' => exists r, rows' = append rows r /\ key r = i /\ P r) E) ->
  triple T (for_each (range1 n) body [])
         (fun rows => map key rows = range1 n /\ Forall P rows) E.
Proof.
  intros Hbody.
  apply (triple_for_each_prefix T E body
           (fun pre rows => map key rows = pre /\ Forall P rows)).
  - split; [reflexivity|constructor].
  - intros pre i post rows _ [Hkeys Hrows].
    eapply triple_weaken; [apply Hbody|].
    intros rows' [r [-> [Hkey Hr]]]. unfold append. split.
    + rewrite map_app, Hkeys. simpl. rewrite Hkey. reflexivity.
    + apply Forall_app. split; [exact Hrows|]. constructor; [exact Hr|constructor].
Qed.

Section DimensionOutcomes.
Context (T : (N -> N) -> Prop) (E : exn -> Prop).

Lemma generate_patients_outcome (n : Z) :
  triple T (generate_patients n)
    (fun rows => map Patient.patient_id rows = range1 n /\ Forall patient_row rows) E.
Proof.
  unfold generate_patients. cbv zeta.
  apply numbered_table. intros rows i. cbv beta.
  do 3 tstep. apply triple_ret.
  eexists. split; [reflexivity|]. split; [reflexivity|].
  repeat split; assumption.
Qed.

Lemma generate_staff_outcome (n : Z) :
  triple T (generate_staff n)
    (fun rows => map Staff.staff_id rows = range1 n /\ Forall staff_row rows) E.
Proof.
  unfold generate_staff. cbv zeta.
  apply numbered_table. intros rows i. cbv beta.
  do 3 tstep. apply triple_ret.
  eexists. split; [reflexivity|]. split; [reflexivity|].
  repeat split; assumption.
Qed.

Lemma generate_medications_outcome (n : Z) :
  triple T (generate_medications n)
    (fun rows => map Medication.medication_id rows = range1 n /\ Forall medication_row rows) E.
Proof.
  unfold generate_medications. cbv zeta.
  apply numbered_table. intros rows i. cbv beta.
  do 4 tstep. apply triple_ret.
  eexists. split; [reflexivity|]. split; [reflexivity|].
  repeat split; simpl; try assumption; try reflexivity; lia.
Qed.

Lemma generate_procedures_outcome (n : Z) :
  triple T (generate_procedures n)
    (fun rows => map Procedure.procedure_id rows = range1 n /\ Forall procedure_row rows) E.
Proof.
  unfold generate_procedures. cbv zeta.
  apply numbered_table. intros rows i. cbv beta.
  do 4 tstep. apply triple_ret.
  eexists. split; [reflexivity|]. split; [reflexivity|].
  repeat split; simpl; try assumption; try lia; apply String.eqb_eq.
Qed.
End DimensionOutcomes.

(** X1.  [generate_patients] never fails; it returns [n] rows whose
    patient ids are 1, ..., n in this order, each with the record
    number built from its id, a gender, blood type and insurer of the
    fixed lists, the configured effective date and the current flag. *)
Theorem generate_patients_table (n : Z) (w : World) :
  exists patients w',
    generate_patients n w = Ok patients w' /\
    map Patient.patient_id patients = range1 n /\
    Forall patient_row patients.
Proof.
  apply triple_total. apply generate_patients_outcome.
Qed.

(** X2.  [generate_staff] never fails; it returns [n] rows whose staff
    ids are 1, ..., n in this order, each with a role of [STAFF_ROLES],
    the department of a configured ward, a shift pattern of the fixed
    list, the qualification text built from the role, and active. *)
Theorem generate_staff_table (n : Z) (w : World) :
  exists staff w',
    generate_staff n w = Ok staff w' /\
    map Staff.staff_id staff = range1 n /\
    Forall staff_row staff.
Proof.
  apply triple_total. apply generate_staff_outcome.
Qed.

(** X3.  [generate_medications] never fails; it returns [n] rows whose
    medication ids are 1, ..., n in this order, each with a class of
    [MEDICATION_CLASSES], a dosage form and a manufacturer of the fixed
    lists, a unit cost between 0.50 and 500.00 and the contraindication
    text built from the class. *)
Theorem generate_medications_table (n : Z) (w : World) :
  exists medications w',
    generate_medications n w = Ok medications w' /\
    map Medication.medication_id medications = range1 n /\
    Forall medication_row medications.
Proof.
  apply triple_total. apply generate_medications_outcome.
Qed.

(** X4.  [generate_procedures] never fails; it returns [n] rows whose
    procedure ids are 1, ..., n in this order, each with a type of the
    fixed list, the department of a configured ward, an average
    duration between 15 and 480 minutes, a base cost between 100.00 and
    50000.00, and anesthesia required exactly for the surgical type. *)
Theorem generate_procedures_table (n : Z) (w : World) :
  exists procedures w',
    generate_procedures n w = Ok procedures w' /\
    map Procedure.procedure_id procedures = range1 n /\
    Forall procedure_row procedures.
Proof.
  apply triple_total. apply generate_procedures_outcome.
Qed.

Lemma repeat_snoc {X} (x : X) (k : nat) : (repeat x k ++ [x])%list = repeat x (S k).
Proof. induction k as [|k IH]; simpl; [reflexivity|]. rewrite IH. reflexivity. Qed.

Lemma bed_wards_snoc (done : list Ward.t) (ward : Ward.t) :
  bed_wards (done ++ [ward])
  = (bed_wards done
     ++ repeat (Ward.ward_id ward) (Z.to_nat (Ward.bed_capacity ward)))%list.
Proof. unfold bed_wards. rewrite flat_map_app. simpl. rewrite app_nil_r. reflexivity. Qed.

Section Beds.
Context (T : (N -> N) -> Prop) (E : exn -> Prop).

(** One bed of [ward] is appended with the next id. *)
Lemma generate_bed_step (done : list Ward.t) (ward : Ward.t) (k : nat)
    (st : list Bed.t * Z) (bed_num : Z) :
  In ward WARDS ->
  beds_loop_inv done (repeat (Ward.ward_id ward) k) st ->
  triple T
    ((fun '(beds, bed_id) bed_num =>
        let bed_type :=
          if contains "ICU" (Ward.ward_name ward) then "ICU" else "Standard" in
        available <- choice [true; false] ;;
        ret (append beds (Bed.mk bed_id (Ward.ward_id ward)
                            (upper (take_prefix 3 (Ward.ward_name ward)) ++ "-" ++
                             zfill 3 (str bed_num))
                            bed_type (String.eqb bed_type "ICU") true available),
             (bed_id + 1)%Z)) st bed_num)
    (beds_loop_inv done (repeat (Ward.ward_id ward) (S k))) E.
Proof.
  intros Hward. destruct st as [beds bed_id].
  intros [Hid [Hids [Hwards Hrows]]]. simpl in Hid, Hids, Hwards, Hrows.
  cbv beta iota zeta. tstep. apply triple_ret.
  unfold beds_loop_inv, append. simpl fst. simpl snd.
  rewrite !length_app, !map_app. simpl List.length. simpl map.
  split; [lia|]. split.
  - replace (Z.of_nat (List.length beds + 1)) with (Z.of_nat (S (List.length beds)))
      by lia.
    rewrite range1_snoc, Hids, Hid. do 2 f_equal. lia.
  - split.
    + rewrite Hwards, <- app_assoc, repeat_snoc. reflexivity.
    + apply Forall_app. split; [exact Hrows|]. constructor; [|constructor].
      exists ward. split; [exact Hward|].
      unfold bed_of_ward. simpl.
      destruct (contains "ICU" (Ward.ward_name ward)); repeat split; reflexivity.
Qed.

(** The beds of the wards of a list, ward by ward. *)
Lemma generate_beds_loops (wards : list Ward.t) :
  incl wards WARDS ->
  triple T
    (for_each wards (fun st ward =>
       for_each (range1 (Ward.bed_capacity ward)) (fun '(beds, bed_id) bed_num =>
         let bed_type :=
           if contains "ICU" (Ward.ward_name ward) then "ICU" else "Standard" in
         available <- choice [true; false] ;;
         ret (append beds (Bed.mk bed_id (Ward.ward_id ward)
                             (upper (take_prefix 3 (Ward.ward_name ward)) ++ "-" ++
                              zfill 3 (str bed_num))
                             bed_type (String.eqb bed_type "ICU") true available),
              (bed_id + 1)%Z)) st) ([], 1%Z))
    (beds_loop_inv wards []) E.
Proof.
  intros Hincl.
  apply (triple_for_each_prefix T E _ (fun done => beds_loop_inv done [])).
  - split; [reflexivity|]. split; [reflexivity|]. split; [reflexivity|constructor].
  - intros done ward post st Hsplit Hst.
    assert (Hward : In ward WARDS).
    { apply Hincl. rewrite Hsplit. apply in_or_app. right. left. reflexivity. }
    eapply triple_weaken.
    + apply (triple_for_each_prefix T E _
               (fun pre => beds_loop_inv done
                             (repeat (Ward.ward_id ward) (List.length pre)))).
      * exact Hst.
      * intros pre bed_num post' st' _ Hst'.
        rewrite length_app, Nat.add_1_r.
        apply generate_bed_step; assumption.
    + intros [beds bed_id] [Hid [Hids [Hwards Hrows]]].
      split; [exact Hid|]. split; [exact Hids|]. split; [|exact Hrows].
      rewrite Hwards, app_nil_r, bed_wards_snoc.
      unfold range1. rewrite length_map, length_seq. reflexivity.
Qed.

Lemma generate_beds_outcome :
  triple T generate_beds
    (fun beds =>
       map Bed.bed_id beds = range1 305 /\
       map Bed.ward_id beds = bed_wards WARDS /\
       Forall (fun b => exists ward, In ward WARDS /\ bed_of_ward ward b) beds) E.
Proof.
  unfold generate_beds.
  eapply triple_bind; [apply generate_beds_loops; apply incl_refl|].
  intros [beds bed_id] [_ [Hids [Hwards Hrows]]].
  cbn [fst snd] in Hids, Hwards, Hrows.
  apply triple_ret. rewrite app_nil_r in Hwards.
  assert (Hlen : List.length beds = 305%nat).
  { rewrite <- (length_map Bed.ward_id), Hwards. reflexivity. }
  rewrite Hlen in Hids. split; [exact Hids|]. split; assumption.
Qed.
End Beds.

(** X5.  [generate_beds] never fails; it returns one bed per unit of
    capacity of each configured ward, ward by ward in the configured
    order, 305 beds with the ids 1, ..., 305; a bed is of type ICU and
    has a ventilator exactly when the name of its ward contains "ICU",
    and every bed has a monitor. *)
Theorem generate_beds_table (w : World) :
  exists beds w',
    generate_beds w = Ok beds w' /\
    map Bed.bed_id beds = range1 305 /\
    map Bed.ward_id beds = bed_wards WARDS /\
    Forall (fun b => exists ward, In ward WARDS /\ bed_of_ward ward b) beds.
Proof. apply triple_total. apply generate_beds_outcome. Qed.

(** Every configured ward has a bed in a table with the ward column of
    [generate_beds]. *)
Lemma configured_wards_have_beds (beds : list Bed.t) (ward : Ward.t) :
  map Bed.ward_id beds = bed_wards WARDS -> In ward WARDS ->
  filter (fun b => Bed.ward_id b =? Ward.ward_id ward) beds <> [].
Proof.
  intros Hwards Hward.
  assert (Hin : In (Ward.ward_id ward) (map Bed.ward_id beds)).
  { rewrite Hwards. unfold bed_wards. apply in_flat_map.
    exists ward. split; [exact Hward|].
    unfold WARDS in Hward. simpl in Hward.
    repeat (destruct Hward as [Hward|Hward]; [subst ward; left; reflexivity|]).
    contradiction. }
  apply in_map_iff in Hin. destruct Hin as [b [Hb Hin]].
  intros Hnil.
  assert (Hf : In b (filter (fun b => Bed.ward_id b =? Ward.ward_id ward) beds)).
  { apply filter_In. split; [exact Hin|]. apply Z.eqb_eq. exact Hb. }
  rewrite Hnil in Hf. exact Hf.
Qed.

(* ================================================================== *)
(** * Outcomes of the admission generator *)

Section AdmissionOutcomes.
Context (T : (N -> N) -> Prop) (E : exn -> Prop).

Lemma triple_sample_los (d : Diagnosis.t) :
  triple T (sample_los d) (fun los => 1 <= los <= 21) E.
Proof.
  unfold sample_los.
  destruct (String.eqb (Diagnosis.severity_level d) "Critical");
    [|destruct (String.eqb (Diagnosis.severity_level d) "Serious")];
    (eapply triple_weaken; [apply triple_randint; side|]);
    intros los [Hlos _]; lia.
Qed.

(** The readmission check indexes the row appended last, which exists
    when the patient already has an admission: it never raises. *)
Lemma triple_check_readmission (before blk : list Admission.t) (dt : datetime) :
  triple T (check_readmission (before ++ blk)
              (Z.of_nat (List.length (before ++ blk)) + 1)
              (Z.of_nat (List.length blk)) dt)
         (fun _ => True) E.
Proof.
  unfold check_readmission.
  destruct (Z.ltb_spec 0 (Z.of_nat (List.length blk))) as [Hpos|Hzero].
  - eapply triple_bind.
    + apply triple_py_index. rewrite length_app. intros H. exfalso. lia.
    + intros prev _. cbv zeta.
      destruct (_ <=? 30); apply triple_ret; exact I.
  - apply triple_ret. exact I.
Qed.

Variables (wards_df : list Ward.t) (diagnoses_df : list Diagnosis.t)
          (staff_df : list Staff.t) (beds_df : list Bed.t)
          (start end_ : datetime).

(** The conditions under which a round may raise [ValueError]. *)
Hypothesis Hdays : td_days (end_ - start) < 0 -> E ValueError.
Hypothesis Hdiagnoses : diagnoses_df = [] -> E ValueError.
Hypothesis Hwards : wards_df = [] -> E ValueError.
Hypothesis Hbeds :
  forall ward, In ward wards_df ->
    filter (fun b => Bed.ward_id b =? Ward.ward_id ward) beds_df = [] -> E ValueError.
Hypothesis Hdoctors : filter is_doctor staff_df = [] -> E ValueError.
Hypothesis Hsecondary : (List.length diagnoses_df < 2)%nat -> E ValueError.

Lemma generate_admission_outcome (p : Patient.t) (before : list Admission.t)
    (k : nat) (st : list Admission.t * Z) :
  patient_loop_inv wards_df diagnoses_df staff_df beds_df p before k st ->
  triple T (generate_admission p wards_df diagnoses_df staff_df beds_df
              start end_ st (Z.of_nat k))
         (patient_loop_inv wards_df diagnoses_df staff_df beds_df p before (S k)) E.
Proof.
  intros Hinv.
  eapply triple_weaken.
  - apply (triple_returns T E _ (fun _ => True));
      [|apply generate_admission_step; exact Hinv].
    destruct st as [admissions admission_id].
    destruct Hinv as [blk [Hadm [Hid [Hlen _]]]].
    simpl in Hadm, Hid. subst admissions admission_id k.
    unfold generate_admission. cbv zeta.
    do 4 tstep.
    eapply triple_bind; [apply triple_sample_los|]. intros los _.
    eapply triple_bind; [apply triple_check_readmission|]. intros flag _.
    tstep. rename a3 into ward, H3 into Hward.
    eapply triple_bind; [apply triple_sample1; exact (Hbeds ward Hward)|].
    intros bed _.
    do 2 tstep. tstep. rename a5 into num_secondary, H5 into Hnum.
    eapply triple_bind.
    { apply triple_sample. intros [Hneg|Hshort]; [exfalso; lia|].
      apply Hsecondary. lia. }
    intros secondary _.
    do 2 tstep. apply triple_ret. exact I.
  - intros st' [_ Hst']. exact Hst'.
Qed.

Lemma generate_patient_admissions_outcome (done : list Patient.t) (p : Patient.t)
    (st : list Admission.t * Z) :
  admissions_loop_inv wards_df diagnoses_df staff_df beds_df done st ->
  triple T (generate_patient_admissions wards_df diagnoses_df staff_df beds_df
              start end_ st p)
         (admissions_loop_inv wards_df diagnoses_df staff_df beds_df (done ++ [p])) E.
Proof.
  intros Hinv.
  eapply triple_weaken.
  - apply (triple_returns T E _ (fun _ => True));
      [|apply generate_patient_admissions_step; exact Hinv].
    destruct Hinv as [Hid [Hord _]].
    unfold generate_patient_admissions. tstep.
    eapply triple_weaken; [|intros; exact I].
    apply (triple_for_each_prefix T E _
             (fun pre => patient_loop_inv wards_df diagnoses_df staff_df beds_df
                           p (fst st) (List.length pre))).
    + exists []. rewrite app_nil_r.
      split; [reflexivity|]. split; [exact Hid|]. split; [reflexivity|].
      split; [exact Hord|]. split; [constructor|apply readmission_chain_nil].
    + intros pre x post s Hsplit Hs.
      rewrite (range_split _ _ _ _ Hsplit).
      rewrite length_app, Nat.add_1_r.
      apply generate_admission_outcome. exact Hs.
  - intros st' [_ Hst']. exact Hst'.
Qed.
End AdmissionOutcomes.

(** The table of [generate_admissions], with the conditions under which
    it may raise [ValueError]. *)
Lemma generate_admissions_outcome (T : (N -> N) -> Prop) (E : exn -> Prop)
    (patients_df : list Patient.t) (wards_df : list Ward.t)
    (diagnoses_df : list Diagnosis.t) (staff_df : list Staff.t)
    (beds_df : list Bed.t) (start_date : ymd) (num_years : Z) :
  (td_days (to_datetime (add_years start_date num_years) - to_datetime start_date) < 0
   -> E ValueError) ->
  (diagnoses_df = [] -> E ValueError) ->
  (wards_df = [] -> E ValueError) ->
  (forall ward, In ward wards_df ->
     filter (fun b => Bed.ward_id b =? Ward.ward_id ward) beds_df = [] ->
     E ValueError) ->
  (filter is_doctor staff_df = [] -> E ValueError) ->
  ((List.length diagnoses_df < 2)%nat -> E ValueError) ->
  triple T (generate_admissions patients_df wards_df diagnoses_df staff_df beds_df
              start_date num_years)
    (fun admissions =>
       in_generation_order admissions /\
       exists blocks,
         admissions = List.concat blocks /\
         Forall2 (patient_block wards_df diagnoses_df staff_df beds_df)
                 patients_df blocks) E.
Proof.
  intros Hdays Hdiagnoses Hwards Hbeds Hdoctors Hsecondary.
  unfold generate_admissions. cbv zeta.
  eapply triple_bind.
  - apply (triple_for_each_prefix T E _
             (admissions_loop_inv wards_df diagnoses_df staff_df beds_df)).
    + split; [reflexivity|]. split.
      * intros i a Ha. destruct i; discriminate Ha.
      * exists []. split; [reflexivity|constructor].
    + intros pre p post s _ Hs.
      apply generate_patient_admissions_outcome; assumption.
  - intros [admissions next_id] [_ [Hord Hblocks]].
    apply triple_ret. split; assumption.
Qed.



Lemma filter_nonempty {X} (f : X -> bool) (l : list X) (x : X) :
  In x l -> f x = true -> filter f l <> [].
Proof.
  intros Hin Hf Hnil.
  assert (H : In x (filter f l)) by (apply filter_In; split; assumption).
  rewrite Hnil in H. exact H.
Qed.



Lemma range_positive (n : Z) : 0 < n -> exists rest, range n = 0 :: rest.
Proof.
  intros Hn. unfold range.
  destruct (Z.to_nat n) as [|m] eqn:Em; [lia|].
  simpl. eexists. reflexivity.
Qed.


Section FirstAdmission.
Context (T : (N -> N) -> Prop).
Variables (p : Patient.t) (wards_df : list Ward.t) (diagnoses_df : list Diagnosis.t)
          (staff_df : list Staff.t) (beds_df : list Bed.t)
          (start end_ : datetime).

(** The first admission of a patient is checked against nothing. *)
Lemma triple_check_first (E : exn -> Prop) (admissions : list Admission.t)
    (admission_id : Z) (dt : datetime) :
  triple T (check_readmission admissions admission_id 0 dt) (fun _ => True) E.
Proof. unfold check_readmission. simpl. apply triple_ret. exact I. Qed.

(** A patient whose first admission cannot be generated has none. *)
Lemma first_admission_never (st : list Admission.t * Z) (ps : list Patient.t) :
  triple T (generate_admission p wards_df diagnoses_df staff_df beds_df
              start end_ st 0)
         (fun _ => False) value_error ->
  triple T
    (for_each (p :: ps)
       (generate_patient_admissions wards_df diagnoses_df staff_df beds_df start end_)
       st)
    (fun _ => False) value_error.
Proof.
  intros Hfirst. simpl. apply triple_bind_never.
  unfold generate_patient_admissions. tstep.
  destruct (range_positive a) as [rest Hrange]; [lia|].
  rewrite Hrange. simpl. apply triple_bind_never. exact Hfirst.
Qed.

(** The first admission of a patient raises [ValueError] when a table
    it samples from is empty. *)
Lemma first_admission_needs_tables (st : list Admission.t * Z) :
  diagnoses_df = [] \/ wards_df = [] \/ beds_df = [] \/
  filter is_doctor staff_df = [] ->
  triple T (generate_admission p wards_df diagnoses_df staff_df beds_df
              start end_ st 0)
         (fun _ => False) value_error.
Proof.
  intros Hempty. destruct st as [admissions admission_id].
  unfold generate_admission. cbv zeta.
  do 3 tstep.
  destruct Hempty as [Hd|Hrest].
  { subst diagnoses_df. apply triple_bind_never. apply triple_raise. reflexivity. }
  tstep.
  eapply triple_bind; [apply triple_sample_los|]. intros los _.
  eapply triple_bind; [apply triple_check_first|]. intros flag _.
  destruct Hrest as [Hw|Hrest].
  { subst wards_df. apply triple_bind_never. apply triple_raise. reflexivity. }
  tstep.
  destruct Hrest as [Hb|Hdoc].
  { subst beds_df. apply triple_bind_never. apply triple_raise. reflexivity. }
  eapply triple_bind; [apply triple_sample1; side|]. intros bed _.
  rewrite Hdoc. apply triple_bind_never. apply triple_raise. reflexivity.
Qed.

End FirstAdmission.





(* ================================================================== *)
(** * Growth of the child tables *)

Lemma triple_as_returns {A} (m : M A) (Q : A -> Prop) :
  triple any_tape m Q (fun _ => True) -> returns m Q.
Proof.
  intros H w a w' Hrun. specialize (H w I). rewrite Hrun in H. exact (proj1 H).
Qed.

Lemma remove_nth_permutation {X} (i : nat) (l : list X) (x : X) :
  nth_error l i = Some x -> Permutation.Permutation (x :: remove_nth i l) l.
Proof.
  revert i. induction l as [|y t IH]; intros i Hi.
  - destruct i; discriminate Hi.
  - destruct i as [|j]; simpl in *.
    + inversion Hi. apply Permutation.Permutation_refl.
    + eapply Permutation.perm_trans; [apply Permutation.perm_swap|].
      apply Permutation.perm_skip. exact (IH j Hi).
Qed.

(** Sampling without replacement keeps distinct keys distinct. *)
Lemma returns_sample_rows_distinct {X} (key : X -> Z) (n : nat) (l : list X) :
  NoDup (map key l) ->
  returns (sample_rows n l) (fun rows => NoDup (map key rows)).
Proof.
  revert l. induction n as [|m IH]; intros l Hnd; simpl.
  - apply returns_ret. constructor.
  - destruct l as [|h t]; [apply returns_raise|].
    eapply returns_bind; [apply returns_any|]. intros r _. cbv zeta.
    destruct (nth_error (h :: t) _) as [x|] eqn:Ex; [|apply returns_raise].
    pose proof (remove_nth_permutation _ _ _ Ex) as Hperm.
    assert (Hnd' : NoDup (map key (x :: remove_nth
                     (N.to_nat (r mod N.of_nat (List.length (h :: t)))) (h :: t)))).
    { eapply Permutation.Permutation_NoDup; [|exact Hnd].
      apply Permutation.Permutation_map. apply Permutation.Permutation_sym.
      exact Hperm. }
    simpl in Hnd'. inversion Hnd' as [|k ks Hnotin Hrest]; subst.
    eapply returns_bind.
    + apply returns_conj; [apply (IH _ Hrest)|apply returns_sample_rows].
    + intros rest [Hnd_rest Hincl]. apply returns_ret. simpl.
      constructor; [|exact Hnd_rest].
      intros Hin. apply Hnotin. apply in_map_iff in Hin.
      destruct Hin as [y [Hy Hin]]. apply in_map_iff. exists y.
      split; [exact Hy|]. apply Hincl. exact Hin.
Qed.

Lemma returns_sample_frac_of {X} (tenths : Z) (l : list X) :
  returns (sample_frac tenths l) (sample_of tenths l).
Proof.
  unfold sample_frac, sample_of.
  intros w rows w' Hrun. split; [exact (returns_sample _ _ _ _ _ Hrun)|]. split.
  - assert (H : returns (sample (round_half_even (tenths * Z.of_nat (List.length l)) 10) l)
                  (fun rows => incl rows l /\
                     Z.of_nat (List.length rows)
                     = round_half_even (tenths * Z.of_nat (List.length l)) 10 /\
                     0 <= round_half_even (tenths * Z.of_nat (List.length l)) 10
                       <= Z.of_nat (List.length l))).
    { apply triple_as_returns. apply triple_sample. intros _. exact I. }
    exact (proj1 (proj2 (H _ _ _ Hrun))).
  - intros key Hnd. unfold sample in Hrun.
    destruct (_ <? 0); [discriminate Hrun|].
    exact (returns_sample_rows_distinct key _ _ Hnd _ _ _ Hrun).
Qed.

Section Growth.
Context {R : Type} (key : R -> Z).

Lemma grows_by_append (B : list R -> Prop) (rows : list R) (id : Z) (row : R) :
  key row = id -> B [row] ->
  grows_by key B (rows, id) (append rows row, id + 1).
Proof.
  intros Hkey Hrow. exists [row]. simpl.
  split; [reflexivity|]. split; [reflexivity|]. split; [|exact Hrow].
  intros i r Hi. destruct i as [|i]; simpl in Hi.
  - inversion Hi; subst r. rewrite Hkey. lia.
  - destruct i; discriminate Hi.
Qed.

Lemma grows_by_weaken (B B' : list R -> Prop) (s s' : list R * Z) :
  (forall extra, B extra -> B' extra) -> grows_by key B s s' -> grows_by key B' s s'.
Proof.
  intros HB [extra [Hrows [Hid [Hkeys Hextra]]]].
  exists extra. repeat split; try assumption. apply HB. exact Hextra.
Qed.

(** A loop whose body appends a block per element appends the blocks in
    order. *)
Lemma returns_grows_for_each {X} (B : X -> list R -> Prop)
    (body : list R * Z -> X -> M (list R * Z)) (xs : list X) :
  (forall x s, In x xs -> returns (body s x) (grows_by key (B x) s)) ->
  forall s, returns (for_each xs body s) (grows_by key (blocks_of B xs) s).
Proof.
  induction xs as [|x rest IH]; intros Hbody s; simpl.
  - apply returns_ret. exists []. rewrite app_nil_r. simpl.
    split; [reflexivity|]. split; [lia|]. split.
    + intros i r Hi. destruct i; discriminate Hi.
    + exists []. split; [reflexivity|constructor].
  - eapply returns_bind; [apply Hbody; left; reflexivity|].
    intros s1 [e1 [Hrows1 [Hid1 [Hkeys1 Hb1]]]].
    eapply returns_weaken; [apply IH; intros y s' Hy; apply Hbody; right; exact Hy|].
    intros s2 [e2 [Hrows2 [Hid2 [Hkeys2 [blocks [Hcat Hblocks]]]]]].
    exists (e1 ++ e2)%list.
    split; [rewrite Hrows2, Hrows1, app_assoc; reflexivity|].
    split; [rewrite Hid2, Hid1, length_app; lia|].
    split.
    + intros i r Hi.
      destruct (Nat.lt_ge_cases i (List.length e1)) as [Hlt|Hge].
      * rewrite nth_error_app1 in Hi by exact Hlt. exact (Hkeys1 i r Hi).
      * rewrite nth_error_app2 in Hi by exact Hge.
        rewrite (Hkeys2 _ r Hi), Hid1. lia.
    + exists (e1 :: blocks). split; [simpl; rewrite Hcat; reflexivity|].
      constructor; assumption.
Qed.

(** The table returned from a loop started with no row and counter 1. *)
Lemma grows_from_empty (B : list R -> Prop) (s' : list R * Z) :
  grows_by key B ([], 1) s' -> keyed_in_order key (fst s') /\ B (fst s').
Proof.
  intros [extra [Hrows [_ [Hkeys Hextra]]]]. simpl in Hrows, Hkeys.
  rewrite Hrows. split; [|exact Hextra].
  intros i r Hi. rewrite (Hkeys i r Hi). lia.
Qed.
End Growth.

(** Blocks of bounded size hold a bounded number of rows. *)
Lemma blocks_of_bounds {X R} (P : R -> Prop) (lo hi : nat) (xs : list X)
    (rows : list R) :
  blocks_of (fun _ => block_of P lo hi) xs rows ->
  block_of P (lo * List.length xs) (hi * List.length xs) rows.
Proof.
  intros [blocks [Hcat Hblocks]]. subst rows.
  induction Hblocks as [|x blk xs' blocks' [Hlen Hrows] _ [IHlen IHrows]]; simpl.
  - split; [rewrite !Nat.mul_0_r; cbn; lia|constructor].
  - split; [cbn; rewrite length_app, !Nat.mul_succ_r; lia|].
    apply Forall_app. split; assumption.
Qed.

Lemma block_of_weaken {R} (P : R -> Prop) (lo hi lo' hi' : nat) (blk : list R) :
  (lo' <= lo)%nat -> (hi <= hi')%nat -> block_of P lo hi blk -> block_of P lo' hi' blk.
Proof. intros Hlo Hhi [Hlen Hrows]. split; [lia|exact Hrows]. Qed.

(** Blocks of one row each are the rows, one per element. *)
Lemma singleton_blocks {X R} (Q : X -> R -> Prop) (xs : list X) (rows : list R) :
  blocks_of (fun x blk => exists r, blk = [r] /\ Q x r) xs rows -> Forall2 Q xs rows.
Proof.
  intros [blocks [Hcat Hblocks]]. subst rows.
  induction Hblocks as [|x blk xs' blocks' [r [Hblk Hr]] _ IH]; simpl.
  - constructor.
  - subst blk. simpl. constructor; assumption.
Qed.

(** Blocks of one row each, all rows satisfying [P]: as many rows as
    elements. *)
Lemma singleton_blocks_block {X R} (P : R -> Prop) (xs : list X) (rows : list R) :
  blocks_of (fun _ blk => exists r, blk = [r] /\ P r) xs rows ->
  block_of P (List.length xs) (List.length xs) rows.
Proof.
  intros H. apply singleton_blocks in H.
  induction H as [|x r xs' rows' Hr _ [IHlen IHrows]].
  - split; [simpl; lia|constructor].
  - split; [simpl in *; lia|constructor; assumption].
Qed.

Lemma returns_sample_length {X} (n : Z) (l : list X) :
  returns (sample n l)
    (fun rows => incl rows l /\ Z.of_nat (List.length rows) = n).
Proof.
  eapply returns_weaken.
  - apply triple_as_returns. apply triple_sample. intros _. exact I.
  - intros rows [Hincl [Hlen _]]. split; assumption.
Qed.

Ltac in_range_hyp :=
  match goal with H : In _ (range _) |- _ => apply in_range in H end.

Section MedicationGrowth.
Variables (medications_df : list Medication.t) (staff_df : list Staff.t).

Let P := mar_fields medications_df.

(** The administration timestamp is set exactly for the status
    "Given". *)
Lemma returns_administered_exact (status : string) (scheduled_dt : datetime) :
  returns (if String.eqb status "Given"
           then delay <- randint (-30) 60 ;;
                ret (Some (scheduled_dt + timedelta 0 0 delay))
           else ret None)
    (fun o => (status = "Given" ->
               exists delay, -30 <= delay <= 60 /\ o = Some (scheduled_dt + delay)) /\
              (status <> "Given" -> o = None)).
Proof.
  destruct (String.eqb_spec status "Given") as [Eg|Ng].
  - step. apply returns_ret. split; [|intros Hn; contradiction].
    intros _. exists a. split; [assumption|]. unfold timedelta. f_equal; lia.
  - apply returns_ret. split; [intros Hg; contradiction|reflexivity].
Qed.

Lemma generate_dose_grows (a : Admission.t) (med : Medication.t) (day dose : Z)
    (st : list Mar.t * Z) :
  In med medications_df ->
  0 <= day < Admission.length_of_stay a -> 0 <= dose <= 3 ->
  returns (generate_dose staff_df a med day st dose)
          (grows_by Mar.mar_id (fun extra => exists r, extra = [r] /\ P a r) st).
Proof.
  intros Hmed Hday Hdose. destruct st as [rows next_id].
  unfold generate_dose. cbv zeta.
  step. rename a0 into status, H into Hstatus.
  eapply returns_bind; [apply returns_administered_exact|].
  intros administered [Hgiven Hnot].
  eapply returns_bind; [apply returns_any|]. intros prescriber _.
  eapply returns_bind; [apply returns_any|]. intros nurse _.
  eapply returns_bind; [apply returns_choice|]. intros amount Hamount.
  eapply returns_bind; [apply returns_choice|]. intros unit_ Hunit.
  eapply returns_bind; [apply returns_choice|]. intros route Hroute.
  apply returns_ret. apply grows_by_append; [reflexivity|].
  eexists. split; [reflexivity|].
  assert (Hcases : status = "Given" \/ status = "Missed" \/ status = "Refused"
                   \/ status = "Held").
  { simpl in Hstatus. intuition. }
  constructor; simpl.
  - split; reflexivity.
  - exists med. split; [exact Hmed|reflexivity].
  - exists day, dose. repeat split; lia.
  - destruct Hcases as [E|[E|[E|E]]]; rewrite E; simpl; tauto.
  - intros E. split; [exact (Hgiven E)|]. subst status. simpl.
    split; [eexists; reflexivity|reflexivity].
  - intros Hn. split; [exact (Hnot Hn)|].
    destruct Hcases as [E|[E|[E|E]]]; subst status;
      [contradiction Hn; reflexivity| | |]; split; reflexivity.
  - exists amount, unit_. split; [exact Hamount|]. split; [exact Hunit|reflexivity].
  - exact Hroute.
  - split; reflexivity.
Qed.

Lemma generate_medication_day_grows (a : Admission.t) (med : Medication.t)
    (day : Z) (st : list Mar.t * Z) :
  In med medications_df ->
  0 <= day < Admission.length_of_stay a ->
  returns (generate_medication_day staff_df a med st day)
          (grows_by Mar.mar_id (block_of (P a) 1 4) st).
Proof.
  intros Hmed Hday. unfold generate_medication_day.
  step. rename a0 into doses, H into Hdoses.
  eapply returns_weaken.
  - apply (returns_grows_for_each Mar.mar_id
             (fun _ blk => exists r, blk = [r] /\ P a r)).
    intros dose s Hin. in_range_hyp.
    apply generate_dose_grows; try assumption. lia.
  - intros s' Hg. eapply grows_by_weaken; [|exact Hg].
    intros extra Hextra. apply singleton_blocks_block in Hextra.
    rewrite range_length in Hextra.
    eapply block_of_weaken; [| |exact Hextra]; lia.
Qed.

Lemma generate_medication_course_grows (a : Admission.t) (med : Medication.t)
    (st : list Mar.t * Z) :
  In med medications_df ->
  returns (generate_medication_course staff_df a st med)
          (grows_by Mar.mar_id (block_of (P a) (stay_days a) (4 * stay_days a)) st).
Proof.
  intros Hmed. unfold generate_medication_course.
  eapply returns_weaken.
  - apply (returns_grows_for_each Mar.mar_id (fun _ => block_of (P a) 1 4)).
    intros day s Hin. in_range_hyp.
    apply generate_medication_day_grows; assumption.
  - intros s' Hg. eapply grows_by_weaken; [|exact Hg].
    intros extra Hextra. apply blocks_of_bounds in Hextra.
    rewrite range_length in Hextra. unfold stay_days.
    eapply block_of_weaken; [| |exact Hextra]; lia.
Qed.

Lemma generate_admission_medications_grows (a : Admission.t) (st : list Mar.t * Z) :
  returns (generate_admission_medications medications_df staff_df st a)
          (grows_by Mar.mar_id
             (block_of (P a) (3 * stay_days a) (32 * stay_days a)) st).
Proof.
  unfold generate_admission_medications.
  step. rename a0 into num_meds, H into Hnum.
  eapply returns_bind; [apply returns_sample_length|].
  intros meds [Hincl Hlen].
  eapply returns_weaken.
  - apply (returns_grows_for_each Mar.mar_id
             (fun _ => block_of (P a) (stay_days a) (4 * stay_days a))).
    intros med s Hin. apply generate_medication_course_grows. apply Hincl. exact Hin.
  - intros s' Hg. eapply grows_by_weaken; [|exact Hg].
    intros extra Hextra. apply blocks_of_bounds in Hextra.
    eapply block_of_weaken; [| |exact Hextra]; nia.
Qed.

Lemma generate_medication_administration_grows (admissions_df : list Admission.t) :
  returns (generate_medication_administration admissions_df medications_df staff_df)
    (fun rows =>
       keyed_in_order Mar.mar_id rows /\
       exists sampled,
         sample_of 3 admissions_df sampled /\
         blocks_of (fun a => block_of (P a) (3 * stay_days a) (32 * stay_days a))
                   sampled rows).
Proof.
  unfold generate_medication_administration.
  eapply returns_bind; [apply returns_sample_frac_of|].
  intros sampled Hsampled.
  eapply returns_bind.
  - apply (returns_grows_for_each Mar.mar_id
             (fun a => block_of (P a) (3 * stay_days a) (32 * stay_days a))).
    intros a s _. apply generate_admission_medications_grows.
  - intros [rows next_id] Hg. apply returns_ret.
    apply grows_from_empty in Hg. destruct Hg as [Hkeys Hblocks].
    split; [exact Hkeys|]. exists sampled. split; assumption.
Qed.
End MedicationGrowth.

Section VitalGrowth.
Variable staff_df : list Staff.t.

Lemma generate_vital_check_grows (a : Admission.t) (day check : Z)
    (st : list Vital.t * Z) :
  0 <= day < Admission.length_of_stay a -> 0 <= check <= 3 ->
  returns (generate_vital_check staff_df a day st check)
          (grows_by Vital.vital_id
             (fun extra => exists r, extra = [r] /\ vital_fields a r) st).
Proof.
  intros Hday Hcheck. destruct st as [rows next_id].
  unfold generate_vital_check. cbv zeta.
  do 8 (eapply returns_bind; [apply returns_any|]; intros ? _).
  eapply returns_bind; [apply returns_choice|]. intros level Hlevel.
  apply returns_ret. apply grows_by_append; [reflexivity|].
  eexists. split; [reflexivity|].
  constructor.
  - split; reflexivity.
  - exists day, check. repeat split; lia.
  - cbn [Vital.consciousness_level]. simpl in Hlevel. simpl. tauto.
Qed.

Lemma generate_vital_day_grows (a : Admission.t) (checks_per_day day : Z)
    (st : list Vital.t * Z) :
  checks_per_day <= 4 -> 0 <= day < Admission.length_of_stay a ->
  returns (generate_vital_day staff_df a checks_per_day st day)
          (grows_by Vital.vital_id
             (block_of (vital_fields a) (Z.to_nat checks_per_day)
                       (Z.to_nat checks_per_day)) st).
Proof.
  intros Hchecks Hday. unfold generate_vital_day.
  eapply returns_weaken.
  - apply (returns_grows_for_each Vital.vital_id
             (fun _ blk => exists r, blk = [r] /\ vital_fields a r)).
    intros check s Hin. in_range_hyp.
    apply generate_vital_check_grows; [assumption|lia].
  - intros s' Hg. eapply grows_by_weaken; [|exact Hg].
    intros extra Hextra. apply singleton_blocks_block in Hextra.
    rewrite range_length in Hextra. exact Hextra.
Qed.

Lemma generate_admission_vitals_grows (a : Admission.t) (st : list Vital.t * Z) :
  returns (generate_admission_vitals staff_df st a)
          (grows_by Vital.vital_id (vital_block a) st).
Proof.
  unfold generate_admission_vitals.
  step. rename a0 into checks, H into Hchecks.
  eapply returns_weaken.
  - apply (returns_grows_for_each Vital.vital_id
             (fun _ => block_of (vital_fields a) (Z.to_nat checks)
                                (Z.to_nat checks))).
    intros day s Hin. in_range_hyp.
    apply generate_vital_day_grows; [lia|assumption].
  - intros s' Hg. eapply grows_by_weaken; [|exact Hg].
    intros extra Hextra. apply blocks_of_bounds in Hextra.
    rewrite range_length in Hextra.
    exists (Z.to_nat checks). split; [lia|exact Hextra].
Qed.

Lemma generate_vital_signs_grows (admissions_df : list Admission.t) :
  returns (generate_vital_signs admissions_df staff_df)
    (fun rows =>
       keyed_in_order Vital.vital_id rows /\
       exists sampled,
         sample_of 3 admissions_df sampled /\ blocks_of vital_block sampled rows).
Proof.
  unfold generate_vital_signs.
  eapply returns_bind; [apply returns_sample_frac_of|].
  intros sampled Hsampled.
  eapply returns_bind.
  - apply (returns_grows_for_each Vital.vital_id vital_block).
    intros a s _. apply generate_admission_vitals_grows.
  - intros [rows next_id] Hg. apply returns_ret.
    apply grows_from_empty in Hg. destruct Hg as [Hkeys Hblocks].
    split; [exact Hkeys|]. exists sampled. split; assumption.
Qed.
End VitalGrowth.

Section ActivityGrowth.
Variable staff_df : list Staff.t.

Lemma generate_activity_day_grows (a : Admission.t) (day : Z)
    (st : list Activity.t * Z) :
  returns (generate_activity_day staff_df a st day)
          (grows_by Activity.activity_id
             (fun extra => exists r, extra = [r] /\ activity_fields a day r) st).
Proof.
  destruct st as [rows next_id].
  unfold generate_activity_day. cbv zeta.
  eapply returns_bind; [apply returns_any|]. intros nurse _.
  eapply returns_bind; [apply returns_randint|]. intros mobility Hmobility.
  eapply returns_bind; [apply returns_any|]. intros mobility_notes _.
  eapply returns_bind; [apply returns_randint|]. intros self_care Hself_care.
  eapply returns_bind; [apply returns_randint|]. intros breakfast Hbreakfast.
  eapply returns_bind; [apply returns_randint|]. intros lunch Hlunch.
  eapply returns_bind; [apply returns_randint|]. intros dinner Hdinner.
  do 7 (eapply returns_bind; [apply returns_any|]; intros ? _).
  eapply returns_bind; [apply returns_randint|]. intros pain Hpain.
  eapply returns_bind; [apply returns_any|]. intros pain_location _.
  eapply returns_bind; [apply returns_randint|]. intros pain_mgmt Hpain_mgmt.
  eapply returns_bind; [apply returns_randint|]. intros sleep_quality Hquality.
  eapply returns_bind; [apply returns_uniform_round; lia|]. intros sleep_hours Hhours.
  eapply returns_bind; [apply returns_any|]. intros k _.
  eapply returns_bind.
  { instantiate (1 := fun o => forall c, o = Some c -> In c possible_comments).
    destruct (gt_0_3 k).
    - eapply returns_bind; [apply returns_choice|]. intros c Hc.
      apply returns_ret. intros c' E. inversion E; subst. exact Hc.
    - apply returns_ret. intros c E. discriminate E. }
  intros comments Hcomments. cbv beta in *.
  apply returns_ret. apply grows_by_append; [reflexivity|].
  eexists. split; [reflexivity|].
  constructor.
  - split; reflexivity.
  - split; reflexivity.
  - repeat split; simpl; lia.
  - repeat split; simpl; lia.
  - exact Hcomments.
Qed.

Lemma generate_admission_activities_grows (a : Admission.t)
    (st : list Activity.t * Z) :
  returns (generate_admission_activities staff_df st a)
          (grows_by Activity.activity_id
             (Forall2 (activity_fields a) (range (Admission.length_of_stay a))) st).
Proof.
  unfold generate_admission_activities.
  eapply returns_weaken.
  - apply (returns_grows_for_each Activity.activity_id
             (fun day blk => exists r, blk = [r] /\ activity_fields a day r)).
    intros day s _. apply generate_activity_day_grows.
  - intros s' Hg. eapply grows_by_weaken; [|exact Hg].
    intros extra Hextra. exact (singleton_blocks _ _ _ Hextra).
Qed.

Lemma generate_daily_activities_grows (admissions_df : list Admission.t) :
  returns (generate_daily_activities admissions_df staff_df)
    (fun rows =>
       keyed_in_order Activity.activity_id rows /\
       exists sampled,
         sample_of 4 admissions_df sampled /\
         blocks_of (fun a => Forall2 (activity_fields a)
                                     (range (Admission.length_of_stay a)))
                   sampled rows).
Proof.
  unfold generate_daily_activities.
  eapply returns_bind; [apply returns_sample_frac_of|].
  intros sampled Hsampled.
  eapply returns_bind.
  - apply (returns_grows_for_each Activity.activity_id
             (fun a => Forall2 (activity_fields a)
                               (range (Admission.length_of_stay a)))).
    intros a s _. apply generate_admission_activities_grows.
  - intros [rows next_id] Hg. apply returns_ret.
    apply grows_from_empty in Hg. destruct Hg as [Hkeys Hblocks].
    split; [exact Hkeys|]. exists sampled. split; assumption.
Qed.
End ActivityGrowth.

Section ProcedureGrowth.
Variables (procedures_df : list Procedure.t) (staff_df : list Staff.t).



End ProcedureGrowth.

Section LabGrowth.
Variable staff_df : list Staff.t.

Lemma generate_lab_panel_grows (a : Admission.t) (panel : Z) (st : list Lab.t * Z) :
  returns (generate_lab_panel staff_df a st panel)
          (grows_by Lab.lab_id
             (fun extra => exists r, extra = [r] /\ lab_fields a r) st).
Proof.
  destruct st as [rows next_id].
  unfold generate_lab_panel. cbv zeta.
  eapply returns_bind; [apply returns_choice|]. intros test Htest.
  destruct test as [[[test0 test1] test2] test3].
  eapply returns_bind; [apply returns_any|]. intros doctor _.
  eapply returns_bind; [apply returns_randint|]. intros day Hday.
  eapply returns_bind; [apply returns_randint|]. intros hour Hhour.
  eapply returns_bind; [apply returns_randint|]. intros turnaround Hturnaround.
  eapply returns_bind; [apply returns_uniform_round; lia|]. intros value Hvalue.
  eapply returns_bind; [apply returns_choice|]. intros flag Hflag. cbv beta in *.
  apply returns_ret. apply grows_by_append; [reflexivity|].
  eexists. split; [reflexivity|].
  constructor.
  - split; reflexivity.
  - exact Htest.
  - exists day, hour. repeat split; lia.
  - exists turnaround. split; [lia|reflexivity].
  - exists value. split; [lia|reflexivity].
  - cbn [Lab.abnormal_flag]. simpl in Hflag. simpl. tauto.
  - reflexivity.
Qed.

Lemma generate_admission_labs_grows (a : Admission.t) (st : list Lab.t * Z) :
  returns (generate_admission_labs staff_df st a)
          (grows_by Lab.lab_id (block_of (lab_fields a) 1 4) st).
Proof.
  unfold generate_admission_labs.
  step. rename a0 into n, H into Hn.
  eapply returns_weaken.
  - apply (returns_grows_for_each Lab.lab_id
             (fun _ blk => exists r, blk = [r] /\ lab_fields a r)).
    intros panel s _. apply generate_lab_panel_grows.
  - intros s' Hg. eapply grows_by_weaken; [|exact Hg].
    intros extra Hextra. apply singleton_blocks_block in Hextra.
    rewrite range_length in Hextra.
    eapply block_of_weaken; [| |exact Hextra]; lia.
Qed.

Lemma generate_lab_results_grows (admissions_df : list Admission.t) :
  returns (generate_lab_results admissions_df staff_df)
    (fun rows =>
       keyed_in_order Lab.lab_id rows /\
       exists sampled,
         sample_of 5 admissions_df sampled /\
         blocks_of (fun a => block_of (lab_fields a) 1 4) sampled rows).
Proof.
  unfold generate_lab_results.
  eapply returns_bind; [apply returns_sample_frac_of|].
  intros sampled Hsampled.
  eapply returns_bind.
  - apply (returns_grows_for_each Lab.lab_id (fun a => block_of (lab_fields a) 1 4)).
    intros a s _. apply generate_admission_labs_grows.
  - intros [rows next_id] Hg. apply returns_ret.
    apply grows_from_empty in Hg. destruct Hg as [Hkeys Hblocks].
    split; [exact Hkeys|]. exists sampled. split; assumption.
Qed.
End LabGrowth.

Section GoalGrowth.
Variable staff_df : list Staff.t.

Lemma generate_goal_grows (a : Admission.t) (goal_num : Z) (st : list Goal.t * Z) :
  returns (generate_goal staff_df a st goal_num)
          (grows_by Goal.goal_id
             (fun extra => exists r, extra = [r] /\ goal_fields a r) st).
Proof.
  destruct st as [rows next_id].
  unfold generate_goal. cbv zeta.
  eapply returns_bind; [apply returns_choice|]. intros template Htemplate.
  eapply returns_bind; [apply returns_any|]. intros nurse _.
  eapply returns_bind; [apply returns_choice|]. intros status Hstatus.
  eapply returns_bind; [apply returns_any|]. intros progress _.
  eapply returns_bind; [apply returns_randint|]. intros created Hcreated.
  eapply returns_bind; [apply returns_randint|]. intros updated Hupdated.
  cbv beta in *.
  apply returns_ret. apply grows_by_append; [reflexivity|].
  eexists. split; [reflexivity|].
  constructor.
  - split; reflexivity.
  - cbn [Goal.goal_type Goal.goal_description].
    rewrite <- surjective_pairing. exact Htemplate.
  - cbn [Goal.status]. unfold goal_statuses in Hstatus.
    simpl in Hstatus. simpl. tauto.
  - reflexivity.
  - exists created. split; [lia|reflexivity].
  - exists updated. split; [lia|reflexivity].
Qed.

Lemma generate_admission_goals_grows (a : Admission.t) (st : list Goal.t * Z) :
  returns (generate_admission_goals staff_df st a)
          (grows_by Goal.goal_id (block_of (goal_fields a) 2 4) st).
Proof.
  unfold generate_admission_goals.
  step. rename a0 into n, H into Hn.
  eapply returns_weaken.
  - apply (returns_grows_for_each Goal.goal_id
             (fun _ blk => exists r, blk = [r] /\ goal_fields a r)).
    intros goal_num s _. apply generate_goal_grows.
  - intros s' Hg. eapply grows_by_weaken; [|exact Hg].
    intros extra Hextra. apply singleton_blocks_block in Hextra.
    rewrite range_length in Hextra.
    eapply block_of_weaken; [| |exact Hextra]; lia.
Qed.

Lemma generate_care_plan_goals_grows (admissions_df : list Admission.t) :
  returns (generate_care_plan_goals admissions_df staff_df)
    (fun rows =>
       keyed_in_order Goal.goal_id rows /\
       exists sampled,
         sample_of 6 admissions_df sampled /\
         blocks_of (fun a => block_of (goal_fields a) 2 4) sampled rows).
Proof.
  unfold generate_care_plan_goals.
  eapply returns_bind; [apply returns_sample_frac_of|].
  intros sampled Hsampled.
  eapply returns_bind.
  - apply (returns_grows_for_each Goal.goal_id (fun a => block_of (goal_fields a) 2 4)).
    intros a s _. apply generate_admission_goals_grows.
  - intros [rows next_id] Hg. apply returns_ret.
    apply grows_from_empty in Hg. destruct Hg as [Hkeys Hblocks].
    split; [exact Hkeys|]. exists sampled. split; assumption.
Qed.
End GoalGrowth.

(** The number of rows of a table made of blocks of bounded size. *)
Lemma blocks_of_count {X R} (B : X -> list R -> Prop) (lo hi : nat)
    (xs : list X) (rows : list R) :
  (forall x blk, B x blk -> (lo <= List.length blk <= hi)%nat) ->
  blocks_of B xs rows ->
  (lo * List.length xs <= List.length rows <= hi * List.length xs)%nat.
Proof.
  intros Hsize [blocks [Hcat Hblocks]]. subst rows.
  induction Hblocks as [|x blk xs' blocks' Hblk _ IH].
  - cbn. rewrite !Nat.mul_0_r. lia.
  - specialize (Hsize x blk Hblk). cbn.
    rewrite length_app, !Nat.mul_succ_r. lia.
Qed.

(* ================================================================== *)
(** * Shape of the child tables *)

(** X10.  The medication administration table is keyed 1, 2, ... in
    row order and made of one block of rows per sampled admission, the
    sample holding the rounded 30% of the admissions; the block of an
    admission holds between 3 and 32 doses per day of stay, and every
    dose carries the keys of the admission and of a medication of the
    formulary, is scheduled on a day of the stay at 0, 8, 16 or 24
    hours after the admission time of day, and has its administration
    timestamp, its nurse and no reason exactly when its status is
    "Given", the reason fixed by the status otherwise. *)
Theorem medication_table_shape
    (admissions_df : list Admission.t) (medications_df : list Medication.t)
    (staff_df : list Staff.t) (w w' : World) (rows : list Mar.t) :
  generate_medication_administration admissions_df medications_df staff_df w
  = Ok rows w' ->
  keyed_in_order Mar.mar_id rows /\
  exists sampled,
    sample_of 3 admissions_df sampled /\
    blocks_of (fun a => block_of (mar_fields medications_df a)
                                 (3 * stay_days a) (32 * stay_days a))
              sampled rows.
Proof.
  intros Hrun.
  exact (generate_medication_administration_grows _ _ _ _ _ _ Hrun).
Qed.

Lemma medication_table_shape_witness :
  match generate_medication_administration small_admissions small_medications
                                           small_staff spread_world with
  | Ok rows _ =>
      keyed_in_order Mar.mar_id rows /\
      exists sampled,
        sample_of 3 small_admissions sampled /\
        blocks_of (fun a => block_of (mar_fields small_medications a)
                                     (3 * stay_days a) (32 * stay_days a))
                  sampled rows
  | Raise _ => False
  end.
Proof.
  assert (Hok : is_ok (generate_medication_administration small_admissions
                         small_medications small_staff spread_world) = true)
    by (vm_compute; reflexivity).
  destruct (generate_medication_administration small_admissions small_medications
              small_staff spread_world) as [rows w'|e] eqn:E.
  - exact (medication_table_shape _ _ _ _ _ _ E).
  - discriminate Hok.
Defined.

(** X11.  The vital-sign table is keyed 1, 2, ... in row order and made
    of one block per sampled admission (the rounded 30% of the
    admissions); an admission is checked the same number of times, 2 to
    4, on each day of its stay, 6 hours apart from the admission time
    of day, and every row carries the keys of the admission. *)
Theorem vital_table_shape
    (admissions_df : list Admission.t) (staff_df : list Staff.t)
    (w w' : World) (rows : list Vital.t) :
  generate_vital_signs admissions_df staff_df w = Ok rows w' ->
  keyed_in_order Vital.vital_id rows /\
  exists sampled,
    sample_of 3 admissions_df sampled /\ blocks_of vital_block sampled rows.
Proof.
  intros Hrun. exact (generate_vital_signs_grows _ _ _ _ _ Hrun).
Qed.

Lemma vital_table_shape_witness :
  match generate_vital_signs small_admissions small_staff spread_world with
  | Ok rows _ =>
      keyed_in_order Vital.vital_id rows /\
      exists sampled,
        sample_of 3 small_admissions sampled /\ blocks_of vital_block sampled rows
  | Raise _ => False
  end.
Proof.
  assert (Hok : is_ok (generate_vital_signs small_admissions small_staff
                         spread_world) = true) by (vm_compute; reflexivity).
  destruct (generate_vital_signs small_admissions small_staff spread_world)
    as [rows w'|e] eqn:E.
  - exact (vital_table_shape _ _ _ _ _ E).
  - discriminate Hok.
Defined.

(** X12.  The daily activity table is keyed 1, 2, ... in row order and
    holds, for each sampled admission (the rounded 40% of the
    admissions) in turn, exactly one row per day of the stay in day
    order: dated that day, recorded 20 hours after the admission time
    of day, with scores, meal percentages and sleep hours in their
    fixed ranges and a comment, when present, of the fixed pool. *)
Theorem activity_table_shape
    (admissions_df : list Admission.t) (staff_df : list Staff.t)
    (w w' : World) (rows : list Activity.t) :
  generate_daily_activities admissions_df staff_df w = Ok rows w' ->
  keyed_in_order Activity.activity_id rows /\
  exists sampled,
    sample_of 4 admissions_df sampled /\
    blocks_of (fun a => Forall2 (activity_fields a)
                                (range (Admission.length_of_stay a)))
              sampled rows.
Proof.
  intros Hrun. exact (generate_daily_activities_grows _ _ _ _ _ Hrun).
Qed.

Lemma activity_table_shape_witness :
  match generate_daily_activities small_admissions small_staff spread_world with
  | Ok rows _ =>
      keyed_in_order Activity.activity_id rows /\
      exists sampled,
        sample_of 4 small_admissions sampled /\
        blocks_of (fun a => Forall2 (activity_fields a)
                                    (range (Admission.length_of_stay a)))
                  sampled rows
  | Raise _ => False
  end.
Proof.
  assert (Hok : is_ok (generate_daily_activities small_admissions small_staff
                         spread_world) = true) by (vm_compute; reflexivity).
  destruct (generate_daily_activities small_admissions small_staff spread_world)
    as [rows w'|e] eqn:E.
  - exact (activity_table_shape _ _ _ _ _ E).
  - discriminate Hok.
Defined.



(** X14.  The lab result table is keyed 1, 2, ... in row order and made
    of one block of 1 to 4 results per sampled admission (the rounded
    50% of the admissions); the test type, name, reference range and
    unit of a result are those of one entry of the test catalog, the
    sample is collected on a day of the stay 6 to 10 hours after the
    admission time of day and resulted 2 to 24 hours later, and the
    value is a number between 50.0 and 200.0 printed with one
    decimal. *)
Theorem lab_table_shape
    (admissions_df : list Admission.t) (staff_df : list Staff.t)
    (w w' : World) (rows : list Lab.t) :
  generate_lab_results admissions_df staff_df w = Ok rows w' ->
  keyed_in_order Lab.lab_id rows /\
  exists sampled,
    sample_of 5 admissions_df sampled /\
    blocks_of (fun a => block_of (lab_fields a) 1 4) sampled rows /\
    (List.length sampled <= List.length rows <= 4 * List.length sampled)%nat.
Proof.
  intros Hrun.
  destruct (generate_lab_results_grows _ _ _ _ _ Hrun)
    as [Hkeys [sampled [Hsampled Hblocks]]].
  split; [exact Hkeys|]. exists sampled. split; [exact Hsampled|].
  split; [exact Hblocks|].
  pose proof (blocks_of_count _ 1 4 _ _ (fun a blk H => proj1 H) Hblocks). lia.
Qed.

Lemma lab_table_shape_witness :
  match generate_lab_results small_admissions small_staff spread_world with
  | Ok rows _ =>
      keyed_in_order Lab.lab_id rows /\
      exists sampled,
        sample_of 5 small_admissions sampled /\
        blocks_of (fun a => block_of (lab_fields a) 1 4) sampled rows /\
        (List.length sampled <= List.length rows <= 4 * List.length sampled)%nat
  | Raise _ => False
  end.
Proof.
  assert (Hok : is_ok (generate_lab_results small_admissions small_staff
                         spread_world) = true) by (vm_compute; reflexivity).
  destruct (generate_lab_results small_admissions small_staff spread_world)
    as [rows w'|e] eqn:E.
  - exact (lab_table_shape _ _ _ _ _ E).
  - discriminate Hok.
Defined.

(** X15.  The care-plan goal table is keyed 1, 2, ... in row order and
    made of one block of 2 to 4 goals per sampled admission (the
    rounded 60% of the admissions); the type and description of a goal
    are those of one template, its target date is the discharge date of
    the admission, it is created 2 to 24 hours after the admission
    timestamp and last updated a whole number of days, from 1 to the
    length of stay, after it. *)
Theorem goal_table_shape
    (admissions_df : list Admission.t) (staff_df : list Staff.t)
    (w w' : World) (rows : list Goal.t) :
  generate_care_plan_goals admissions_df staff_df w = Ok rows w' ->
  keyed_in_order Goal.goal_id rows /\
  exists sampled,
    sample_of 6 admissions_df sampled /\
    blocks_of (fun a => block_of (goal_fields a) 2 4) sampled rows /\
    (2 * List.length sampled <= List.length rows <= 4 * List.length sampled)%nat.
Proof.
  intros Hrun.
  destruct (generate_care_plan_goals_grows _ _ _ _ _ Hrun)
    as [Hkeys [sampled [Hsampled Hblocks]]].
  split; [exact Hkeys|]. exists sampled. split; [exact Hsampled|].
  split; [exact Hblocks|].
  exact (blocks_of_count _ 2 4 _ _ (fun a blk H => proj1 H) Hblocks).
Qed.

Lemma goal_table_shape_witness :
  match generate_care_plan_goals small_admissions small_staff spread_world with
  | Ok rows _ =>
      keyed_in_order Goal.goal_id rows /\
      exists sampled,
        sample_of 6 small_admissions sampled /\
        blocks_of (fun a => block_of (goal_fields a) 2 4) sampled rows /\
        (2 * List.length sampled <= List.length rows <= 4 * List.length sampled)%nat
  | Raise _ => False
  end.
Proof.
  assert (Hok : is_ok (generate_care_plan_goals small_admissions small_staff
                         spread_world) = true) by (vm_compute; reflexivity).
  destruct (generate_care_plan_goals small_admissions small_staff spread_world)
    as [rows w'|e] eqn:E.
  - exact (goal_table_shape _ _ _ _ _ E).
  - discriminate Hok.
Defined.

(* ================================================================== *)
(** * Fields of the admissions *)

Lemma returns_sample_distinct {X} (key : X -> Z) (n : Z) (l : list X) :
  returns (sample n l)
    (fun rows => incl rows l /\ Z.of_nat (List.length rows) = n /\
                 (NoDup (map key l) -> NoDup (map key rows))).
Proof.
  intros w rows w' Hrun.
  destruct (returns_sample_length n l w rows w' Hrun) as [Hincl Hlen].
  split; [exact Hincl|]. split; [exact Hlen|].
  intros Hnd. unfold sample in Hrun. destruct (n <? 0); [discriminate Hrun|].
  exact (returns_sample_rows_distinct key _ _ Hnd _ _ _ Hrun).
Qed.

(** Adding whole days to a timestamp adds them to its date. *)
Lemma date_of_plus_days (t days : Z) :
  date_of (t + timedelta days 0 0) = date_of t + days.
Proof.
  unfold date_of, timedelta, minutes_per_day.
  replace (t + (days * 1440 + 0 * 60 + 0)) with (t + days * 1440) by lia.
  apply Z.div_add. discriminate.
Qed.

Section AdmissionFields.
Variables (wards_df : list Ward.t) (diagnoses_df : list Diagnosis.t)
          (staff_df : list Staff.t) (beds_df : list Bed.t)
          (start end_ : datetime).

Lemma generate_admission_grows (p : Patient.t) (st : list Admission.t * Z)
    (adm_num : Z) :
  returns (generate_admission p wards_df diagnoses_df staff_df beds_df
             start end_ st adm_num)
          (grows_by Admission.admission_id
             (fun extra => exists a, extra = [a] /\
                admission_fields start end_ diagnoses_df p a) st).
Proof.
  destruct st as [admissions admission_id].
  unfold generate_admission. cbv zeta.
  eapply returns_bind; [apply returns_randint|]. intros days Hdays.
  eapply returns_bind; [apply returns_randint|]. intros hours Hhours.
  eapply returns_bind; [apply returns_randint|]. intros minutes Hminutes.
  eapply returns_bind; [apply returns_sample1|]. intros diagnosis Hdiagnosis.
  eapply returns_bind; [apply returns_any|]. intros los _.
  eapply returns_bind; [apply returns_any|]. intros flag _.
  eapply returns_bind; [apply returns_any|]. intros ward _.
  eapply returns_bind; [apply returns_any|]. intros bed _.
  eapply returns_bind; [apply returns_any|]. intros doctor _.
  eapply returns_bind; [apply returns_choice|]. intros admission_type Htype.
  eapply returns_bind; [apply returns_randint|]. intros num_secondary Hnum.
  eapply returns_bind;
    [apply (returns_sample_distinct Diagnosis.diagnosis_id)|].
  intros secondary [Hincl [Hlen Hdistinct]].
  eapply returns_bind; [apply returns_choice|]. intros disposition Hdisposition.
  eapply returns_bind; [apply returns_uniform_round; lia|]. intros charges Hcharges.
  cbv beta in *.
  apply returns_ret. apply grows_by_append; [reflexivity|].
  eexists. split; [reflexivity|].
  constructor.
  - reflexivity.
  - exists days, hours, minutes. repeat split; lia.
  - split; [reflexivity|]. split; [reflexivity|].
    cbn [Admission.discharge_date Admission.admission_date Admission.length_of_stay].
    apply date_of_plus_days.
  - exists diagnosis. split; [exact Hdiagnosis|]. split; reflexivity.
  - exists secondary. split; [exact Hincl|]. split; [lia|].
    split; [exact Hdistinct|reflexivity].
  - exact Htype.
  - exact Hdisposition.
  - exact Hcharges.
Qed.

Lemma generate_patient_admissions_grows (p : Patient.t) (st : list Admission.t * Z) :
  returns (generate_patient_admissions wards_df diagnoses_df staff_df beds_df
             start end_ st p)
          (grows_by Admission.admission_id
             (block_of (admission_fields start end_ diagnoses_df p) 2 5) st).
Proof.
  unfold generate_patient_admissions.
  step. rename a into n, H into Hn.
  eapply returns_weaken.
  - apply (returns_grows_for_each Admission.admission_id
             (fun _ blk => exists a, blk = [a] /\
                admission_fields start end_ diagnoses_df p a)).
    intros adm_num s _. apply generate_admission_grows.
  - intros s' Hg. eapply grows_by_weaken; [|exact Hg].
    intros extra Hextra. apply singleton_blocks_block in Hextra.
    rewrite range_length in Hextra.
    eapply block_of_weaken; [| |exact Hextra]; lia.
Qed.
End AdmissionFields.

Lemma generate_admissions_grows
    (patients_df : list Patient.t) (wards_df : list Ward.t)
    (diagnoses_df : list Diagnosis.t) (staff_df : list Staff.t)
    (beds_df : list Bed.t) (start_date : ymd) (num_years : Z) :
  returns (generate_admissions patients_df wards_df diagnoses_df staff_df
             beds_df start_date num_years)
    (blocks_of (fun p => block_of
                  (admission_fields (to_datetime start_date)
                     (to_datetime (add_years start_date num_years)) diagnoses_df p)
                  2 5)
               patients_df).
Proof.
  unfold generate_admissions. cbv zeta.
  eapply returns_bind.
  - apply (returns_grows_for_each Admission.admission_id
             (fun p => block_of
                (admission_fields (to_datetime start_date)
                   (to_datetime (add_years start_date num_years)) diagnoses_df p)
                2 5)).
    intros p s _. apply generate_patient_admissions_grows.
  - intros [admissions next_id] Hg. apply returns_ret.
    apply grows_from_empty in Hg. exact (proj2 Hg).
Qed.

(** X16.  The admissions table is made of one block of 2 to 5 rows per
    patient, in patient order.  Every row carries the id of its
    patient; its admission timestamp is the start date plus a whole
    number of days within the horizon, an hour and a minute; its
    admission and discharge dates are the dates of its timestamps and
    differ by the length of stay; its chief complaint is the name of
    the diagnosis its primary id refers to; its secondary diagnoses are
    at most two rows of the diagnosis table, with distinct ids when the
    table has distinct ids, joined by commas; its type and disposition
    are of the fixed lists and its charges between 5000.00 and
    150000.00. *)
Theorem admission_table_fields
    (patients_df : list Patient.t) (wards_df : list Ward.t)
    (diagnoses_df : list Diagnosis.t) (staff_df : list Staff.t)
    (beds_df : list Bed.t) (start_date : ymd) (num_years : Z)
    (w w' : World) (admissions : list Admission.t) :
  generate_admissions patients_df wards_df diagnoses_df staff_df beds_df
                      start_date num_years w = Ok admissions w' ->
  blocks_of (fun p => block_of
               (admission_fields (to_datetime start_date)
                  (to_datetime (add_years start_date num_years)) diagnoses_df p)
               2 5)
            patients_df admissions.
Proof.
  intros Hrun. exact (generate_admissions_grows _ _ _ _ _ _ _ _ _ _ Hrun).
Qed.

Lemma admission_table_fields_witness :
  match generate_admissions small_patients generate_wards generate_diagnoses
                            small_staff small_beds START_DATE NUM_YEARS
                            spread_world with
  | Ok admissions _ =>
      blocks_of (fun p => block_of
                   (admission_fields (to_datetime START_DATE)
                      (to_datetime (add_years START_DATE NUM_YEARS))
                      generate_diagnoses p)
                   2 5)
                small_patients admissions
  | Raise _ => False
  end.
Proof.
  assert (Hok : is_ok (generate_admissions small_patients generate_wards
                         generate_diagnoses small_staff small_beds START_DATE
                         NUM_YEARS spread_world) = true)
    by (vm_compute; reflexivity).
  destruct (generate_admissions small_patients generate_wards generate_diagnoses
              small_staff small_beds START_DATE NUM_YEARS spread_world)
    as [admissions w'|e] eqn:E.
  - exact (admission_table_fields _ _ _ _ _ _ _ _ _ _ E).
  - discriminate Hok.
Defined.

(** In a block whose first row is not flagged, fewer rows are flagged
    than the block holds. *)
Lemma readmission_count_block (blk : list Admission.t) :
  readmission_chain blk -> blk <> [] ->
  (readmission_count blk + 1 <= List.length blk)%nat.
Proof.
  intros [Hfirst _] Hne. destruct blk as [|a rest]; [contradiction|].
  unfold readmission_count. simpl.
  rewrite (Hfirst a eq_refl).
  pose proof (filter_length_le Admission.is_readmission rest). lia.
Qed.

(** X17.  The first admission of every patient being unflagged, the
    number of admissions flagged as readmissions is at most the number
    of admissions minus the number of patients; with at most five
    admissions per patient the readmission rate of the summary is at
    most 80%. *)
Theorem readmission_count_bound
    (patients_df : list Patient.t) (wards_df : list Ward.t)
    (diagnoses_df : list Diagnosis.t) (staff_df : list Staff.t)
    (beds_df : list Bed.t) (start_date : ymd) (num_years : Z)
    (w w' : World) (admissions : list Admission.t) :
  generate_admissions patients_df wards_df diagnoses_df staff_df beds_df
                      start_date num_years w = Ok admissions w' ->
  (readmission_count admissions + List.length patients_df
   <= List.length admissions)%nat /\
  (5 * readmission_count admissions <= 4 * List.length admissions)%nat.
Proof.
  intros Hrun.
  destruct (generate_admissions_blocks _ _ _ _ _ _ _ _ _ _ Hrun)
    as [_ [blocks [Hcat Hblocks]]].
  subst admissions.
  assert (H : (readmission_count (List.concat blocks) + List.length patients_df
               <= List.length (List.concat blocks))%nat /\
              (List.length (List.concat blocks) <= 5 * List.length patients_df)%nat).
  { clear Hrun.
    induction Hblocks as [|p blk ps bs [Hsize [_ Hchain]] _ [IH1 IH2]].
    - simpl. split; lia.
    - assert (Hne : blk <> []) by (intros ->; simpl in Hsize; lia).
      pose proof (readmission_count_block blk Hchain Hne) as Hblk.
      unfold readmission_count in *. cbn [List.concat List.length].
      rewrite filter_app, !length_app. split; lia. }
  destruct H as [H1 H2]. split; [exact H1|lia].
Qed.

Lemma readmission_count_bound_witness :
  match generate_admissions small_patients generate_wards generate_diagnoses
                            small_staff small_beds START_DATE NUM_YEARS
                            spread_world with
  | Ok admissions _ =>
      (readmission_count admissions + List.length small_patients
       <= List.length admissions)%nat /\
      (5 * readmission_count admissions <= 4 * List.length admissions)%nat
  | Raise _ => False
  end.
Proof.
  assert (Hok : is_ok (generate_admissions small_patients generate_wards
                         generate_diagnoses small_staff small_beds START_DATE
                         NUM_YEARS spread_world) = true)
    by (vm_compute; reflexivity).
  destruct (generate_admissions small_patients generate_wards generate_diagnoses
              small_staff small_beds START_DATE NUM_YEARS spread_world)
    as [admissions w'|e] eqn:E.
  - exact (readmission_count_bound _ _ _ _ _ _ _ _ _ _ E).
  - discriminate Hok.
Defined.

(* ================================================================== *)
(** * Outcomes of the child generators *)

(** The rounded fraction of a length lies between the quotient rounded
    down and the length. *)
Lemma round_half_even_bounds (tenths len : Z) :
  0 <= tenths <= 10 -> 0 <= len ->
  tenths * len / 10 <= round_half_even (tenths * len) 10 <= len.
Proof.
  intros Ht Hlen. unfold round_half_even. cbv zeta.
  pose proof (Z.div_mod (tenths * len) 10 ltac:(discriminate)) as Hdm.
  pose proof (Z.mod_pos_bound (tenths * len) 10 ltac:(reflexivity)) as Hmod.
  assert (Hprod : tenths * len <= 10 * len) by nia.
  assert (Hq : tenths * len / 10 <= len) by lia.
  assert (Hq1 : 0 < (tenths * len) mod 10 -> tenths * len / 10 + 1 <= len) by lia.
  destruct (Z.ltb_spec (2 * ((tenths * len) mod 10)) 10); [lia|].
  destruct (Z.ltb_spec 10 (2 * ((tenths * len) mod 10))); [lia|].
  destruct (Z.even (tenths * len / 10)); lia.
Qed.

Section ChildOutcomes.
Context (T : (N -> N) -> Prop) (E : exn -> Prop).

(** Sampling a fraction between 0 and 1 of a frame never raises. *)
Lemma triple_sample_frac {X} (tenths : Z) (l : list X) :
  0 <= tenths <= 10 ->
  triple T (sample_frac tenths l)
    (fun rows => incl rows l /\
       Z.of_nat (List.length rows)
       = round_half_even (tenths * Z.of_nat (List.length l)) 10) E.
Proof.
  intros Ht. unfold sample_frac.
  pose proof (round_half_even_bounds tenths (Z.of_nat (List.length l)) Ht
                ltac:(lia)) as Hb.
  assert (Hq : 0 <= tenths * Z.of_nat (List.length l) / 10)
    by (apply Z.div_pos; nia).
  eapply triple_weaken.
  - apply triple_sample. intros H. exfalso. lia.
  - intros rows [Hincl [Hlen _]]. split; assumption.
Qed.

Variable staff_df : list Staff.t.
Hypothesis Hnurse : filter is_nurse staff_df = [] -> E ValueError.
Hypothesis Hdoctor : filter is_doctor staff_df = [] -> E ValueError.

(** The rows of a loop that is only required not to raise. *)
Let unconstrained {R} (st : list R * Z) : Prop := True.

Lemma generate_dose_outcome (a : Admission.t) (med : Medication.t) (day dose : Z)
    (st : list Mar.t * Z) :
  triple T (generate_dose staff_df a med day st dose) unconstrained E.
Proof.
  destruct st as [rows next_id]. unfold generate_dose. cbv zeta.
  tstep.
  eapply triple_bind.
  { instantiate (1 := fun _ => True).
    destruct (String.eqb a0 "Given"); [tstep|]; apply triple_ret; exact I. }
  intros administered _.
  do 5 tstep. apply triple_ret. exact I.
Qed.

Lemma generate_medication_day_outcome (a : Admission.t) (med : Medication.t)
    (st : list Mar.t * Z) (day : Z) :
  triple T (generate_medication_day staff_df a med st day) unconstrained E.
Proof.
  unfold generate_medication_day. tstep.
  apply triple_for_each; [exact I|]. intros dose s _ _. apply generate_dose_outcome.
Qed.

Lemma generate_medication_course_outcome (a : Admission.t)
    (st : list Mar.t * Z) (med : Medication.t) :
  triple T (generate_medication_course staff_df a st med) unconstrained E.
Proof.
  unfold generate_medication_course.
  apply triple_for_each; [exact I|].
  intros day s _ _. apply generate_medication_day_outcome.
Qed.

Lemma generate_admission_medications_outcome (medications_df : list Medication.t)
    (st : list Mar.t * Z) (a : Admission.t) :
  ((List.length medications_df < 8)%nat -> E ValueError) ->
  triple T (generate_admission_medications medications_df staff_df st a)
         unconstrained E.
Proof.
  intros Hmeds. unfold generate_admission_medications. tstep.
  eapply triple_bind.
  { apply triple_sample. intros [Hneg|Hshort]; [exfalso; lia|].
    apply Hmeds. lia. }
  intros meds _.
  apply triple_for_each; [exact I|].
  intros med s _ _. apply generate_medication_course_outcome.
Qed.

Lemma generate_medication_administration_outcome
    (admissions_df : list Admission.t) (medications_df : list Medication.t) :
  ((List.length medications_df < 8)%nat -> E ValueError) ->
  triple T (generate_medication_administration admissions_df medications_df staff_df)
         (fun _ => True) E.
Proof.
  intros Hmeds. unfold generate_medication_administration.
  eapply triple_bind; [apply triple_sample_frac; lia|]. intros sampled _.
  eapply triple_bind.
  - apply (triple_for_each T E _ unconstrained); [exact I|].
    intros a s _ _. apply generate_admission_medications_outcome. exact Hmeds.
  - intros [rows next_id] _. apply triple_ret. exact I.
Qed.

Lemma generate_vital_signs_outcome (admissions_df : list Admission.t) :
  triple T (generate_vital_signs admissions_df staff_df) (fun _ => True) E.
Proof.
  unfold generate_vital_signs.
  eapply triple_bind; [apply triple_sample_frac; lia|]. intros sampled _.
  eapply triple_bind.
  - apply (triple_for_each T E _ unconstrained); [exact I|].
    intros a s _ _. unfold generate_admission_vitals. tstep.
    apply triple_for_each; [exact I|]. intros day s1 _ _.
    unfold generate_vital_day.
    apply triple_for_each; [exact I|]. intros check [rows next_id] _ _.
    unfold generate_vital_check. cbv zeta.
    do 9 tstep. apply triple_ret. exact I.
  - intros [rows next_id] _. apply triple_ret. exact I.
Qed.

Lemma generate_daily_activities_outcome (admissions_df : list Admission.t) :
  triple T (generate_daily_activities admissions_df staff_df) (fun _ => True) E.
Proof.
  unfold generate_daily_activities.
  eapply triple_bind; [apply triple_sample_frac; lia|]. intros sampled _.
  eapply triple_bind.
  - apply (triple_for_each T E _ unconstrained); [exact I|].
    intros a s _ _. unfold generate_admission_activities.
    apply triple_for_each; [exact I|]. intros day [rows next_id] _ _.
    unfold generate_activity_day. cbv zeta.
    do 20 tstep.
    eapply triple_bind.
    { instantiate (1 := fun _ => True).
      destruct (gt_0_3 _); [tstep|]; apply triple_ret; exact I. }
    intros comments _. apply triple_ret. exact I.
  - intros [rows next_id] _. apply triple_ret. exact I.
Qed.

(** The generators that draw a day of the stay need a stay of at least
    one day. *)
Lemma generate_procedure_events_outcome (admissions_df : list Admission.t)
    (procedures_df : list Procedure.t) :
  (procedures_df = [] -> E ValueError) ->
  (forall a, In a admissions_df -> Admission.length_of_stay a < 1 -> E ValueError) ->
  triple T (generate_procedure_events admissions_df procedures_df staff_df)
         (fun _ => True) E.
Proof.
  intros Hprocs Hlos. unfold generate_procedure_events.
  eapply triple_bind; [apply triple_sample_frac; lia|]. intros sampled [Hincl _].
  eapply triple_bind.
  - apply (triple_for_each T E _ unconstrained); [exact I|].
    intros a s Ha _. unfold generate_admission_procedures. tstep.
    apply triple_for_each; [exact I|]. intros proc_num [rows next_id] _ _.
    unfold generate_procedure_event. cbv zeta.
    do 2 tstep.
    eapply triple_bind.
    { apply triple_randint. intros Hlt. apply (Hlos a (Hincl a Ha)). lia. }
    intros day _.
    do 5 tstep. apply triple_ret. exact I.
  - intros [rows next_id] _. apply triple_ret. exact I.
Qed.

Lemma generate_lab_results_outcome (admissions_df : list Admission.t) :
  (forall a, In a admissions_df -> Admission.length_of_stay a < 1 -> E ValueError) ->
  triple T (generate_lab_results admissions_df staff_df) (fun _ => True) E.
Proof.
  intros Hlos. unfold generate_lab_results.
  eapply triple_bind; [apply triple_sample_frac; lia|]. intros sampled [Hincl _].
  eapply triple_bind.
  - apply (triple_for_each T E _ unconstrained); [exact I|].
    intros a s Ha _. unfold generate_admission_labs. tstep.
    apply triple_for_each; [exact I|]. intros panel [rows next_id] _ _.
    unfold generate_lab_panel. cbv zeta.
    tstep. destruct a1 as [[[test0 test1] test2] test3].
    tstep.
    eapply triple_bind.
    { apply triple_randint. intros Hlt. apply (Hlos a (Hincl a Ha)). lia. }
    intros day _.
    do 4 tstep. apply triple_ret. exact I.
  - intros [rows next_id] _. apply triple_ret. exact I.
Qed.

Lemma generate_care_plan_goals_outcome (admissions_df : list Admission.t) :
  (forall a, In a admissions_df -> Admission.length_of_stay a < 1 -> E ValueError) ->
  triple T (generate_care_plan_goals admissions_df staff_df) (fun _ => True) E.
Proof.
  intros Hlos. unfold generate_care_plan_goals.
  eapply triple_bind; [apply triple_sample_frac; lia|]. intros sampled [Hincl _].
  eapply triple_bind.
  - apply (triple_for_each T E _ unconstrained); [exact I|].
    intros a s Ha _. unfold generate_admission_goals. tstep.
    apply triple_for_each; [exact I|]. intros goal_num [rows next_id] _ _.
    unfold generate_goal. cbv zeta.
    do 3 tstep.
    eapply triple_bind.
    { instantiate (1 := fun _ => True). unfold goal_progress.
      destruct (String.eqb _ "Achieved"); [apply triple_ret; exact I|].
      destruct (String.eqb _ "In Progress"); [|apply triple_ret; exact I].
      eapply triple_weaken; [apply triple_randint; side|]. intros; exact I. }
    intros progress _.
    tstep.
    eapply triple_bind.
    { apply triple_randint. intros Hlt. apply (Hlos a (Hincl a Ha)). lia. }
    intros updated _. apply triple_ret. exact I.
  - intros [rows next_id] _. apply triple_ret. exact I.
Qed.
End ChildOutcomes.

(* ================================================================== *)
(** * Outcomes of the pipeline *)

Lemma los_range_positive (severity : string) : 1 <= fst (los_range severity).
Proof.
  unfold los_range.
  destruct (String.eqb severity "Critical"); [simpl; lia|].
  destruct (String.eqb severity "Serious"); simpl; lia.
Qed.

(** Every generated admission stays at least one day. *)
Lemma patient_blocks_stay (wards_df : list Ward.t) (diagnoses_df : list Diagnosis.t)
    (staff_df : list Staff.t) (beds_df : list Bed.t)
    (patients_df : list Patient.t) (blocks : list (list Admission.t)) :
  Forall2 (patient_block wards_df diagnoses_df staff_df beds_df) patients_df blocks ->
  forall a, In a (List.concat blocks) -> 1 <= Admission.length_of_stay a.
Proof.
  induction 1 as [|p blk ps blks Hblk _ IH]; simpl; intros a Ha; [contradiction|].
  apply in_app_or in Ha. destruct Ha as [Ha|Ha]; [|exact (IH a Ha)].
  destruct Hblk as [_ [Hrows _]]. rewrite Forall_forall in Hrows.
  destruct (Hrows a Ha) as [_ Hok].
  destruct (adm_primary _ _ _ _ _ Hok) as [d [_ [_ Hlos]]].
  pose proof (los_range_positive (Diagnosis.severity_level d)). lia.
Qed.


(** The fact generators in the order of [main]: what may make them
    raise. *)
Lemma generate_facts_outcome (T : (N -> N) -> Prop) (E : exn -> Prop)
    (d : Dimensions) (start_date : ymd) (num_years : Z) :
  (td_days (to_datetime (add_years start_date num_years) - to_datetime start_date) < 0
   -> E ValueError) ->
  (dim_wards d = [] -> E ValueError) ->
  (forall ward, In ward (dim_wards d) ->
     filter (fun b => Bed.ward_id b =? Ward.ward_id ward) (dim_beds d) = [] ->
     E ValueError) ->
  (filter is_doctor (dim_staff d) = [] -> E ValueError) ->
  (filter is_nurse (dim_staff d) = [] -> E ValueError) ->
  ((List.length (dim_diagnoses d) < 2)%nat -> E ValueError) ->
  ((List.length (dim_medications d) < 8)%nat -> E ValueError) ->
  (dim_procedures d = [] -> E ValueError) ->
  triple T (generate_facts d start_date num_years)
    (fun f =>
       (2 * List.length (dim_patients d) <= List.length (fact_admissions f)
        <= 5 * List.length (dim_patients d))%nat) E.
Proof.
  intros Hdays Hwards Hbeds Hdoctors Hnurses Hdiagnoses Hmeds Hprocs.
  unfold generate_facts.
  eapply triple_bind.
  { apply generate_admissions_outcome; try assumption.
    intros Hnil. apply Hdiagnoses. rewrite Hnil. simpl. lia. }
  intros admissions [_ [blocks [Hcat Hblocks]]].
  assert (Hlos : forall a, In a admissions -> Admission.length_of_stay a < 1 ->
                           E ValueError).
  { intros a Ha Hlt. exfalso. rewrite Hcat in Ha.
    pose proof (patient_blocks_stay _ _ _ _ _ _ Hblocks a Ha). lia. }
  eapply triple_bind;
    [apply generate_medication_administration_outcome; assumption|].
  intros mar_df _.
  eapply triple_bind; [apply generate_vital_signs_outcome; assumption|].
  intros vitals_df _.
  eapply triple_bind; [apply generate_daily_activities_outcome; assumption|].
  intros activities_df _.
  eapply triple_bind; [apply generate_procedure_events_outcome; assumption|].
  intros procedures_events_df _.
  eapply triple_bind; [apply generate_lab_results_outcome; assumption|].
  intros labs_df _.
  eapply triple_bind; [apply generate_care_plan_goals_outcome; assumption|].
  intros goals_df _.
  apply triple_ret. cbn [fact_admissions]. rewrite Hcat.
  exact (concat_length_bounds (dim_patients d) blocks Hblocks).
Qed.



(* ================================================================== *)
(** * The medication administration record needs a nurse *)

Lemma sample_frac_three_tenths_positive (len : nat) :
  (2 <= len)%nat -> 1 <= round_half_even (3 * Z.of_nat len) 10.
Proof.
  intros Hlen.
  destruct (Nat.le_gt_cases 4 len) as [Hbig|Hsmall].
  - pose proof (round_half_even_bounds 3 (Z.of_nat len) ltac:(lia) ltac:(lia)) as Hb.
    assert (1 <= 3 * Z.of_nat len / 10) by (apply Z.div_le_lower_bound; lia).
    lia.
  - assert (Hcases : len = 2%nat \/ len = 3%nat) by lia.
    destruct Hcases as [->| ->]; vm_compute; discriminate.
Qed.

Section NeedsNurse.
Context (T : (N -> N) -> Prop).
Variable staff_df : list Staff.t.
Hypothesis Hnone : filter is_nurse staff_df = [].

Lemma generate_dose_needs_nurse (a : Admission.t) (med : Medication.t) (day dose : Z)
    (st : list Mar.t * Z) :
  triple T (generate_dose staff_df a med day st dose) (fun _ => False) value_error.
Proof.
  destruct st as [rows next_id]. unfold generate_dose. cbv zeta.
  tstep.
  eapply triple_bind.
  { instantiate (1 := fun _ => True).
    destruct (String.eqb a0 "Given"); [tstep|]; apply triple_ret; exact I. }
  intros administered _.
  tstep. rewrite Hnone.
  apply triple_bind_never. apply triple_raise. reflexivity.
Qed.

Lemma generate_medication_day_needs_nurse (a : Admission.t) (med : Medication.t)
    (st : list Mar.t * Z) (day : Z) :
  triple T (generate_medication_day staff_df a med st day)
         (fun _ => False) value_error.
Proof.
  unfold generate_medication_day. tstep.
  destruct (range_positive a0) as [rest Hrange]; [lia|].
  rewrite Hrange. cbn [for_each]. apply triple_bind_never.
  apply generate_dose_needs_nurse.
Qed.

Lemma generate_medication_course_needs_nurse (a : Admission.t)
    (st : list Mar.t * Z) (med : Medication.t) :
  1 <= Admission.length_of_stay a ->
  triple T (generate_medication_course staff_df a st med)
         (fun _ => False) value_error.
Proof.
  intros Hlos. unfold generate_medication_course.
  destruct (range_positive (Admission.length_of_stay a)) as [rest Hrange]; [lia|].
  rewrite Hrange. cbn [for_each]. apply triple_bind_never.
  apply generate_medication_day_needs_nurse.
Qed.

Lemma generate_admission_medications_needs_nurse
    (medications_df : list Medication.t) (st : list Mar.t * Z) (a : Admission.t) :
  1 <= Admission.length_of_stay a ->
  triple T (generate_admission_medications medications_df staff_df st a)
         (fun _ => False) value_error.
Proof.
  intros Hlos. unfold generate_admission_medications. tstep.
  eapply triple_bind; [apply triple_sample; intros; reflexivity|].
  intros meds [_ [Hlen _]].
  destruct meds as [|med rest]; [simpl in Hlen; lia|].
  cbn [for_each]. apply triple_bind_never.
  apply generate_medication_course_needs_nurse. exact Hlos.
Qed.

Lemma medication_administration_never (admissions_df : list Admission.t)
    (medications_df : list Medication.t) :
  (2 <= List.length admissions_df)%nat ->
  (forall a, In a admissions_df -> 1 <= Admission.length_of_stay a) ->
  triple T (generate_medication_administration admissions_df medications_df staff_df)
         (fun _ => False) value_error.
Proof.
  intros Hlen Hlos. unfold generate_medication_administration.
  pose proof (sample_frac_three_tenths_positive _ Hlen) as Hpos.
  eapply triple_bind; [apply triple_sample_frac; lia|].
  intros sampled [Hincl Hsampled].
  destruct sampled as [|a rest]; [simpl in Hsampled; lia|].
  apply triple_bind_never. cbn [for_each]. apply triple_bind_never.
  apply generate_admission_medications_needs_nurse.
  apply Hlos. apply Hincl. left. reflexivity.
Qed.
End NeedsNurse.




(* ================================================================== *)
(** * Outcome of [main] *)

Lemma range1_length (n : Z) : List.length (range1 n) = Z.to_nat n.
Proof. unfold range1. rewrite length_map, length_seq. reflexivity. Qed.

(** The dimension tables of [main] are always generated, with the
    configured sizes. *)
Lemma generate_dimensions_outcome (T : (N -> N) -> Prop) (E : exn -> Prop) :
  triple T generate_dimensions
    (fun d =>
       List.length (dim_patients d) = 500%nat /\
       dim_wards d = WARDS /\
       dim_diagnoses d = generate_diagnoses /\
       List.length (dim_medications d) = 200%nat /\
       List.length (dim_procedures d) = 100%nat /\
       map Bed.ward_id (dim_beds d) = bed_wards WARDS) E.
Proof.
  unfold generate_dimensions. cbv zeta.
  eapply triple_bind; [apply generate_patients_outcome|]. intros patients [Hp _].
  eapply triple_bind; [apply generate_staff_outcome|]. intros staff _.
  eapply triple_bind; [apply generate_medications_outcome|]. intros meds [Hm _].
  eapply triple_bind; [apply generate_procedures_outcome|]. intros procs [Hpr _].
  eapply triple_bind; [apply generate_beds_outcome|]. intros beds [_ [Hb _]].
  apply triple_ret. cbn [dim_patients dim_wards dim_diagnoses dim_medications
                         dim_procedures dim_beds].
  split; [rewrite <- (length_map Patient.patient_id), Hp; reflexivity|].
  split; [reflexivity|]. split; [reflexivity|].
  split; [rewrite <- (length_map Medication.medication_id), Hm; reflexivity|].
  split; [rewrite <- (length_map Procedure.procedure_id), Hpr; reflexivity|].
  exact Hb.
Qed.

Lemma existsb_filter {X} (f : X -> bool) (l : list X) :
  existsb f l = false -> filter f l = [].
Proof.
  induction l as [|x l IH]; simpl; [reflexivity|].
  destruct (f x); simpl; [discriminate|exact IH].
Qed.

Lemma existsb_filter_nonempty {X} (f : X -> bool) (l : list X) :
  existsb f l = true -> filter f l <> [].
Proof.
  intros H. apply existsb_exists in H. destruct H as [x [Hin Hf]].
  exact (filter_nonempty f l x Hin Hf).
Qed.

(** The fact generators of [main] cannot return on staff without an
    Attending Physician or Resident, or without a Registered Nurse. *)
Lemma generate_facts_needs_staff (d : Dimensions) (start_date : ymd) (num_years : Z) :
  (1 <= List.length (dim_patients d))%nat ->
  existsb is_doctor (dim_staff d) && existsb is_nurse (dim_staff d) = false ->
  triple any_tape (generate_facts d start_date num_years)
         (fun _ => False) value_error.
Proof.
  intros Hpatients Hstaff. unfold generate_facts.
  destruct (existsb is_doctor (dim_staff d)) eqn:Hdoc.
  - simpl in Hstaff.
    eapply triple_bind.
    { apply generate_admissions_outcome; intros; reflexivity. }
    intros admissions [_ [blocks [Hcat Hblocks]]].
    apply triple_bind_never.
    apply medication_administration_never.
    + apply existsb_filter. exact Hstaff.
    + rewrite Hcat.
      pose proof (concat_length_bounds (dim_patients d) blocks Hblocks). lia.
    + intros a Ha. rewrite Hcat in Ha.
      exact (patient_blocks_stay _ _ _ _ _ _ Hblocks a Ha).
  - apply triple_bind_never.
    destruct (dim_patients d) as [|p ps]; [simpl in Hpatients; lia|].
    unfold generate_admissions. cbv zeta. apply triple_bind_never.
    apply first_admission_never. apply first_admission_needs_tables.
    right. right. right. apply existsb_filter. exact Hdoc.
Qed.

(** X20.  In every world [main] generates its dimension tables, and it
    then returns the dimension and fact tables exactly when the staff
    table it drew has an Attending Physician or Resident and a
    Registered Nurse; otherwise it raises [ValueError]. *)
Theorem main_outcome (w : World) :
  exists d w1,
    generate_dimensions w = Ok d w1 /\
    if existsb is_doctor (dim_staff d) && existsb is_nurse (dim_staff d)
    then exists f w', main w = Ok (d, f) w'
    else main w = Raise ValueError.
Proof.
  destruct (triple_total _ _ (generate_dimensions_outcome any_tape no_exn) w)
    as [d [w1 [Hrun [Hp [Hw [Hdg [Hm [Hpr Hb]]]]]]]].
  exists d, w1. split; [exact Hrun|].
  assert (Hmain : main w =
                  match generate_facts d START_DATE NUM_YEARS w1 with
                  | Ok f w' => Ok (d, f) w'
                  | Raise e => Raise e
                  end).
  { unfold main, bind. rewrite Hrun. reflexivity. }
  destruct (existsb is_doctor (dim_staff d) && existsb is_nurse (dim_staff d))
    eqn:Hstaff.
  - apply andb_true_iff in Hstaff. destruct Hstaff as [Hdoc Hnurse].
    assert (H : triple any_tape (generate_facts d START_DATE NUM_YEARS)
                  (fun f =>
                     (2 * List.length (dim_patients d)
                      <= List.length (fact_admissions f)
                      <= 5 * List.length (dim_patients d))%nat) no_exn).
    { apply generate_facts_outcome.
      - vm_compute. discriminate.
      - rewrite Hw. discriminate.
      - intros ward Hward Hnil. rewrite Hw in Hward.
        exact (configured_wards_have_beds _ ward Hb Hward Hnil).
      - exact (existsb_filter_nonempty _ _ Hdoc).
      - exact (existsb_filter_nonempty _ _ Hnurse).
      - rewrite Hdg. vm_compute. lia.
      - rewrite Hm. lia.
      - intros Hnil. rewrite Hnil in Hpr. discriminate Hpr. }
    destruct (triple_total _ _ H w1) as [f [w' [Hfacts _]]].
    exists f, w'. rewrite Hmain, Hfacts. reflexivity.
  - assert (H : triple any_tape (generate_facts d START_DATE NUM_YEARS)
                  (fun _ => False) value_error).
    { apply generate_facts_needs_staff; [lia|exact Hstaff]. }
    destruct (triple_never _ _ _ H w1 I) as [e [Hfacts He]].
    rewrite Hmain, Hfacts, He. reflexivity.
Qed.
